(** * Schoology calendar: reconciliation of file imports and scrape syncs

    A shallow embedding of the parts of the application that decide how
    calendar events are parsed, classified, stored and filtered:

    - [IcsParserService]   (src/app/core/services, ICS parser)
    - [StorageService]     (Dexie tables [events] and [courses])
    - [EventManagerService] (course filter, bulk writes)
    - [ImportComponent.processFiles] (file import)
    - [SchoologyScraper], [SyncService.processScrapedData] and
      [SyncService.syncNow] (scrape sync)
    - [FileUploadService] (validation of selected files)
    - the subjects of [EventManagerService] (what the views show)

    Conventions.  A Dexie table is a finite map from primary key to row;
    [toArray] lists it in primary-key order, as IndexedDB does.  A JavaScript
    [Map] is a [gmap], a [Set] a [gset].  Asynchronous methods that read and
    write the database are computations in the monad [Async], which threads
    the database and carries a rejection.  Values that JavaScript draws from
    the environment ([new Date()], [Math.random()], generated identifiers)
    are read from an explicit [Ambient] record.  A text is the sequence of
    its characters; lower-casing, white space and line terminators are
    modelled for the ASCII characters, and a theorem that depends on them
    assumes texts of ASCII characters ([JS.isAscii]).  The libraries ical.js,
    Dexie and puppeteer are outside the repository: a document is given by
    what [ICAL.parse] and [ICAL.Event] make of it. *)

From Stdlib Require Import ZArith String Ascii List Lia DecimalString.
From stdpp Require Import gmap strings list sorting.

Local Open Scope string_scope.

(* ===================================================================== *)
(** ** JavaScript values *)

Module JS.

(** [String.prototype.toLowerCase] for texts of ASCII characters: the
    letters A to Z are mapped, every other character stands for itself.
    (The lower-casing of other characters is not modelled.) *)
Definition lower (c : ascii) : ascii :=
  let n := nat_of_ascii c in
  if (65 <=? n)%nat && (n <=? 90)%nat then ascii_of_nat (n + 32) else c.

Fixpoint toLowerCase (s : string) : string :=
  match s with
  | EmptyString => EmptyString
  | String c r => String (lower c) (toLowerCase r)
  end.

(** [s.includes(sub)]. *)
Fixpoint includes (s sub : string) : bool :=
  if String.prefix sub s then true
  else match s with
       | EmptyString => false
       | String _ r => includes r sub
       end.

(** [x || d] for a string property [x] that may be undefined: the empty
    string is falsy as well. *)
Definition or_else (x : option string) (d : string) : string :=
  match x with
  | Some s => if String.eqb s "" then d else s
  | None => d
  end.

(** [x || undefined]. *)
Definition or_undefined (x : option string) : option string :=
  match x with
  | Some s => if String.eqb s "" then None else Some s
  | None => None
  end.

(** A thrown value: [error instanceof Error] or anything else. *)
Inductive Thrown :=
| ErrorObject (message : string)
| OtherValue.

(** [error instanceof Error ? error.message : 'Unknown error'] *)
Definition messageOf (t : Thrown) : string :=
  match t with
  | ErrorObject m => m
  | OtherValue => "Unknown error"
  end.

(** [array.includes(x)] on an array of strings. *)
Definition arrayIncludes (l : list string) (x : string) : bool :=
  existsb (String.eqb x) l.

(** Whether every character of the text is an ASCII character. *)
Fixpoint isAscii (s : string) : bool :=
  match s with
  | EmptyString => true
  | String c r => (nat_of_ascii c <? 128)%nat && isAscii r
  end.

(** A hexadecimal digit, in lower case. *)
Definition hexDigit (n : nat) : ascii :=
  ascii_of_nat (if (n <? 10)%nat then 48 + n else 87 + n).

(** What [JSON.stringify] writes for one character of a string: the quote
    and the backslash are escaped, the control characters are written
    [\b], [\f], [\n], [\r], [\t] or [\u00xx], any other character
    stands for itself. *)
Definition escapeJSON (c : ascii) : string :=
  let n := nat_of_ascii c in
  let backslash := String (ascii_of_nat 92) EmptyString in
  if (n =? 34)%nat then backslash +:+ String (ascii_of_nat 34) EmptyString
  else if (n =? 92)%nat then backslash +:+ backslash
  else if (n =? 8)%nat then backslash +:+ "b"
  else if (n =? 12)%nat then backslash +:+ "f"
  else if (n =? 10)%nat then backslash +:+ "n"
  else if (n =? 13)%nat then backslash +:+ "r"
  else if (n =? 9)%nat then backslash +:+ "t"
  else if (n <? 32)%nat
  then backslash +:+ "u00"
       +:+ String (hexDigit (n / 16))
             (String (hexDigit (n mod 16)) EmptyString)
  else String c EmptyString.

(** The characters of a string as [JSON.stringify] writes them between
    the quotes. *)
Fixpoint quoteJSON (s : string) : string :=
  match s with
  | EmptyString => EmptyString
  | String c r => escapeJSON c +:+ quoteJSON r
  end.

End JS.

(* ===================================================================== *)
(** ** Dates *)

(** A JavaScript [Date]: a time value in milliseconds since the epoch, or
    the invalid date (time value NaN). *)
Inductive Date :=
| Instant (ms : Z)
| InvalidDate.

Module JSDate.

(** [a < b] on dates compares time values; any comparison with NaN is
    false. *)
Definition lt (a b : Date) : bool :=
  match a, b with
  | Instant x, Instant y => (x <? y)%Z
  | _, _ => false
  end.

(** Days from 1970-01-01 to the civil date [y]-[m]-[d] (proleptic
    Gregorian calendar); a day past the end of the month runs into the
    next one, as [MakeDay] does. *)
Definition daysFromCivil (y m d : Z) : Z :=
  let y' := if (m <=? 2)%Z then (y - 1)%Z else y in
  let era := (y' / 400)%Z in
  let yoe := (y' - era * 400)%Z in
  let mp := if (2 <? m)%Z then (m - 3)%Z else (m + 9)%Z in
  let doy := ((153 * mp + 2) / 5 + d - 1)%Z in
  let doe := (yoe * 365 + yoe / 4 - yoe / 100 + doy)%Z in
  (era * 146097 + doe - 719468)%Z.

(** [Date.UTC(y, m, d, h, mi, s, ms)] with [m] counted from 1. *)
Definition UTC (y m d h mi s ms : Z) : Z :=
  ((((daysFromCivil y m d * 24 + h) * 60 + mi) * 60 + s) * 1000 + ms)%Z.

Definition digit (c : ascii) : option Z :=
  let n := nat_of_ascii c in
  if (48 <=? n)%nat && (n <=? 57)%nat then Some (Z.of_nat (n - 48)) else None.

Fixpoint digits (acc : Z) (s : string) : option Z :=
  match s with
  | EmptyString => Some acc
  | String c r =>
      match digit c with
      | Some v => digits (acc * 10 + v)%Z r
      | None => None
      end
  end.

(** The decimal number written in [s[from .. from+len)]. *)
Definition field (s : string) (from len : nat) : option Z :=
  let part := String.substring from len s in
  if (String.length part =? len)%nat then digits 0 part else None.

Definition charAt (s : string) (i : nat) : string := String.substring i 1 s.

Definition inRange (lo hi v : Z) : bool := (lo <=? v)%Z && (v <=? hi)%Z.

(** [new Date(text)] for the date-time format that [toISOString] writes,
    [YYYY-MM-DDTHH:mm:ss.sssZ], the milliseconds being optional; the
    scraper writes nothing else into [dueDate].  The other formats that
    [new Date] reads are not modelled: the value is [InvalidDate] for them,
    and a theorem that speaks of the dates read from a text assumes that
    the text is in this format ([parse text <> InvalidDate]). *)
Definition parse (text : string) : Date :=
  let n := String.length text in
  let punct :=
    String.eqb (charAt text 4) "-" && String.eqb (charAt text 7) "-" &&
    String.eqb (charAt text 10) "T" && String.eqb (charAt text 13) ":" &&
    String.eqb (charAt text 16) ":" in
  let tail : option Z :=
    if (n =? 24)%nat && String.eqb (charAt text 19) "." &&
       String.eqb (charAt text 23) "Z"
    then field text 20 3
    else if (n =? 20)%nat && String.eqb (charAt text 19) "Z" then Some 0%Z
    else None in
  match field text 0 4, field text 5 2, field text 8 2,
        field text 11 2, field text 14 2, field text 17 2, tail with
  | Some y, Some m, Some d, Some h, Some mi, Some s, Some ms =>
      if punct && inRange 1 12 m && inRange 1 31 d && inRange 0 23 h &&
         inRange 0 59 mi && inRange 0 59 s
      then Instant (UTC y m d h mi s ms)
      else InvalidDate
  | _, _, _, _, _, _, _ => InvalidDate
  end.

End JSDate.

(* ===================================================================== *)
(** ** Data model (src/app/core/models) *)

Inductive EventType := ASSIGNMENT | EXAM | QUIZ | PROJECT | OTHER.

Inductive EventStatus := UPCOMING | OVERDUE | COMPLETED.

Record RecurrenceRule := {
  frequency : string;
  interval : nat;
  until : option Date
}.

Module CalendarEvent.
Record t := {
  id : string;
  title : string;
  description : string;
  startDate : Date;
  endDate : Date;
  eventType : EventType;
  courseId : string;
  courseName : string;
  courseColor : string;
  location : option string;
  status : EventStatus;
  isAllDay : bool;
  recurrence : option RecurrenceRule;
  rawIcsData : option string
}.

(** The object [{ ...e, status: s }]. *)
Definition withStatus (s : EventStatus) (e : t) : t :=
  {| id := id e; title := title e; description := description e;
     startDate := startDate e; endDate := endDate e;
     eventType := eventType e; courseId := courseId e;
     courseName := courseName e; courseColor := courseColor e;
     location := location e; status := s; isAllDay := isAllDay e;
     recurrence := recurrence e; rawIcsData := rawIcsData e |}.
End CalendarEvent.

Module Course.
Record t := {
  id : string;
  name : string;
  color : string;
  isActive : bool;
  importedDate : Date;
  eventCount : nat;
  icsFileName : string
}.

(** The object [{ ...c, eventCount: n }]. *)
Definition withEventCount (n : nat) (c : t) : t :=
  {| id := id c; name := name c; color := color c; isActive := isActive c;
     importedDate := importedDate c; eventCount := n;
     icsFileName := icsFileName c |}.

(** The object [{ ...c, isActive: b }]. *)
Definition withIsActive (b : bool) (c : t) : t :=
  {| id := id c; name := name c; color := color c; isActive := b;
     importedDate := importedDate c; eventCount := eventCount c;
     icsFileName := icsFileName c |}.
End Course.

Global Instance EventType_eq_dec : EqDecision EventType.
Proof. solve_decision. Defined.

Global Instance EventStatus_eq_dec : EqDecision EventStatus.
Proof. solve_decision. Defined.

(** The fifteen course colours, shared by [generateRandomColor] and
    [processScrapedData]. *)
Definition colorPalette : list string :=
  [ "#FF6B6B"; "#4ECDC4"; "#45B7D1"; "#FFA07A"; "#98D8C8";
    "#6C5CE7"; "#A29BFE"; "#FD79A8"; "#FDCB6E"; "#E17055";
    "#74B9FF"; "#A29BFE"; "#00B894"; "#00CEC9"; "#FF7675" ].

(** [colorPalette[i]] for an index within the palette. *)
Definition paletteAt (i : nat) : string := nth i colorPalette "".

(* ===================================================================== *)
(** ** Type classification as specified *)


(* ===================================================================== *)
(** ** Values drawn from the environment *)

(** What JavaScript reads from outside the program during one loop: the
    [k]-th turn of the loop sees the clock at [now k], gets [uniqueId k]
    from the identifier generator ([generateUniqueId], [generateId]) and
    [random k] for [Math.floor(Math.random() * colors.length)]. *)
Record Ambient := {
  now : nat -> Z;
  uniqueId : nat -> string;
  random : nat -> nat
}.

(** [colors[Math.floor(Math.random() * colors.length)]] *)
Definition randomColor (amb : Ambient) (k : nat) : string :=
  paletteAt (random amb k mod length colorPalette).

(* ===================================================================== *)
(** ** The ICS parser (IcsParserService) *)

(** What ical.js hands to the parser. *)
Module ICAL.

(** The value of an [rrule] property. *)
Record Recur := {
  freq : option string;
  interval : option nat;
  until : option Date
}.

(** An [ICAL.Event]: the properties that [transformToCalendarEvent]
    reads. [rrule] is the value of the first rrule property, when the
    component has one and it has a value. *)
Record Event := {
  uid : option string;
  summary : option string;
  description : option string;
  startDate : Date;
  endDate : Date;
  isDate : bool;
  location : option string;
  rrule : option Recur;
  toString : string
}.

(** A [vevent] subcomponent: building the [ICAL.Event] and reading its
    properties either throws or yields the event. *)
Inductive VEvent :=
| Raises (err : JS.Thrown)
| Yields (e : Event).

(** A document: [ICAL.parse] and [new ICAL.Component] either throw or
    give a component with an optional [x-wr-calname] and its [vevent]
    subcomponents in document order. *)
Inductive Document :=
| Malformed (err : JS.Thrown)
| Component (calname : option string) (vevents : list VEvent).

End ICAL.

Inductive Severity := SeverityError | SeverityWarning.

Record ImportError := {
  line : option nat;
  message : string;
  severity : Severity
}.

(** [IcsImportResult]; [events] is the property that [parseIcsFile] adds
    to the result once the document has been read. *)
Module IcsImportResult.
Record t := {
  success : bool;
  fileName : string;
  courseId : string;
  courseName : string;
  eventsImported : nat;
  errors : list ImportError;
  warnings : list string;
  events : option (list CalendarEvent.t)
}.
End IcsImportResult.

Module IcsParserService.

(** [detectEventType(summary, description)] *)
Definition detectEventType (summary description : string) : EventType :=
  let text := JS.toLowerCase (summary +:+ " " +:+ description) in
  if JS.includes text "exam" || JS.includes text "test" ||
     JS.includes text "midterm" || JS.includes text "final"
  then EXAM
  else if JS.includes text "quiz" then QUIZ
  else if JS.includes text "project" then PROJECT
  else if JS.includes text "assignment" || JS.includes text "homework" ||
          JS.includes text "hw"
  then ASSIGNMENT
  else OTHER.

(** [determineEventStatus(endDate, now)] *)
Definition determineEventStatus (endDate now : Date) : EventStatus :=
  if JSDate.lt endDate now then OVERDUE else UPCOMING.

(** [extractRecurrence(icalEvent)]; a missing [freq] makes
    [freq.toLowerCase()] throw, which the method catches. *)
Definition extractRecurrence (e : ICAL.Event) : option RecurrenceRule :=
  match ICAL.rrule e with
  | None => None
  | Some r =>
      match ICAL.freq r with
      | None => None
      | Some f =>
          Some {| frequency := JS.toLowerCase f;
                  interval := match ICAL.interval r with
                              | Some (S n) => S n
                              | _ => 1
                              end;
                  until := ICAL.until r |}
      end
  end.

(** [transformToCalendarEvent(icalEvent, courseId, courseName,
    courseColor)] at clock reading [clock], the identifier generator
    returning [fresh] if it is called. *)
Definition transformToCalendarEvent (clock : Z) (fresh : string)
    (e : ICAL.Event) (courseId courseName courseColor : string)
    : CalendarEvent.t :=
  {| CalendarEvent.id := JS.or_else (ICAL.uid e) fresh;
     CalendarEvent.title := JS.or_else (ICAL.summary e) "Untitled Event";
     CalendarEvent.description := JS.or_else (ICAL.description e) "";
     CalendarEvent.startDate := ICAL.startDate e;
     CalendarEvent.endDate := ICAL.endDate e;
     CalendarEvent.eventType :=
       detectEventType (JS.or_else (ICAL.summary e) "")
                       (JS.or_else (ICAL.description e) "");
     CalendarEvent.courseId := courseId;
     CalendarEvent.courseName := courseName;
     CalendarEvent.courseColor := courseColor;
     CalendarEvent.location := JS.or_undefined (ICAL.location e);
     CalendarEvent.status :=
       determineEventStatus (ICAL.endDate e) (Instant clock);
     CalendarEvent.isAllDay := ICAL.isDate e;
     CalendarEvent.recurrence := extractRecurrence e;
     CalendarEvent.rawIcsData := Some (ICAL.toString e) |}.

(** The [forEach] over the [vevent]s, from position [index] on: the
    events pushed and the per-entry errors pushed, each in document
    order. *)
Fixpoint convert (amb : Ambient) (courseId courseName courseColor : string)
    (index : nat) (vevents : list ICAL.VEvent)
    : list CalendarEvent.t * list ImportError :=
  match vevents with
  | [] => ([], [])
  | v :: rest =>
      let '(evs, errs) :=
        convert amb courseId courseName courseColor (S index) rest in
      match v with
      | ICAL.Yields e =>
          (transformToCalendarEvent (now amb index) (uniqueId amb index) e
             courseId courseName courseColor :: evs, errs)
      | ICAL.Raises err =>
          (evs,
           {| line := Some (index + 1);
              message := "Failed to parse event: " +:+ JS.messageOf err;
              severity := SeverityError |} :: errs)
      end
  end.

(** [parseIcsFile(fileContent, courseId, courseName, courseColor,
    fileName)] *)
Definition parseIcsFile (amb : Ambient) (fileContent : ICAL.Document)
    (courseId courseName courseColor fileName : string)
    : IcsImportResult.t :=
  match fileContent with
  | ICAL.Component _ vevents =>
      let '(evs, errs) :=
        convert amb courseId courseName courseColor 0 vevents in
      {| IcsImportResult.success := (0 <? length evs)%nat;
         IcsImportResult.fileName := fileName;
         IcsImportResult.courseId := courseId;
         IcsImportResult.courseName := courseName;
         IcsImportResult.eventsImported := length evs;
         IcsImportResult.errors := errs;
         IcsImportResult.warnings :=
           if (length vevents =? 0)%nat
           then ["No events found in ICS file"] else [];
         IcsImportResult.events := Some evs |}
  | ICAL.Malformed err =>
      {| IcsImportResult.success := false;
         IcsImportResult.fileName := fileName;
         IcsImportResult.courseId := courseId;
         IcsImportResult.courseName := courseName;
         IcsImportResult.eventsImported := 0;
         IcsImportResult.errors :=
           [ {| line := None;
                message := "Failed to parse ICS file: " +:+ JS.messageOf err;
                severity := SeverityError |} ];
         IcsImportResult.warnings := [];
         IcsImportResult.events := None |}
  end.

(** *** Course name *)

Definition upper (c : ascii) : ascii :=
  let n := nat_of_ascii c in
  if (97 <=? n)%nat && (n <=? 122)%nat then ascii_of_nat (n - 32) else c.

(** The class [\w]: letters, digits and the underscore. *)
Definition isWord (c : ascii) : bool :=
  let n := nat_of_ascii c in
  ((65 <=? n)%nat && (n <=? 90)%nat) || ((97 <=? n)%nat && (n <=? 122)%nat)
  || ((48 <=? n)%nat && (n <=? 57)%nat) || (n =? 95)%nat.

Definition endsWith (s suffix : string) : bool :=
  let n := String.length s in
  let m := String.length suffix in
  (m <=? n)%nat && String.eqb (String.substring (n - m) m s) suffix.

(** Group 1 of [/^(.+?)(?:-calendar)?\.ics$/i] on [fileName]: the
    shortest non-empty prefix that leaves [-calendar.ics] or [.ics]; the
    dot of the group matches no line terminator, which are LF and CR among
    the ASCII characters. *)
Definition matchFileName (fileName : string) : option string :=
  let n := String.length fileName in
  let low := JS.toLowerCase fileName in
  if JS.includes fileName (String (ascii_of_nat 10) EmptyString)
     || JS.includes fileName (String (ascii_of_nat 13) EmptyString)
  then None
  else if endsWith low "-calendar.ics" && (13 <? n)%nat
  then Some (String.substring 0 (n - 13) fileName)
  else if endsWith low ".ics" && (4 <? n)%nat
  then Some (String.substring 0 (n - 4) fileName)
  else None.

(** [.replace(/[-_]/g, ' ')] *)
Fixpoint separatorsToSpaces (s : string) : string :=
  match s with
  | EmptyString => EmptyString
  | String c r =>
      String (if (nat_of_ascii c =? 45)%nat || (nat_of_ascii c =? 95)%nat
              then ascii_of_nat 32 else c)
             (separatorsToSpaces r)
  end.

(** [.replace(/\b\w/g, l => l.toUpperCase())]; [inWord] tells whether
    the character before [s] is a word character. *)
Fixpoint capitalizeWords (inWord : bool) (s : string) : string :=
  match s with
  | EmptyString => EmptyString
  | String c r =>
      String (if isWord c && negb inWord then upper c else c)
             (capitalizeWords (isWord c) r)
  end.

(** [extractCourseName(icsContent, fileName)] *)
Definition extractCourseName (icsContent : ICAL.Document)
    (fileName : string) : string :=
  match icsContent with
  | ICAL.Malformed _ => "Unnamed Course"
  | ICAL.Component calname _ =>
      match JS.or_undefined calname with
      | Some calName => calName
      | None =>
          match matchFileName fileName with
          | Some stem => capitalizeWords false (separatorsToSpaces stem)
          | None => "Unnamed Course"
          end
      end
  end.

End IcsParserService.

(* ===================================================================== *)
(** ** Dexie tables and the database *)

Module Dexie.

(** The order of primary keys: strings compared character by
    character. *)
Definition keyLe {Row : Type} (a b : string * Row) : Prop :=
  String.leb a.1 b.1 = true.

Global Instance keyLe_dec {Row : Type} (a b : string * Row)
  : Decision (keyLe a b) := decide (String.leb a.1 b.1 = true).

(** [table.toArray()]: the rows in primary-key order. *)
Definition toArray {Row : Type} (t : gmap string Row) : list Row :=
  (merge_sort keyLe (map_to_list t)).*2.

(** [table.add(row)]: refused ([ConstraintError]) when the key is
    taken. *)
Definition add {Row : Type} (key : string) (row : Row)
    (t : gmap string Row) : option (gmap string Row) :=
  match t !! key with
  | Some _ => None
  | None => Some (<[key := row]> t)
  end.

(** [table.bulkPut(rows)]: each row written under its own key, in array
    order. *)
Definition bulkPut {Row : Type} (keyOf : Row -> string) (rows : list Row)
    (t : gmap string Row) : gmap string Row :=
  foldl (fun acc r => <[keyOf r := r]> acc) t rows.

(** [table.update(key, changes)]: nothing happens when the key is
    absent. *)
Definition update {Row : Type} (key : string) (changes : Row -> Row)
    (t : gmap string Row) : gmap string Row :=
  alter changes key t.

(** [table.bulkDelete(keys)] *)
Definition bulkDelete {Row : Type} (keys : list string)
    (t : gmap string Row) : gmap string Row :=
  foldl (fun acc k => delete k acc) t keys.

Definition ConstraintError : JS.Thrown :=
  JS.ErrorObject "Key already exists in the object store.".


(** [table.get(key)] *)
Definition get {Row : Type} (key : string) (t : gmap string Row)
    : option Row :=
  t !! key.

(** [table.where(index).equals(value).toArray()], the index value of a row
    being tested by [matches]: the matching rows in primary-key order. *)
Definition whereToArray {Row : Type} (matches : Row -> bool)
    (t : gmap string Row) : list Row :=
  List.filter matches (toArray t).

(** [table.where(index).equals(value).delete()]: the table without the
    matching rows. *)
Definition whereDelete {Row : Type} (matches : Row -> bool)
    (t : gmap string Row) : gmap string Row :=
  filter (fun kr => matches kr.2 = false) t.

(** [table.count()] *)
Definition count {Row : Type} (t : gmap string Row) : nat := size t.
End Dexie.

(** [AppDatabase]: the tables [events] and [courses], keyed by [id]. *)
Module AppDatabase.
Record t := {
  events : gmap string CalendarEvent.t;
  courses : gmap string Course.t
}.

Definition empty : t := {| events := ∅; courses := ∅ |}.

Definition withEvents (ev : gmap string CalendarEvent.t) (db : t) : t :=
  {| events := ev; courses := courses db |}.

Definition withCourses (co : gmap string Course.t) (db : t) : t :=
  {| events := events db; courses := co |}.

(** Every row of both tables is stored under its own [id], as Dexie keeps
    tables whose key path is [id]. *)
Definition keyed (db : t) : Prop :=
  map_Forall (fun k e => CalendarEvent.id e = k) (events db)
  /\ map_Forall (fun k c => Course.id c = k) (courses db).
End AppDatabase.

(** How a promise over the database settles. *)
Inductive Settled (A : Type) :=
| Fulfilled (value : A) (db : AppDatabase.t)
| Rejected (reason : JS.Thrown) (db : AppDatabase.t).

Arguments Fulfilled {A} value db.
Arguments Rejected {A} reason db.

(** An [async] method: it runs from a database state and settles. *)
Definition Async (A : Type) : Type := AppDatabase.t -> Settled A.

Definition resolve {A : Type} (a : A) : Async A :=
  fun db => Fulfilled a db.

(** [const x = await m; k x] *)
Definition await {A B : Type} (m : Async A) (k : A -> Async B) : Async B :=
  fun db =>
    match m db with
    | Fulfilled a db' => k a db'
    | Rejected e db' => Rejected e db'
    end.

(** [try { m } catch (error) { h error }] *)
Definition tryCatch {A : Type} (m : Async A) (h : JS.Thrown -> Async A)
    : Async A :=
  fun db =>
    match m db with
    | Fulfilled a db' => Fulfilled a db'
    | Rejected e db' => h e db'
    end.

Notation "x <- m ;; k" := (await m (fun x => k))
  (at level 100, m at next level, right associativity).

(** The database a settled promise leaves behind. *)
Definition dbOf {A : Type} (s : Settled A) : AppDatabase.t :=
  match s with
  | Fulfilled _ db => db
  | Rejected _ db => db
  end.

(** [for (let i = from; ...; i++) { state = await body(i, items[i], state) }] *)
Fixpoint forEachFrom {A St : Type} (body : nat -> A -> St -> Async St)
    (i : nat) (items : list A) (state : St) : Async St :=
  match items with
  | [] => resolve state
  | x :: rest => s' <- body i x state ;; forEachFrom body (S i) rest s'
  end.

(* ===================================================================== *)
(** ** StorageService and EventManagerService *)

Module StorageService.

(** [addEvents(events)]: [db.events.bulkPut(events)] *)
Definition addEvents (evs : list CalendarEvent.t) : Async unit :=
  fun db =>
    Fulfilled tt
      (AppDatabase.withEvents
         (Dexie.bulkPut CalendarEvent.id evs (AppDatabase.events db)) db).

(** [getAllEvents()] *)
Definition getAllEvents : Async (list CalendarEvent.t) :=
  fun db => Fulfilled (Dexie.toArray (AppDatabase.events db)) db.

(** [updateEvent(id, changes)] *)
Definition updateEvent (id : string)
    (changes : CalendarEvent.t -> CalendarEvent.t) : Async unit :=
  fun db =>
    Fulfilled tt
      (AppDatabase.withEvents
         (Dexie.update id changes (AppDatabase.events db)) db).

(** [addCourse(course)]: [db.courses.add(course)] *)
Definition addCourse (course : Course.t) : Async string :=
  fun db =>
    match Dexie.add (Course.id course) course (AppDatabase.courses db) with
    | Some co => Fulfilled (Course.id course) (AppDatabase.withCourses co db)
    | None => Rejected Dexie.ConstraintError db
    end.

(** [getAllCourses()] *)
Definition getAllCourses : Async (list Course.t) :=
  fun db => Fulfilled (Dexie.toArray (AppDatabase.courses db)) db.


(** [addEvent(event)]: [db.events.add(event)] *)
Definition addEvent (event : CalendarEvent.t) : Async string :=
  fun db =>
    match Dexie.add (CalendarEvent.id event) event
                    (AppDatabase.events db) with
    | Some ev =>
        Fulfilled (CalendarEvent.id event) (AppDatabase.withEvents ev db)
    | None => Rejected Dexie.ConstraintError db
    end.

(** [getEvent(id)] *)
Definition getEvent (id : string) : Async (option CalendarEvent.t) :=
  fun db => Fulfilled (Dexie.get id (AppDatabase.events db)) db.

(** [getEventsByCourse(courseId)] *)
Definition getEventsByCourse (courseId : string)
    : Async (list CalendarEvent.t) :=
  fun db =>
    Fulfilled
      (Dexie.whereToArray
         (fun e => String.eqb (CalendarEvent.courseId e) courseId)
         (AppDatabase.events db)) db.

(** [getEventsByStatus(status)] *)
Definition getEventsByStatus (status : EventStatus)
    : Async (list CalendarEvent.t) :=
  fun db =>
    Fulfilled
      (Dexie.whereToArray
         (fun e => bool_decide (CalendarEvent.status e = status))
         (AppDatabase.events db)) db.

(** [deleteEvent(id)] *)
Definition deleteEvent (id : string) : Async unit :=
  fun db =>
    Fulfilled tt
      (AppDatabase.withEvents (delete id (AppDatabase.events db)) db).

(** [deleteEventsByCourse(courseId)]: the number of rows deleted. *)
Definition deleteEventsByCourse (courseId : string) : Async nat :=
  fun db =>
    let ofCourse e := String.eqb (CalendarEvent.courseId e) courseId in
    Fulfilled
      (length (Dexie.whereToArray ofCourse (AppDatabase.events db)))
      (AppDatabase.withEvents
         (Dexie.whereDelete ofCourse (AppDatabase.events db)) db).

(** [deleteAllEvents()] *)
Definition deleteAllEvents : Async unit :=
  fun db => Fulfilled tt (AppDatabase.withEvents ∅ db).

(** [addCourses(courses)]: [db.courses.bulkPut(courses)] *)
Definition addCourses (cs : list Course.t) : Async unit :=
  fun db =>
    Fulfilled tt
      (AppDatabase.withCourses
         (Dexie.bulkPut Course.id cs (AppDatabase.courses db)) db).

(** [getCourse(id)] *)
Definition getCourse (id : string) : Async (option Course.t) :=
  fun db => Fulfilled (Dexie.get id (AppDatabase.courses db)) db.

(** [getActiveCourses()] *)
Definition getActiveCourses : Async (list Course.t) :=
  fun db =>
    Fulfilled
      (List.filter (fun c => Bool.eqb (Course.isActive c) true)
         (Dexie.toArray (AppDatabase.courses db))) db.

(** [updateCourse(id, changes)] *)
Definition updateCourse (id : string) (changes : Course.t -> Course.t)
    : Async unit :=
  fun db =>
    Fulfilled tt
      (AppDatabase.withCourses
         (Dexie.update id changes (AppDatabase.courses db)) db).

(** [toggleCourseActive(id)] *)
Definition toggleCourseActive (id : string) : Async unit :=
  course <- getCourse id ;;
  match course with
  | Some c => updateCourse id (Course.withIsActive (negb (Course.isActive c)))
  | None => resolve tt
  end.

(** [deleteCourse(id, deleteEvents)] *)
Definition deleteCourse (id : string) (deleteEvents : bool) : Async unit :=
  _ <- (if deleteEvents
        then _ <- deleteEventsByCourse id ;; resolve tt
        else resolve tt) ;;
  fun db =>
    Fulfilled tt
      (AppDatabase.withCourses (delete id (AppDatabase.courses db)) db).

(** [deleteAllCourses()] *)
Definition deleteAllCourses : Async unit :=
  fun db => Fulfilled tt (AppDatabase.withCourses ∅ db).

(** [getEventCount()] and [getCourseCount()] *)
Definition getEventCount : Async nat :=
  fun db => Fulfilled (Dexie.count (AppDatabase.events db)) db.

Definition getCourseCount : Async nat :=
  fun db => Fulfilled (Dexie.count (AppDatabase.courses db)) db.

(** [clearAllData()] *)
Definition clearAllData : Async unit :=
  _ <- deleteAllEvents ;; deleteAllCourses.

(** [isEmpty()] *)
Definition isEmpty : Async bool :=
  eventCount <- getEventCount ;;
  courseCount <- getCourseCount ;;
  resolve ((eventCount =? 0)%nat && (courseCount =? 0)%nat).

(** [exportData()] *)
Definition exportData : Async (list CalendarEvent.t * list Course.t) :=
  evs <- getAllEvents ;;
  cs <- getAllCourses ;;
  resolve (evs, cs).

(** [importData(data)]: one transaction that clears both tables and
    writes the given rows. *)
Definition importData (data : list CalendarEvent.t * list Course.t)
    : Async unit :=
  fun db =>
    Fulfilled tt
      {| AppDatabase.events := Dexie.bulkPut CalendarEvent.id data.1 ∅;
         AppDatabase.courses := Dexie.bulkPut Course.id data.2 ∅ |}.
End StorageService.

(** [EventManagerService]: its writes to the database, and the course
    filter.  The subjects [events$] and [courses$] are reloaded from the
    tables after every write and hold nothing of their own. *)
Module EventManagerService.

Definition addEvents (evs : list CalendarEvent.t) : Async unit :=
  StorageService.addEvents evs.

Definition addCourse (course : Course.t) : Async unit :=
  _ <- StorageService.addCourse course ;; resolve tt.

(** [markEventCompleted(id)] *)
Definition markEventCompleted (id : string) : Async unit :=
  StorageService.updateEvent id (CalendarEvent.withStatus COMPLETED).

(** [toggleCourseFilter(courseId)], as a function of the value held by
    [activeCourseIdsSubject]. *)
Definition toggleCourseFilter (courseId : string)
    (currentActive : list string) : list string :=
  if JS.arrayIncludes currentActive courseId
  then List.filter (fun id => negb (String.eqb id courseId)) currentActive
  else (currentActive ++ [courseId])%list.

(** [getEventCountByCourse(courseId)], on the stored events. *)
Definition getEventCountByCourse (courseId : string)
    (db : AppDatabase.t) : nat :=
  length (List.filter
            (fun e => String.eqb (CalendarEvent.courseId e) courseId)
            (Dexie.toArray (AppDatabase.events db))).

End EventManagerService.

(* ===================================================================== *)
(** ** File import (ImportComponent.processFiles) *)

Module ImportResult.
Record t := {
  fileName : string;
  success : bool;
  courseName : string;
  eventsCount : nat;
  error : option string
}.
End ImportResult.

Module ImportComponent.

(** How [readIcsFile(file)] settles. *)
Inductive Read :=
| ReadRejects (err : JS.Thrown)
| ReadResolves (content : ICAL.Document).

(** A selected file. *)
Record File := {
  name : string;
  read : Read
}.

(** One element of [parsedResults]. *)
Inductive Parsed :=
| ParseSucceeded (file : File) (courseId courseName courseColor : string)
                 (events : list CalendarEvent.t)
| ParseFailed (file : File) (error : string).

(** The callback of [selectedFiles.map] for the [j]-th file.  [outer]
    serves the per-file reads ([generateId], [generateRandomColor]),
    [inner] those made while the entries of this file are converted. *)
Definition parseFile (outer inner : Ambient) (j : nat) (file : File)
    : Parsed :=
  match read file with
  | ReadRejects err => ParseFailed file (JS.messageOf err)
  | ReadResolves content =>
      let courseName :=
        IcsParserService.extractCourseName content (name file) in
      let courseId := uniqueId outer j in
      let courseColor := randomColor outer j in
      let parseResult :=
        IcsParserService.parseIcsFile inner content courseId courseName
                                      courseColor (name file) in
      match IcsImportResult.success parseResult,
            IcsImportResult.events parseResult with
      | true, Some evs =>
          ParseSucceeded file courseId courseName courseColor evs
      | _, _ =>
          ParseFailed file
            (JS.or_else
               (option_map message
                  (head (IcsImportResult.errors parseResult)))
               "Failed to parse ICS file")
      end
  end.

Fixpoint parseFiles (outer : Ambient) (inner : nat -> Ambient) (j : nat)
    (files : list File) : list Parsed :=
  match files with
  | [] => []
  | f :: rest =>
      parseFile outer (inner j) j f :: parseFiles outer inner (S j) rest
  end.

(** Step 2: the courses, the events and the report gathered from
    [parsedResults], from position [j] on. *)
Fixpoint gather (outer : Ambient) (j : nat) (parsedResults : list Parsed)
    : list Course.t * list CalendarEvent.t * list ImportResult.t :=
  match parsedResults with
  | [] => ([], [], [])
  | result :: rest =>
      let '(allCourses, allEvents, importResults) :=
        gather outer (S j) rest in
      match result with
      | ParseSucceeded file courseId courseName courseColor evs =>
          ({| Course.id := courseId;
              Course.name := courseName;
              Course.color := courseColor;
              Course.isActive := true;
              Course.importedDate := Instant (now outer j);
              Course.eventCount := length evs;
              Course.icsFileName := name file |} :: allCourses,
           (evs ++ allEvents)%list,
           {| ImportResult.fileName := name file;
              ImportResult.success := true;
              ImportResult.courseName := courseName;
              ImportResult.eventsCount := length evs;
              ImportResult.error := None |} :: importResults)
      | ParseFailed file err =>
          (allCourses, allEvents,
           {| ImportResult.fileName := name file;
              ImportResult.success := false;
              ImportResult.courseName := "";
              ImportResult.eventsCount := 0;
              ImportResult.error := Some err |} :: importResults)
      end
  end.

(** Step 3: every course added, then all events written in one
    [bulkPut]. *)
Definition save (allCourses : list Course.t)
    (allEvents : list CalendarEvent.t) : Async unit :=
  if (0 <? length allCourses)%nat
  then
    _ <- forEachFrom
           (fun _ course _ => EventManagerService.addCourse course)
           0 allCourses tt ;;
    EventManagerService.addEvents allEvents
  else resolve tt.

(** [processFiles()] over [selectedFiles]: the entries that the run
    pushes onto [importResults], and the message of the failure notice
    when the [catch] block ran.  With no file selected the method returns
    at once: nothing is pushed and nothing is reset, so the field keeps
    the report of the run before; [ImportView.processFiles] gives the
    field. *)
Definition processFiles (outer : Ambient) (inner : nat -> Ambient)
    (selectedFiles : list File)
    : Async (list ImportResult.t * option string) :=
  if (length selectedFiles =? 0)%nat then resolve ([], None)
  else
    let parsedResults := parseFiles outer inner 0 selectedFiles in
    let '(allCourses, allEvents, importResults) :=
      gather outer 0 parsedResults in
    tryCatch
      (_ <- save allCourses allEvents ;; resolve (importResults, None))
      (fun err =>
         resolve (importResults,
                  Some ("Import failed: " +:+ JS.messageOf err))).

(** [result.file] of an element of [parsedResults]. *)
Definition fileOf (result : Parsed) : File :=
  match result with
  | ParseSucceeded file _ _ _ _ => file
  | ParseFailed file _ => file
  end.

(** The two numbers of the closing notice:
    [importResults.filter(r => r.success).length] and
    [importResults.reduce((sum, r) => sum + r.eventsCount, 0)]. *)
Definition successCount (importResults : list ImportResult.t) : nat :=
  length (List.filter ImportResult.success importResults).

Definition totalEvents (importResults : list ImportResult.t) : nat :=
  fold_left (fun sum r => sum + ImportResult.eventsCount r) importResults 0.

(** [hasSuccessfulImports()] *)
Definition hasSuccessfulImports (importResults : list ImportResult.t)
    : bool :=
  (0 <? length importResults)%nat
  && existsb ImportResult.success importResults.

End ImportComponent.

(* ===================================================================== *)
(** ** Scrape sync (SchoologyScraper, SyncService) *)

Module ScrapedEvent.
Record t := {
  title : string;
  description : string;
  dueDate : string;
  courseId : string;
  courseName : string;
  type : EventType
}.
End ScrapedEvent.

Module ScrapedCourse.
Record t := {
  id : string;
  name : string;
  eventCount : nat
}.
End ScrapedCourse.

Module SchoologyScraper.

(** The [type] that [getCourseCalendar] writes for an item with the given
    title. *)
Definition typeOfTitle (title : string) : EventType :=
  if JS.includes (JS.toLowerCase title) "exam" ||
     JS.includes (JS.toLowerCase title) "test"
  then EXAM
  else if JS.includes (JS.toLowerCase title) "quiz" then QUIZ
  else if JS.includes (JS.toLowerCase title) "project" then PROJECT
  else ASSIGNMENT.

(** An element of the course page that has a title, with the due date
    already written by [toISOString]. *)
Record Item := {
  title : string;
  description : string;
  dueDate : string
}.

(** What the page of one course gives: the navigation or the evaluation
    throws (a timeout among them), or the items are found. *)
Inductive Fetch :=
| FetchThrows (err : JS.Thrown)
| FetchFinds (items : list Item).

(** An enrolled course as [getCourses] lists it, with the outcome of
    fetching its page. *)
Record Enrolled := {
  id : string;
  name : string;
  fetch : Fetch
}.

(** [getCourseCalendar(courseId, courseName)]: a failure is caught and
    gives no events. *)
Definition getCourseCalendar (courseId courseName : string) (f : Fetch)
    : list ScrapedEvent.t :=
  match f with
  | FetchThrows _ => []
  | FetchFinds items =>
      map (fun it =>
             {| ScrapedEvent.title := title it;
                ScrapedEvent.description := description it;
                ScrapedEvent.dueDate := dueDate it;
                ScrapedEvent.courseId := courseId;
                ScrapedEvent.courseName := courseName;
                ScrapedEvent.type := typeOfTitle (title it) |})
          items
  end.

(** The loop of [scrapeAllData] over the enrolled courses: [courseData]
    and [allEvents]. *)
Fixpoint scrapeAllData (enrolled : list Enrolled)
    : list ScrapedCourse.t * list ScrapedEvent.t :=
  match enrolled with
  | [] => ([], [])
  | course :: rest =>
      let evs := getCourseCalendar (id course) (name course) (fetch course) in
      let '(courseData, allEvents) := scrapeAllData rest in
      ({| ScrapedCourse.id := id course;
          ScrapedCourse.name := name course;
          ScrapedCourse.eventCount := length evs |} :: courseData,
       (evs ++ allEvents)%list)
  end.

End SchoologyScraper.

Module SyncService.

(** [generateEventKey(event)]: the template
    [`${event.courseId}-${event.title}-${event.dueDate}`]; an absent
    [dueDate] is written [undefined]. *)
Definition generateEventKey (courseId title : string)
    (dueDate : option string) : string :=
  courseId +:+ "-" +:+ title +:+ "-" +:+ default "undefined" dueDate.

(** The key of a scraped event. *)
Definition keyOfScraped (event : ScrapedEvent.t) : string :=
  generateEventKey (ScrapedEvent.courseId event) (ScrapedEvent.title event)
                   (Some (ScrapedEvent.dueDate event)).

(** The key of a stored event: a [CalendarEvent] row has [startDate] and
    [endDate] and no [dueDate] property. *)
Definition keyOfStored (e : CalendarEvent.t) : string :=
  generateEventKey (CalendarEvent.courseId e) (CalendarEvent.title e) None.

(** [new Map(existingEvents.map(e => [generateEventKey(e), e.id]))]: a
    later entry replaces an earlier one with the same key. *)
Definition existingEventMapOf (existingEvents : list CalendarEvent.t)
    : gmap string string :=
  foldl (fun m e => <[keyOfStored e := CalendarEvent.id e]> m) ∅
        existingEvents.

Definition typeName (ty : EventType) : string :=
  match ty with
  | ASSIGNMENT => "assignment"
  | EXAM => "exam"
  | QUIZ => "quiz"
  | PROJECT => "project"
  | OTHER => "other"
  end.

Definition quote : string := String (ascii_of_nat 34) EmptyString.

Definition property (key value : string) : string :=
  quote +:+ key +:+ quote +:+ ":" +:+ quote +:+ JS.quoteJSON value +:+ quote.

(** [JSON.stringify(event)] for an event as the scraper builds it: the
    six properties, all strings, in the order in which the scraper writes
    them. *)
Definition stringify (event : ScrapedEvent.t) : string :=
  "{" +:+ property "title" (ScrapedEvent.title event)
  +:+ "," +:+ property "description" (ScrapedEvent.description event)
  +:+ "," +:+ property "dueDate" (ScrapedEvent.dueDate event)
  +:+ "," +:+ property "courseId" (ScrapedEvent.courseId event)
  +:+ "," +:+ property "courseName" (ScrapedEvent.courseName event)
  +:+ "," +:+ property "type" (typeName (ScrapedEvent.type event))
  +:+ "}".

(** The [calendarEvent] built for the [i]-th scraped event. *)
Definition calendarEventOf (amb : Ambient) (i : nat)
    (existingEventId : option string) (event : ScrapedEvent.t)
    : CalendarEvent.t :=
  {| CalendarEvent.id := JS.or_else existingEventId (uniqueId amb i);
     CalendarEvent.title := ScrapedEvent.title event;
     CalendarEvent.description :=
       JS.or_else (Some (ScrapedEvent.description event)) "";
     CalendarEvent.startDate := JSDate.parse (ScrapedEvent.dueDate event);
     CalendarEvent.endDate := JSDate.parse (ScrapedEvent.dueDate event);
     CalendarEvent.eventType := ScrapedEvent.type event;
     CalendarEvent.courseId := ScrapedEvent.courseId event;
     CalendarEvent.courseName := ScrapedEvent.courseName event;
     CalendarEvent.courseColor := randomColor amb i;
     CalendarEvent.status :=
       if JSDate.lt (JSDate.parse (ScrapedEvent.dueDate event))
                    (Instant (now amb i))
       then OVERDUE else UPCOMING;
     CalendarEvent.isAllDay := true;
     CalendarEvent.location := Some "";
     CalendarEvent.recurrence := None;
     CalendarEvent.rawIcsData := Some (stringify event) |}.

(** The body of the loop over [courses]. *)
Definition processCourse (amb : Ambient) (existingCourseIds : list string)
    (i : nat) (course : ScrapedCourse.t) (_ : unit) : Async unit :=
  if negb (JS.arrayIncludes existingCourseIds
             (ScrapedCourse.id course))
  then
    _ <- StorageService.addCourse
           {| Course.id := ScrapedCourse.id course;
              Course.name := ScrapedCourse.name course;
              Course.color := paletteAt (i mod length colorPalette);
              Course.isActive := true;
              Course.importedDate := Instant (now amb i);
              Course.eventCount := ScrapedCourse.eventCount course;
              Course.icsFileName := "auto-sync" |} ;;
    resolve tt
  else
    fun db =>
      Fulfilled tt
        (AppDatabase.withCourses
           (Dexie.update (ScrapedCourse.id course)
              (Course.withEventCount (ScrapedCourse.eventCount course))
              (AppDatabase.courses db)) db).

(** [database.events.add(calendarEvent)] *)
Definition addEvent (calendarEvent : CalendarEvent.t) : Async string :=
  fun db =>
    match Dexie.add (CalendarEvent.id calendarEvent) calendarEvent
                    (AppDatabase.events db) with
    | Some ev =>
        Fulfilled (CalendarEvent.id calendarEvent)
                  (AppDatabase.withEvents ev db)
    | None => Rejected Dexie.ConstraintError db
    end.

(** The body of the loop over [events]; the state is [seenEventIds]. *)
Definition processEvent (amb : Ambient)
    (existingEventMap : gmap string string) (i : nat)
    (event : ScrapedEvent.t) (seenEventIds : gset string)
    : Async (gset string) :=
  let eventKey := keyOfScraped event in
  let existingEventId := JS.or_undefined (existingEventMap !! eventKey) in
  let calendarEvent := calendarEventOf amb i existingEventId event in
  match existingEventId with
  | Some existing =>
      _ <- StorageService.updateEvent existing (fun _ => calendarEvent) ;;
      resolve ({[ existing ]} ∪ seenEventIds)
  | None =>
      newId <- addEvent calendarEvent ;;
      resolve ({[ newId ]} ∪ seenEventIds)
  end.

(** [Array.from(existingEventMap.values()).filter(id =>
    !seenEventIds.has(id))] *)
Definition eventIdsToDeleteOf (existingEventMap : gmap string string)
    (seenEventIds : gset string) : list string :=
  List.filter (fun id => negb (bool_decide (id ∈ seenEventIds)))
              (map_to_list existingEventMap).*2.

(** [processScrapedData(courses, events)]; [ambCourses] serves the loop
    over the courses and [ambEvents] the loop over the events.  An error
    is logged and thrown again. *)
Definition processScrapedData (ambCourses ambEvents : Ambient)
    (courses : list ScrapedCourse.t) (events : list ScrapedEvent.t)
    : Async unit :=
  existingCourses <- StorageService.getAllCourses ;;
  let existingCourseIds := map Course.id existingCourses in
  _ <- forEachFrom (processCourse ambCourses existingCourseIds)
                   0 courses tt ;;
  existingEvents <- StorageService.getAllEvents ;;
  let existingEventMap := existingEventMapOf existingEvents in
  seenEventIds <- forEachFrom (processEvent ambEvents existingEventMap)
                              0 events ∅ ;;
  let eventIdsToDelete := eventIdsToDeleteOf existingEventMap seenEventIds in
  if (0 <? length eventIdsToDelete)%nat
  then
    fun db =>
      Fulfilled tt
        (AppDatabase.withEvents
           (Dexie.bulkDelete eventIdsToDelete (AppDatabase.events db)) db)
  else resolve tt.

(** *** syncNow *)

(** What the store holds under [credentials]. *)
Record Credentials := {
  email : option string;
  password : option string
}.

(** What [scraper.scrapeAllData(email, password)] resolves to. *)
Inductive ScrapeResult :=
| ScrapeFailed (error : option string)
| ScrapeSucceeded (courses : list ScrapedCourse.t)
                  (events : list ScrapedEvent.t).

(** The fields [isSyncing] and [lastSyncTime] of the service. *)
Record Fields := {
  isSyncing : bool;
  lastSyncTime : option Date
}.

(** What [syncNow] resolves to. *)
Record SyncResult := {
  success : bool;
  message : option string;
  error : option string;
  coursesCount : option nat;
  eventsCount : option nat
}.

(** [throw e] *)
Definition throw {A : Type} (e : JS.Thrown) : Async A :=
  fun db => Rejected e db.

(** [error.message] of a caught value; a value that is no [Error] has
    none. *)
Definition messageProperty (e : JS.Thrown) : option string :=
  match e with
  | JS.ErrorObject m => Some m
  | JS.OtherValue => None
  end.

(** [syncNow()] at clock reading [clock], the store holding
    [credentials] and the scraper resolving to [scraped].  The messages
    sent to the renderer and the copy of [lastSyncTime] written to the
    store are not part of the result and are left out. *)
Definition syncNow (clock : Z) (credentials : option Credentials)
    (scraped : ScrapeResult) (ambCourses ambEvents : Ambient)
    (this : Fields) : Async (SyncResult * Fields) :=
  if isSyncing this
  then resolve ({| success := false;
                   message := Some "Sync already in progress";
                   error := None;
                   coursesCount := None;
                   eventsCount := None |}, this)
  else
    let this := {| isSyncing := true; lastSyncTime := lastSyncTime this |} in
    let noCredentials : Async (SyncResult * Fields) :=
      throw (JS.ErrorObject "No credentials found. Please log in first.") in
    r <- tryCatch
           (match credentials with
            | None => noCredentials
            | Some c =>
                match JS.or_undefined (email c),
                      JS.or_undefined (password c) with
                | Some _, Some _ =>
                    match scraped with
                    | ScrapeFailed err =>
                        throw (JS.ErrorObject
                                 (JS.or_else err "Failed to scrape Schoology"))
                    | ScrapeSucceeded courses events =>
                        _ <- processScrapedData ambCourses ambEvents
                               courses events ;;
                        resolve
                          ({| success := true;
                              message := None;
                              error := None;
                              coursesCount := Some (length courses);
                              eventsCount := Some (length events) |},
                           {| isSyncing := isSyncing this;
                              lastSyncTime := Some (Instant clock) |})
                    end
                | _, _ => noCredentials
                end
            end)
           (fun err =>
              resolve ({| success := false;
                          message := None;
                          error := messageProperty err;
                          coursesCount := None;
                          eventsCount := None |}, this)) ;;
    resolve (r.1, {| isSyncing := false; lastSyncTime := lastSyncTime r.2 |}).

End SyncService.

(* ===================================================================== *)
(** ** The parser's contract, entry by entry *)

Module ParserContract.

(** The event the parser makes of the entry at position [i] (counted from
    0), when the entry converts. *)
Definition converted (amb : Ambient) (courseId courseName courseColor : string)
    (i : nat) (v : ICAL.VEvent) : option CalendarEvent.t :=
  match v with
  | ICAL.Yields e =>
      Some (IcsParserService.transformToCalendarEvent
              (now amb i) (uniqueId amb i) e courseId courseName courseColor)
  | ICAL.Raises _ => None
  end.

(** The error recorded for the entry at position [i], when it raises: it
    carries the ordinal [i + 1]. *)
Definition recorded (i : nat) (v : ICAL.VEvent) : option ImportError :=
  match v with
  | ICAL.Raises err =>
      Some {| line := Some (i + 1);
              message := "Failed to parse event: " +:+ JS.messageOf err;
              severity := SeverityError |}
  | ICAL.Yields _ => None
  end.

End ParserContract.

(* ===================================================================== *)
(** ** Comparing two imports of one document *)

Module Reimport.

(** The fields of an event that do not depend on the course record made
    for the import, nor on the time of the import. *)
Definition sameContent (a b : CalendarEvent.t) : Prop :=
  CalendarEvent.id a = CalendarEvent.id b
  /\ CalendarEvent.title a = CalendarEvent.title b
  /\ CalendarEvent.description a = CalendarEvent.description b
  /\ CalendarEvent.startDate a = CalendarEvent.startDate b
  /\ CalendarEvent.endDate a = CalendarEvent.endDate b
  /\ CalendarEvent.eventType a = CalendarEvent.eventType b
  /\ CalendarEvent.courseName a = CalendarEvent.courseName b
  /\ CalendarEvent.location a = CalendarEvent.location b
  /\ CalendarEvent.isAllDay a = CalendarEvent.isAllDay b
  /\ CalendarEvent.recurrence a = CalendarEvent.recurrence b
  /\ CalendarEvent.rawIcsData a = CalendarEvent.rawIcsData b.

(** The entry carries a [uid] that is not empty. *)
Definition identified (v : ICAL.VEvent) : bool :=
  match v with
  | ICAL.Yields e =>
      match JS.or_undefined (ICAL.uid e) with
      | Some _ => true
      | None => false
      end
  | ICAL.Raises _ => true
  end.

(** Every entry of the file that converts carries a [uid]. *)
Definition allIdentified (file : ImportComponent.File) : bool :=
  match ImportComponent.read file with
  | ImportComponent.ReadResolves (ICAL.Component _ vevents) =>
      forallb identified vevents
  | _ => true
  end.

End Reimport.

(* ===================================================================== *)
(** ** What the loop over the scraped events maintains *)

Module SyncLoop.

(** The status of [e] is the one its end date gives at some reading of the
    clock. *)
Definition derivedStatus (e : CalendarEvent.t) : Prop :=
  exists clock : Z,
    CalendarEvent.status e
    = IcsParserService.determineEventStatus (CalendarEvent.endDate e)
                                            (Instant clock).

(** What holds of the events table at any point of a sync that started
    from the table [t0]: no row of [t0] has gone, and a row that is not the
    one [t0] had carries a status derived from its end date. *)
Definition sound (t0 : gmap string CalendarEvent.t) (db : AppDatabase.t)
    : Prop :=
  (forall k, is_Some (t0 !! k) -> is_Some (AppDatabase.events db !! k))
  /\ (forall k e,
        AppDatabase.events db !! k = Some e ->
        t0 !! k = Some e \/ derivedStatus e).

(** What holds after the events [processed] went through the loop, with
    [seen] the ids seen so far: the table is [sound], the id registered
    for the key of each processed event is seen, and an id of [t0] is seen
    only because a processed event has the key it is registered for. *)
Definition invariant (m : gmap string string)
    (t0 : gmap string CalendarEvent.t) (processed : list ScrapedEvent.t)
    (seen : gset string) (db : AppDatabase.t) : Prop :=
  sound t0 db
  /\ (forall d j,
        In d processed ->
        JS.or_undefined (m !! SyncService.keyOfScraped d) = Some j ->
        j ∈ seen)
  /\ (forall j,
        j ∈ seen -> is_Some (t0 !! j) ->
        exists d, In d processed
                  /\ JS.or_undefined (m !! SyncService.keyOfScraped d)
                     = Some j).

(** Every row of the events table is stored under its own [id], as Dexie
    keeps a table whose key path is [id]. *)
Definition keyed (db : AppDatabase.t) : Prop :=
  map_Forall (fun k e => CalendarEvent.id e = k) (AppDatabase.events db).

End SyncLoop.

(* ===================================================================== *)
(** ** Text *)

Module Text.

(** The last character of a text. *)
Fixpoint lastChar (s : string) : option ascii :=
  match s with
  | EmptyString => None
  | String c EmptyString => Some c
  | String _ r => lastChar r
  end.

End Text.

(* ===================================================================== *)
(** ** Entries of a document *)

Module Entries.

(** Whether the entry converts. *)
Definition yields (v : ICAL.VEvent) : bool :=
  match v with
  | ICAL.Yields _ => true
  | ICAL.Raises _ => false
  end.

End Entries.

(* ===================================================================== *)
(** ** File validation (FileUploadService) *)

Module FileUploadService.

Definition MAX_FILE_SIZE : N := (5 * 1024 * 1024)%N.
Definition ALLOWED_EXTENSIONS : list string := [".ics"; ".ical"].
Definition ALLOWED_MIME_TYPES : list string :=
  ["text/calendar"; "application/ics"; ""].

(** The properties of a [File] that validation reads. *)
Record FileInfo := {
  name : string;
  size : N;
  type : string
}.

Record ValidationResult := {
  valid : bool;
  error : option string
}.

(** [s.lastIndexOf('.')] for the text [s] that starts at position [i];
    [None] stands for -1. *)
Fixpoint lastIndexOfDot (i : nat) (s : string) : option nat :=
  match s with
  | EmptyString => None
  | String c r =>
      match lastIndexOfDot (S i) r with
      | Some lastDot => Some lastDot
      | None => if Ascii.eqb c "." then Some i else None
      end
  end.

(** [getFileExtension(fileName)] *)
Definition getFileExtension (fileName : string) : string :=
  match lastIndexOfDot 0 fileName with
  | None => ""
  | Some lastDot =>
      JS.toLowerCase
        (String.substring lastDot (String.length fileName - lastDot)
                          fileName)
  end.

(** A natural number in decimal. *)
Definition decimal (n : N) : string :=
  NilZero.string_of_uint (N.to_uint n).

(** [(size / (1024 * 1024)).toFixed(2)]: the quotient by a power of two is
    exact, and [toFixed] takes the nearest number of hundredths, the larger
    one of two that are equally near. *)
Definition sizeMB (size : N) : string :=
  let hundredths := ((size * 100 + 524288) / 1048576)%N in
  decimal (hundredths / 100) +:+ "."
  +:+ (if (hundredths mod 100 <? 10)%N then "0" else "")
  +:+ decimal (hundredths mod 100).

(** [validateIcsFile(file)] *)
Definition validateIcsFile (file : FileInfo) : ValidationResult :=
  let ext := getFileExtension (name file) in
  if negb (JS.arrayIncludes ALLOWED_EXTENSIONS ext)
  then {| valid := false;
          error := Some ("Invalid file type. Only .ics or .ical files are"
                         +:+ " allowed. Got: " +:+ ext) |}
  else if (MAX_FILE_SIZE <? size file)%N
  then {| valid := false;
          error := Some ("File size (" +:+ sizeMB (size file)
                         +:+ "MB) exceeds the maximum allowed size of "
                         +:+ decimal (MAX_FILE_SIZE / (1024 * 1024))
                         +:+ "MB") |}
  else if (size file =? 0)%N
  then {| valid := false; error := Some "File is empty" |}
  else if negb (String.eqb (type file) "")
          && negb (JS.arrayIncludes ALLOWED_MIME_TYPES (type file))
  then {| valid := false;
          error := Some ("Invalid MIME type: " +:+ type file
                         +:+ ". Expected: "
                         +:+ String.concat ", " ALLOWED_MIME_TYPES) |}
  else {| valid := true; error := None |}.

(** [isIcsFile(fileName)] *)
Definition isIcsFile (fileName : string) : bool :=
  JS.arrayIncludes ALLOWED_EXTENSIONS (getFileExtension fileName).

End FileUploadService.

(** [ImportComponent.handleFiles(files)], [removeFile] and [clearAll] on
    [selectedFiles]; [info] reads the name, size and type of a file. *)
Module Selection.

Definition handleFiles {F : Type} (info : F -> FileUploadService.FileInfo)
    (files selectedFiles : list F) : list F :=
  let validFiles :=
    List.filter
      (fun file =>
         FileUploadService.valid
           (FileUploadService.validateIcsFile (info file)))
      files in
  if (0 <? length validFiles)%nat
  then (selectedFiles ++ validFiles)%list
  else selectedFiles.

End Selection.

(** The fields of [ImportComponent] that [processFiles] writes, as they
    stand once the method has settled and the timers it set have run. *)
Module ImportView.

Record t := {
  selectedFiles : list ImportComponent.File;
  importResults : list ImportResult.t;
  isProcessing : bool;
  progressPercent : nat;
  currentFileIndex : nat
}.

(** [processFiles()]: nothing happens when no file is selected.
    Otherwise the fields are reset, the entries of the run are pushed onto
    [importResults], and at the end [isProcessing] is false; the selection
    is emptied and the progress is 100 when the run completes, and the
    progress stays at 80, where saving began, when the [catch] block
    ran. *)
Definition processFiles (outer : Ambient) (inner : nat -> Ambient)
    (this : t) : Async (t * option string) :=
  if (length (selectedFiles this) =? 0)%nat then resolve (this, None)
  else
    r <- ImportComponent.processFiles outer inner (selectedFiles this) ;;
    match r.2 with
    | None =>
        resolve ({| selectedFiles := [];
                    importResults := r.1;
                    isProcessing := false;
                    progressPercent := 100;
                    currentFileIndex := 0 |}, None)
    | Some notice =>
        resolve ({| selectedFiles := selectedFiles this;
                    importResults := r.1;
                    isProcessing := false;
                    progressPercent := 80;
                    currentFileIndex := 0 |}, Some notice)
    end.

End ImportView.

(* ===================================================================== *)
(** ** The subjects of EventManagerService *)

(** The values held by [eventsSubject], [coursesSubject],
    [activeCourseIdsSubject] and [loadingSubject], and the methods that
    write them.  A method runs from the subjects and the database and, when
    it is fulfilled, leaves new subjects; [addEvent] and [addCourse] can be
    rejected, which happens before any subject is written. *)
Module Subjects.

Record t := {
  events : list CalendarEvent.t;
  courses : list Course.t;
  activeCourseIds : list string;
  loading : bool
}.

(** The subjects when the service is constructed. *)
Definition initial : t :=
  {| events := []; courses := []; activeCourseIds := []; loading := false |}.

Definition nextEvents (evs : list CalendarEvent.t) (s : t) : t :=
  {| events := evs; courses := courses s;
     activeCourseIds := activeCourseIds s; loading := loading s |}.

Definition nextCourses (cs : list Course.t) (s : t) : t :=
  {| events := events s; courses := cs;
     activeCourseIds := activeCourseIds s; loading := loading s |}.

Definition nextActiveCourseIds (ids : list string) (s : t) : t :=
  {| events := events s; courses := courses s;
     activeCourseIds := ids; loading := loading s |}.

Definition nextLoading (b : bool) (s : t) : t :=
  {| events := events s; courses := courses s;
     activeCourseIds := activeCourseIds s; loading := b |}.

Definition Method (A : Type) : Type := t -> Async (A * t).

(** [loadData()]: both tables are read; a failure is logged; [loading] is
    false at the end either way. *)
Definition loadData : Method unit :=
  fun s =>
    let s := nextLoading true s in
    tryCatch
      (evs <- StorageService.getAllEvents ;;
       cs <- StorageService.getAllCourses ;;
       let s := nextEvents evs s in
       let s := nextCourses cs s in
       let allCourseIds := map Course.id cs in
       let s := nextActiveCourseIds allCourseIds s in
       resolve (tt, nextLoading false s))
      (fun _ => resolve (tt, nextLoading false s)).

Definition reloadData : Method unit := loadData.

Definition reloadEvents : Method unit :=
  fun s =>
    evs <- StorageService.getAllEvents ;;
    resolve (tt, nextEvents evs s).

Definition reloadCourses : Method unit :=
  fun s =>
    cs <- StorageService.getAllCourses ;;
    resolve (tt, nextCourses cs s).

Definition addEvent (event : CalendarEvent.t) : Method unit :=
  fun s => _ <- StorageService.addEvent event ;; reloadEvents s.

Definition addEvents (evs : list CalendarEvent.t) : Method unit :=
  fun s => _ <- StorageService.addEvents evs ;; reloadEvents s.

Definition updateEvent (id : string)
    (changes : CalendarEvent.t -> CalendarEvent.t) : Method unit :=
  fun s => _ <- StorageService.updateEvent id changes ;; reloadEvents s.

Definition deleteEvent (id : string) : Method unit :=
  fun s => _ <- StorageService.deleteEvent id ;; reloadEvents s.

Definition markEventCompleted (id : string) : Method unit :=
  updateEvent id (CalendarEvent.withStatus COMPLETED).

Definition addCourse (course : Course.t) : Method unit :=
  fun s =>
    _ <- StorageService.addCourse course ;;
    r <- reloadCourses s ;;
    let s := r.2 in
    let currentActive := activeCourseIds s in
    resolve (tt, nextActiveCourseIds
                   (currentActive ++ [Course.id course])%list s).

Definition updateCourse (id : string) (changes : Course.t -> Course.t)
    : Method unit :=
  fun s => _ <- StorageService.updateCourse id changes ;; reloadCourses s.

Definition deleteCourse (id : string) : Method unit :=
  fun s =>
    _ <- StorageService.deleteCourse id true ;;
    r <- reloadCourses s ;;
    r <- reloadEvents r.2 ;;
    let s := r.2 in
    let currentActive := activeCourseIds s in
    resolve (tt, nextActiveCourseIds
                   (List.filter (fun cid => negb (String.eqb cid id))
                                currentActive) s).

Definition setActiveCourseIds (courseIds : list string) (s : t) : t :=
  nextActiveCourseIds courseIds s.

Definition toggleCourseFilter (courseId : string) (s : t) : t :=
  nextActiveCourseIds
    (EventManagerService.toggleCourseFilter courseId (activeCourseIds s)) s.

Definition showAllCourses (s : t) : t :=
  nextActiveCourseIds (map Course.id (courses s)) s.

Definition hideAllCourses (s : t) : t := nextActiveCourseIds [] s.

(** The value of [filteredEvents$]. *)
Definition filteredEvents (s : t) : list CalendarEvent.t :=
  if (length (activeCourseIds s) =? 0)%nat then events s
  else List.filter
         (fun event =>
            JS.arrayIncludes (activeCourseIds s)
                             (CalendarEvent.courseId event))
         (events s).

(** The value of [activeCourses$]. *)
Definition activeCourses (s : t) : list Course.t :=
  List.filter Course.isActive (courses s).

(** White space as [trim] removes it, among the ASCII characters: tab,
    line feed, vertical tab, form feed, carriage return and space.  (The
    white space beyond ASCII is not modelled.) *)
Definition isWhiteSpace (c : ascii) : bool :=
  let n := nat_of_ascii c in
  ((9 <=? n)%nat && (n <=? 13)%nat) || (n =? 32)%nat.

(** [!keyword || keyword.trim() === ''] for a keyword of ASCII
    characters. *)
Fixpoint isBlank (keyword : string) : bool :=
  match keyword with
  | EmptyString => true
  | String c r => isWhiteSpace c && isBlank r
  end.

(** The value of [searchEvents(keyword)]. *)
Definition searchEvents (keyword : string) (s : t) : list CalendarEvent.t :=
  let evs := filteredEvents s in
  if isBlank keyword then evs
  else
    let lowerKeyword := JS.toLowerCase keyword in
    List.filter
      (fun event =>
         JS.includes (JS.toLowerCase (CalendarEvent.title event))
                     lowerKeyword
         || JS.includes (JS.toLowerCase (CalendarEvent.description event))
                        lowerKeyword
         || JS.includes (JS.toLowerCase (CalendarEvent.courseName event))
                        lowerKeyword)
      evs.

(** The values of [getEventsByType(type)] and [getEventsByStatus(status)]. *)
Definition getEventsByType (type : EventType) (s : t)
    : list CalendarEvent.t :=
  List.filter (fun event => bool_decide (CalendarEvent.eventType event = type))
              (filteredEvents s).

Definition getEventsByStatus (status : EventStatus) (s : t)
    : list CalendarEvent.t :=
  List.filter (fun event => bool_decide (CalendarEvent.status event = status))
              (filteredEvents s).

(** The values of [getTotalEventCount()], [getTotalCourseCount()] and
    [getEventCountByCourse(courseId)]. *)
Definition getTotalEventCount (s : t) : nat := length (events s).

Definition getTotalCourseCount (s : t) : nat := length (courses s).

Definition getEventCountByCourse (courseId : string) (s : t) : nat :=
  length (List.filter
            (fun e => String.eqb (CalendarEvent.courseId e) courseId)
            (events s)).

Definition clearAllData : Method unit :=
  fun s =>
    _ <- StorageService.clearAllData ;;
    let s := nextEvents [] s in
    let s := nextCourses [] s in
    resolve (tt, nextActiveCourseIds [] s).

Definition importData (data : list CalendarEvent.t * list Course.t)
    : Method unit :=
  fun s => _ <- StorageService.importData data ;; reloadData s.

(** The subjects hold what the tables hold. *)
Definition inSync (s : t) (db : AppDatabase.t) : Prop :=
  events s = Dexie.toArray (AppDatabase.events db)
  /\ courses s = Dexie.toArray (AppDatabase.courses db).

End Subjects.

(* ===================================================================== *)
(** ** Example data *)

(** An event that was marked completed, due on 2024-03-09. *)
Definition completedEvent : CalendarEvent.t :=
  {| CalendarEvent.id := "uid-1";
     CalendarEvent.title := "Essay";
     CalendarEvent.description := "";
     CalendarEvent.startDate := JSDate.parse "2024-03-09T23:59:59Z";
     CalendarEvent.endDate := JSDate.parse "2024-03-09T23:59:59Z";
     CalendarEvent.eventType := OTHER;
     CalendarEvent.courseId := "c1";
     CalendarEvent.courseName := "English";
     CalendarEvent.courseColor := "#FF6B6B";
     CalendarEvent.location := None;
     CalendarEvent.status := COMPLETED;
     CalendarEvent.isAllDay := false;
     CalendarEvent.recurrence := None;
     CalendarEvent.rawIcsData := None |}.



(** An environment whose clock stands at [ms] and whose identifier
    generator returns [stem] followed by the number of the turn (one
    digit). *)
Definition ambientAt (ms : Z) (stem : string) : Ambient :=
  {| now := fun _ => ms;
     uniqueId := fun k => stem +:+ String (ascii_of_nat (48 + k)) EmptyString;
     random := fun k => k |}.

(** An essay due 2024-03-09T23:59:59Z, with a [uid]. *)
Definition essayEntry : ICAL.Event :=
  {| ICAL.uid := Some "uid-1";
     ICAL.summary := Some "Essay";
     ICAL.description := None;
     ICAL.startDate := JSDate.parse "2024-03-09T23:59:59Z";
     ICAL.endDate := JSDate.parse "2024-03-09T23:59:59Z";
     ICAL.isDate := false;
     ICAL.location := None;
     ICAL.rrule := None;
     ICAL.toString := "BEGIN:VEVENT" |}.

(** The same entry without a [uid]. *)
Definition anonymousEntry : ICAL.Event :=
  {| ICAL.uid := None;
     ICAL.summary := Some "Essay";
     ICAL.description := None;
     ICAL.startDate := JSDate.parse "2024-03-09T23:59:59Z";
     ICAL.endDate := JSDate.parse "2024-03-09T23:59:59Z";
     ICAL.isDate := false;
     ICAL.location := None;
     ICAL.rrule := None;
     ICAL.toString := "BEGIN:VEVENT" |}.

Definition englishFile : ImportComponent.File :=
  {| ImportComponent.name := "english.ics";
     ImportComponent.read :=
       ImportComponent.ReadResolves
         (ICAL.Component None [ICAL.Yields essayEntry]) |}.

Definition anonymousFile : ImportComponent.File :=
  {| ImportComponent.name := "english.ics";
     ImportComponent.read :=
       ImportComponent.ReadResolves
         (ICAL.Component None [ICAL.Yields anonymousEntry]) |}.

(** The first import, on 2024-03-09T00:00:00Z, and the second, on
    2024-03-10T00:00:00Z. *)
Definition firstRun : Ambient := ambientAt 1709942400000 "run1-".
Definition secondRun : Ambient := ambientAt 1710028800000 "run2-".

(** The same two moments as the conversion of the entries sees them. *)
Definition firstRunEntries : Ambient :=
  ambientAt 1709942400000 "event-run1-".
Definition secondRunEntries : Ambient :=
  ambientAt 1710028800000 "event-run2-".

(** [file] imported into an empty database, then imported again; with
    [mark], the event [uid-1] is marked completed between the two. *)
Definition afterFirstImport (file : ImportComponent.File) : AppDatabase.t :=
  dbOf (ImportComponent.processFiles firstRun (fun _ => firstRunEntries) [file]
          AppDatabase.empty).

Definition afterMark (file : ImportComponent.File) : AppDatabase.t :=
  dbOf (EventManagerService.markEventCompleted "uid-1"
          (afterFirstImport file)).

Definition afterSecondImport (file : ImportComponent.File) : AppDatabase.t :=
  dbOf (ImportComponent.processFiles secondRun (fun _ => secondRunEntries)
          [file]
          (afterMark file)).

(** The essay file imported once more, with nothing in between. *)
Definition afterReimport (file : ImportComponent.File) : AppDatabase.t :=
  dbOf (ImportComponent.processFiles secondRun (fun _ => secondRunEntries)
          [file] (afterFirstImport file)).

(** The course Math with one homework on its page, and the same course
    when fetching its page fails. *)
Definition mathFetched : SchoologyScraper.Enrolled :=
  {| SchoologyScraper.id := "101";
     SchoologyScraper.name := "Math";
     SchoologyScraper.fetch :=
       SchoologyScraper.FetchFinds
         [ {| SchoologyScraper.title := "HW 1";
              SchoologyScraper.description := "";
              SchoologyScraper.dueDate := "2024-03-12T00:00:00.000Z" |} ] |}.

Definition mathFailed : SchoologyScraper.Enrolled :=
  {| SchoologyScraper.id := "101";
     SchoologyScraper.name := "Math";
     SchoologyScraper.fetch :=
       SchoologyScraper.FetchThrows (JS.ErrorObject "Navigation timeout") |}.

(** A sync of what [scrapeAllData] returns for [enrolled]. *)
Definition syncOf (amb : Ambient) (enrolled : list SchoologyScraper.Enrolled)
    : Async unit :=
  SyncService.processScrapedData amb amb
    (SchoologyScraper.scrapeAllData enrolled).1
    (SchoologyScraper.scrapeAllData enrolled).2.

Definition firstSync : Ambient := ambientAt 1709942400000 "event-sync1-".
Definition secondSync : Ambient := ambientAt 1710028800000 "event-sync2-".

(** Math synced into an empty database, and synced again. *)
Definition afterFirstSync : AppDatabase.t :=
  dbOf (syncOf firstSync [mathFetched] AppDatabase.empty).

Definition afterSecondSync : AppDatabase.t :=
  dbOf (syncOf secondSync [mathFetched] afterFirstSync).

(** The essay file imported, Math synced, and then a sync in which the
    page of Math cannot be fetched. *)
Definition importedAndSynced : AppDatabase.t :=
  dbOf (syncOf firstSync [mathFetched] (afterFirstImport englishFile)).

Definition afterFailedFetch : AppDatabase.t :=
  dbOf (syncOf secondSync [mathFailed] importedAndSynced).

(** A scraped event whose [dueDate] is the text [undefined]: its key is
    the key of a stored "HW 1" of course 101. *)
Definition undatedHomework : ScrapedEvent.t :=
  {| ScrapedEvent.title := "HW 1";
     ScrapedEvent.description := "";
     ScrapedEvent.dueDate := "undefined";
     ScrapedEvent.courseId := "101";
     ScrapedEvent.courseName := "Math";
     ScrapedEvent.type := ASSIGNMENT |}.

(** A course whose page lists two quizzes with the same title, a week
    apart. *)
Definition weeklyQuiz : SchoologyScraper.Enrolled :=
  {| SchoologyScraper.id := "202";
     SchoologyScraper.name := "Biology";
     SchoologyScraper.fetch :=
       SchoologyScraper.FetchFinds
         [ {| SchoologyScraper.title := "Weekly Quiz";
              SchoologyScraper.description := "";
              SchoologyScraper.dueDate := "2024-03-15T00:00:00.000Z" |};
           {| SchoologyScraper.title := "Weekly Quiz";
              SchoologyScraper.description := "";
              SchoologyScraper.dueDate := "2024-03-22T00:00:00.000Z" |} ] |}.

Definition quizzesSynced : AppDatabase.t :=
  dbOf (syncOf firstSync [weeklyQuiz] AppDatabase.empty).

Definition quizzesSyncedAgain : AppDatabase.t :=
  dbOf (syncOf secondSync [weeklyQuiz] quizzesSynced).

(** A document of five entries whose third cannot be converted. *)
Definition fiveEntries : ICAL.Document :=
  ICAL.Component None
    [ ICAL.Yields essayEntry; ICAL.Yields anonymousEntry;
      ICAL.Raises (JS.ErrorObject "invalid date");
      ICAL.Yields essayEntry; ICAL.Yields anonymousEntry ].

(** The list of courses naming Math twice, synced into an empty
    database. *)
Definition mathListedTwice : Settled unit :=
  syncOf firstSync [mathFetched; mathFetched] AppDatabase.empty.


(* ===================================================================== *)
(** * Properties *)

(** ** The course filter *)

Section CourseFilter.
Import EventManagerService.

Lemma arrayIncludes_In (l : list string) (x : string) :
  JS.arrayIncludes l x = true <-> In x l.
Proof.
  unfold JS.arrayIncludes. rewrite existsb_exists. split.
  - intros (y & Hy & Heq). apply String.eqb_eq in Heq. now subst.
  - intros H. exists x. split; [assumption | apply String.eqb_refl].
Qed.

Lemma arrayIncludes_false (l : list string) (x : string) :
  JS.arrayIncludes l x = false <-> ~ In x l.
Proof.
  rewrite <- arrayIncludes_In.
  destruct (JS.arrayIncludes l x); split; congruence.
Qed.

Lemma In_remove (l : list string) (c x : string) :
  In x (List.filter (fun id => negb (String.eqb id c)) l) <->
  In x l /\ x <> c.
Proof.
  rewrite filter_In, negb_true_iff, String.eqb_neq. tauto.
Qed.

Lemma toggle_member (c : string) (l : list string) (x : string) :
  In x (toggleCourseFilter c l) <->
  (x = c /\ ~ In c l) \/ (x <> c /\ In x l).
Proof.
  unfold toggleCourseFilter. destruct (JS.arrayIncludes l c) eqn:Hc.
  - apply arrayIncludes_In in Hc. rewrite In_remove.
    destruct (String.eqb_spec x c) as [-> | Hne]; intuition congruence.
  - apply arrayIncludes_false in Hc. rewrite in_app_iff. simpl.
    destruct (String.eqb_spec x c) as [-> | Hne]; intuition congruence.
Qed.

(** C10. Toggling a course takes it out of the active list when it is
    there and puts it in when it is not, leaves every other course as it
    was, and toggling the same course twice gives back a list with the
    members of the first. *)
Theorem toggleCourseFilter_involution (c : string) (l : list string) :
  (In c (toggleCourseFilter c l) <-> ~ In c l)
  /\ (forall x, x <> c -> (In x (toggleCourseFilter c l) <-> In x l))
  /\ (forall x,
        In x (toggleCourseFilter c (toggleCourseFilter c l)) <-> In x l).
Proof.
  split; [| split].
  - rewrite toggle_member. intuition congruence.
  - intros x Hx. rewrite toggle_member. intuition congruence.
  - intros x. rewrite !toggle_member.
    destruct (in_dec string_dec c l);
      destruct (String.eqb_spec x c) as [-> | Hne]; intuition congruence.
Qed.

End CourseFilter.

(** ** Status classification *)

Section StatusClassification.
Import IcsParserService.

Lemma determineEventStatus_overdue (endDate now : Z) :
  determineEventStatus (Instant endDate) (Instant now) = OVERDUE
  <-> (endDate < now)%Z.
Proof.
  unfold determineEventStatus; simpl.
  destruct (Z.ltb_spec endDate now); split; intros; try lia; congruence.
Qed.

Lemma determineEventStatus_upcoming (endDate now : Z) :
  determineEventStatus (Instant endDate) (Instant now) = UPCOMING
  <-> (now <= endDate)%Z.
Proof.
  unfold determineEventStatus; simpl.
  destruct (Z.ltb_spec endDate now); split; intros; try lia; congruence.
Qed.

Lemma determineEventStatus_range (endDate now : Date) :
  determineEventStatus endDate now = OVERDUE
  \/ determineEventStatus endDate now = UPCOMING.
Proof.
  unfold determineEventStatus. destruct (JSDate.lt endDate now); auto.
Qed.

Lemma markEventCompleted_sets (db : AppDatabase.t) (id : string)
    (e : CalendarEvent.t) :
  AppDatabase.events db !! id = Some e ->
  AppDatabase.events (dbOf (EventManagerService.markEventCompleted id db))
    !! id = Some (CalendarEvent.withStatus COMPLETED e).
Proof.
  intros H. simpl. unfold Dexie.update.
  rewrite lookup_alter_eq, H. reflexivity.
Qed.

End StatusClassification.

(** ** The parser *)

Section Parser.
Import IcsParserService ParserContract.

Variable amb : Ambient.
Variables courseId courseName courseColor : string.

Lemma convert_entries (k : nat) (vevents : list ICAL.VEvent) :
  convert amb courseId courseName courseColor k vevents
  = (omap id (imap (fun i => converted amb courseId courseName courseColor
                                (k + i)) vevents),
     omap id (imap (fun i => recorded (k + i)) vevents)).
Proof.
  revert k. induction vevents as [| v rest IH]; intros k; [reflexivity |].
  cbn [convert]. rewrite (IH (S k)). rewrite !imap_cons. cbn [omap].
  rewrite Nat.add_0_r.
  assert (Hc : imap (fun i => converted amb courseId courseName courseColor
                                (S k + i)) rest
               = imap ((fun i => converted amb courseId courseName courseColor
                                   (k + i)) ∘ S) rest).
  { apply imap_ext. intros i x _. simpl. f_equal. lia. }
  assert (Hr : imap (fun i => recorded (S k + i)) rest
               = imap ((fun i => recorded (k + i)) ∘ S) rest).
  { apply imap_ext. intros i x _. simpl. f_equal. lia. }
  rewrite Hc, Hr. destruct v; reflexivity.
Qed.

Lemma convert_lengths (k : nat) (vevents : list ICAL.VEvent) :
  length (convert amb courseId courseName courseColor k vevents).1
  + length (convert amb courseId courseName courseColor k vevents).2
  = length vevents.
Proof.
  revert k. induction vevents as [| v rest IH]; intros k; [reflexivity |].
  cbn [convert]. specialize (IH (S k)).
  destruct (convert amb courseId courseName courseColor (S k) rest)
    as [evs errs].
  destruct v; simpl in *; lia.
Qed.

Lemma convert_at (k i : nat) (vevents : list ICAL.VEvent) (v : ICAL.VEvent) :
  vevents !! i = Some v ->
  match v with
  | ICAL.Yields _ =>
      exists e, converted amb courseId courseName courseColor (k + i) v
                = Some e
                /\ In e (convert amb courseId courseName courseColor
                           k vevents).1
  | ICAL.Raises _ =>
      exists err, recorded (k + i) v = Some err
                  /\ In err (convert amb courseId courseName courseColor
                               k vevents).2
  end.
Proof.
  intros Hv. rewrite convert_entries. simpl.
  destruct v as [err | e].
  - eexists. split; [reflexivity |].
    apply list_elem_of_In, list_elem_of_omap.
    eexists. split; [| reflexivity].
    apply elem_of_lookup_imap. exists i, (ICAL.Raises err). auto.
  - eexists. split; [reflexivity |].
    apply list_elem_of_In, list_elem_of_omap.
    eexists. split; [| reflexivity].
    apply elem_of_lookup_imap. exists i, (ICAL.Yields e). auto.
Qed.

Lemma convert_events_from (k : nat) (vevents : list ICAL.VEvent)
    (ev : CalendarEvent.t) :
  In ev (convert amb courseId courseName courseColor k vevents).1 ->
  exists i e, vevents !! i = Some (ICAL.Yields e)
              /\ ev = transformToCalendarEvent (now amb (k + i))
                        (uniqueId amb (k + i)) e
                        courseId courseName courseColor.
Proof.
  rewrite convert_entries. simpl. intros H.
  apply list_elem_of_In, list_elem_of_omap in H.
  destruct H as (o & Ho & Heq). simpl in Heq. subst o.
  apply elem_of_lookup_imap in Ho. destruct Ho as (i & v & Hc & Hv).
  destruct v as [err | e]; simpl in Hc; [discriminate |].
  exists i, e. split; [assumption | congruence].
Qed.

Lemma convert_errors_from (k : nat) (vevents : list ICAL.VEvent)
    (er : ImportError) :
  In er (convert amb courseId courseName courseColor k vevents).2 ->
  exists i err, vevents !! i = Some (ICAL.Raises err)
                /\ recorded (k + i) (ICAL.Raises err) = Some er.
Proof.
  rewrite convert_entries. simpl. intros H.
  apply list_elem_of_In, list_elem_of_omap in H.
  destruct H as (o & Ho & Heq). simpl in Heq. subst o.
  apply elem_of_lookup_imap in Ho. destruct Ho as (i & v & Hc & Hv).
  destruct v as [err | e]; simpl in Hc; [| discriminate].
  exists i, err. split; [assumption | congruence].
Qed.

(** C6. The result contract of [parseIcsFile], for every document.  A
    document that cannot be read gives [success = false], exactly one
    error (with no line) and no events.  In a document that can be read,
    the events are the conversions of the entries that convert, in document
    order, the errors are one per raising entry with the ordinal of that
    entry (position + 1), and every entry is accounted for by one or the
    other; a document with no entry gives one warning and no error.  In all
    cases [success] holds exactly when at least one event was produced. *)
Theorem parseIcsFile_contract (fileContent : ICAL.Document)
    (fileName : string) :
  let r := parseIcsFile amb fileContent courseId courseName courseColor
                        fileName in
  IcsImportResult.success r = (0 <? IcsImportResult.eventsImported r)%nat
  /\ IcsImportResult.eventsImported r
     = length (default [] (IcsImportResult.events r))
  /\ match fileContent with
     | ICAL.Malformed err =>
         IcsImportResult.success r = false
         /\ IcsImportResult.events r = None
         /\ IcsImportResult.errors r
            = [ {| line := None;
                   message := "Failed to parse ICS file: "
                              +:+ JS.messageOf err;
                   severity := SeverityError |} ]
         /\ IcsImportResult.warnings r = []
     | ICAL.Component _ vevents =>
         IcsImportResult.events r
         = Some (omap id (imap (converted amb courseId courseName courseColor)
                               vevents))
         /\ IcsImportResult.errors r = omap id (imap recorded vevents)
         /\ length (default [] (IcsImportResult.events r))
            + length (IcsImportResult.errors r) = length vevents
         /\ (forall i err,
               vevents !! i = Some (ICAL.Raises err) ->
               In {| line := Some (i + 1);
                     message := "Failed to parse event: "
                                +:+ JS.messageOf err;
                     severity := SeverityError |}
                  (IcsImportResult.errors r))
         /\ (forall i e,
               vevents !! i = Some (ICAL.Yields e) ->
               In (transformToCalendarEvent (now amb i) (uniqueId amb i) e
                     courseId courseName courseColor)
                  (default [] (IcsImportResult.events r)))
         /\ IcsImportResult.warnings r
            = match vevents with
              | [] => ["No events found in ICS file"]
              | _ :: _ => []
              end
         /\ (vevents = [] ->
             IcsImportResult.errors r = []
             /\ IcsImportResult.success r = false)
     end.
Proof.
  destruct fileContent as [err | calname vevents]; cbn zeta.
  - simpl. auto 10.
  - unfold parseIcsFile.
    pose proof (convert_entries 0 vevents) as Hc.
    pose proof (convert_lengths 0 vevents) as Hl.
    pose proof (fun i v => convert_at 0 i vevents v) as Hat.
    destruct (convert amb courseId courseName courseColor 0 vevents)
      as [evs errs].
    injection Hc as Hevs Herrs. cbn [IcsImportResult.success
      IcsImportResult.eventsImported IcsImportResult.events
      IcsImportResult.errors IcsImportResult.warnings default].
    simpl in Hl.
    split; [reflexivity |]. split; [reflexivity |].
    split; [now rewrite Hevs |]. split; [assumption |].
    split; [assumption |]. split.
    { intros i err Hi. destruct (Hat i _ Hi) as (er & Her & Hin).
      simpl in Her. injection Her as <-. exact Hin. }
    split.
    { intros i e Hi. destruct (Hat i _ Hi) as (ev & Hev & Hin).
      simpl in Hev. injection Hev as <-. exact Hin. }
    split; [destruct vevents; reflexivity |].
    intros ->. simpl in Hevs, Herrs. subst. auto.
Qed.

End Parser.

Section ParserExamples.
Import IcsParserService.

(** Five entries of which the third is malformed: four events and one
    error, which carries the ordinal 3. *)
Lemma partial_entry_resilience :
  let r := parseIcsFile firstRunEntries fiveEntries "c1" "English" "#FF6B6B"
                        "english.ics" in
  IcsImportResult.success r = true
  /\ IcsImportResult.eventsImported r = 4
  /\ IcsImportResult.errors r
     = [ {| line := Some 3;
            message := "Failed to parse event: invalid date";
            severity := SeverityError |} ]
  /\ IcsImportResult.warnings r = [].
Proof. vm_compute. auto. Qed.

(** The course name of the comment in the source: the calendar name when
    the document has one, else the file name without [-calendar] and
    [.ics], separators turned into spaces and words capitalized. *)
Lemma extractCourseName_examples :
  extractCourseName (ICAL.Component None []) "Math-101-Calendar.ics"
  = "Math 101"
  /\ extractCourseName (ICAL.Component (Some "Algebra II") []) "x.ics"
     = "Algebra II"
  /\ extractCourseName (ICAL.Component None []) "bio_lab.ICS" = "Bio Lab"
  /\ extractCourseName (ICAL.Component None []) "notes.txt"
     = "Unnamed Course"
  /\ extractCourseName (ICAL.Malformed JS.OtherValue) "math.ics"
     = "Unnamed Course".
Proof. vm_compute. auto 10. Qed.

End ParserExamples.

(** ** Type classification *)

Section TypeClassification.
Import IcsParserService.



Lemma typeOfTitle_not_other (title : string) :
  SchoologyScraper.typeOfTitle title <> OTHER.
Proof.
  unfold SchoologyScraper.typeOfTitle.
  repeat match goal with |- context [if ?b then _ else _] => destruct b end;
    discriminate.
Qed.



End TypeClassification.

(** ** Dexie tables *)

Section Tables.
Context {Row : Type}.
Implicit Types (t : gmap string Row) (rows : list Row).

Lemma toArray_elem t (r : Row) :
  r ∈ Dexie.toArray t <-> exists k, t !! k = Some r.
Proof.
  unfold Dexie.toArray. rewrite list_elem_of_fmap. split.
  - intros ([k r'] & -> & Hin). rewrite merge_sort_Permutation in Hin.
    apply elem_of_map_to_list in Hin. eauto.
  - intros (k & Hk). exists (k, r). split; [reflexivity |].
    rewrite merge_sort_Permutation. now apply elem_of_map_to_list.
Qed.

Lemma toArray_length t : length (Dexie.toArray t) = size t.
Proof.
  unfold Dexie.toArray. rewrite length_fmap, merge_sort_Permutation.
  apply length_map_to_list.
Qed.

(** What [bulkPut] leaves under a key: the last row of the array written
    under it, or what was there. *)
Lemma bulkPut_lookup (keyOf : Row -> string) rows t (k : string) :
  Dexie.bulkPut keyOf rows t !! k
  = foldl (fun acc r => if decide (keyOf r = k) then Some r else acc)
          (t !! k) rows.
Proof.
  unfold Dexie.bulkPut. revert t.
  induction rows as [| r rest IH]; intros t; [reflexivity |].
  simpl. rewrite IH. f_equal.
  destruct (decide (keyOf r = k)) as [<- | Hne].
  - apply lookup_insert_eq.
  - now apply lookup_insert_ne.
Qed.

Lemma bulkPut_lookup_cases (keyOf : Row -> string) rows t (k : string) :
  Dexie.bulkPut keyOf rows t !! k = t !! k
  \/ exists r, In r rows /\ keyOf r = k
               /\ Dexie.bulkPut keyOf rows t !! k = Some r.
Proof.
  rewrite bulkPut_lookup. generalize (t !! k) as acc.
  induction rows as [| r rest IH]; intros acc; [now left |].
  simpl. destruct (decide (keyOf r = k)) as [Hk | Hne].
  - destruct (IH (Some r)) as [-> | (r' & Hin & Hk' & ->)].
    + right. exists r. auto.
    + right. exists r'. auto.
  - destruct (IH acc) as [-> | (r' & Hin & Hk' & ->)].
    + now left.
    + right. exists r'. auto.
Qed.

Lemma bulkPut_lookup_other (keyOf : Row -> string) rows t (k : string) :
  (forall r, In r rows -> keyOf r <> k) ->
  Dexie.bulkPut keyOf rows t !! k = t !! k.
Proof.
  intros Hno.
  destruct (bulkPut_lookup_cases keyOf rows t k) as [H | (r & Hin & Hk & _)];
    [assumption | now destruct (Hno r Hin)].
Qed.

Lemma bulkPut_dom (keyOf : Row -> string) rows t :
  dom (Dexie.bulkPut keyOf rows t)
  = dom t ∪ list_to_set (keyOf <$> rows).
Proof.
  unfold Dexie.bulkPut. revert t.
  induction rows as [| r rest IH]; intros t.
  - simpl. now rewrite (right_id_L ∅ (∪)).
  - cbn [foldl]. rewrite IH, dom_insert_L, fmap_cons, list_to_set_cons.
    apply set_eq. intros x. rewrite !elem_of_union. tauto.
Qed.

Lemma bulkDelete_lookup (keys : list string) t (k : string) :
  Dexie.bulkDelete keys t !! k = if decide (k ∈ keys) then None else t !! k.
Proof.
  unfold Dexie.bulkDelete. revert t.
  induction keys as [| x rest IH]; intros t; simpl.
  - destruct (decide (k ∈ [])) as [H | _]; [inversion H | reflexivity].
  - rewrite IH.
    destruct (decide (k ∈ rest)) as [Hin | Hnin].
    + rewrite decide_True by (now right). reflexivity.
    + destruct (decide (x = k)) as [-> | Hne].
      * rewrite decide_True by (now left). apply lookup_delete_eq.
      * rewrite decide_False by (intros H; inversion H; subst; tauto).
        now apply lookup_delete_ne.
Qed.

End Tables.

(** ** File import *)

Section FileImport.
Import ImportComponent.

Lemma transform_status (clock : Z) (fresh : string) (e : ICAL.Event)
    (courseId courseName courseColor : string) :
  SyncLoop.derivedStatus
    (IcsParserService.transformToCalendarEvent clock fresh e courseId courseName
       courseColor).
Proof. exists clock. reflexivity. Qed.

Lemma derivedStatus_not_completed (e : CalendarEvent.t) :
  SyncLoop.derivedStatus e -> CalendarEvent.status e <> COMPLETED.
Proof.
  intros (clock & ->).
  destruct (determineEventStatus_range (CalendarEvent.endDate e)
              (Instant clock)) as [-> | ->]; discriminate.
Qed.

(** The events of a file that parsed are conversions of its entries. *)
Lemma parseFile_events (outer inner : Ambient) (j : nat) (file file' : File)
    (courseId courseName courseColor : string)
    (evs : list CalendarEvent.t) :
  parseFile outer inner j file
  = ParseSucceeded file' courseId courseName courseColor evs ->
  exists calname vevents,
    read file = ReadResolves (ICAL.Component calname vevents)
    /\ file' = file
    /\ courseId = uniqueId outer j
    /\ courseName
       = IcsParserService.extractCourseName (ICAL.Component calname vevents)
                                     (name file)
    /\ courseColor = randomColor outer j
    /\ evs = (IcsParserService.convert inner courseId courseName courseColor
                0 vevents).1
    /\ evs <> [].
Proof.
  unfold parseFile. destruct (read file) as [err | content]; [discriminate |].
  destruct content as [err | calname vevents]; [discriminate |].
  unfold IcsParserService.parseIcsFile.
  destruct (IcsParserService.convert inner (uniqueId outer j)
              (IcsParserService.extractCourseName
                 (ICAL.Component calname vevents) (name file))
              (randomColor outer j) 0 vevents) as [evs0 errs] eqn:Hc.
  cbn [IcsImportResult.success IcsImportResult.events IcsImportResult.errors].
  destruct evs0 as [| ev0 evs0]; [discriminate |].
  cbn -[IcsParserService.extractCourseName randomColor]. intros H.
  injection H as <- <- <- <- <-.
  exists calname, vevents.
  unfold IcsParserService.extractCourseName in Hc |- *. rewrite Hc.
  repeat split; congruence.
Qed.

Lemma gather_events (outer : Ambient) (j : nat) (parsed : list Parsed)
    (ev : CalendarEvent.t) :
  In ev (gather outer j parsed).1.2 ->
  exists file courseId courseName courseColor evs,
    In (ParseSucceeded file courseId courseName courseColor evs) parsed
    /\ In ev evs.
Proof.
  revert j. induction parsed as [| p rest IH]; intros j; simpl; [tauto |].
  destruct (gather outer (S j) rest) as [[cs es] rs] eqn:Hg.
  specialize (IH (S j)). rewrite Hg in IH. simpl in IH.
  destruct p as [file cid cn cc evs | file err]; simpl.
  - rewrite in_app_iff. intros [H | H].
    + exists file, cid, cn, cc, evs. auto.
    + destruct (IH H) as (f & a & b & c & l & Hin & Hev).
      exists f, a, b, c, l. auto.
  - intros H. destruct (IH H) as (f & a & b & c & l & Hin & Hev).
    exists f, a, b, c, l. auto.
Qed.

Lemma parseFiles_in (outer : Ambient) (inner : nat -> Ambient) (j : nat)
    (files : list File) (p : Parsed) :
  In p (parseFiles outer inner j files) ->
  exists k file, In file files /\ p = parseFile outer (inner k) k file.
Proof.
  revert j. induction files as [| f rest IH]; intros j; simpl; [tauto |].
  intros [<- | H].
  - exists j, f. auto.
  - destruct (IH _ H) as (k & file & Hin & ->). exists k, file. auto.
Qed.

(** Every event that an import writes was made by
    [transformToCalendarEvent]. *)
Lemma imported_event_transformed (outer : Ambient) (inner : nat -> Ambient)
    (files : list File) (ev : CalendarEvent.t) :
  In ev (gather outer 0 (parseFiles outer inner 0 files)).1.2 ->
  exists clock fresh e courseId courseName courseColor,
    ev = IcsParserService.transformToCalendarEvent clock fresh e courseId
           courseName courseColor.
Proof.
  intros H. apply gather_events in H.
  destruct H as (file & cid & cn & cc & evs & Hp & Hev).
  apply parseFiles_in in Hp. destruct Hp as (k & f & _ & Hp).
  symmetry in Hp. apply parseFile_events in Hp.
  destruct Hp as (calname & vevents & _ & _ & _ & _ & _ & -> & _).
  apply convert_events_from in Hev. destruct Hev as (i & e & _ & ->).
  eauto 10.
Qed.

(** Adding courses leaves the events table as it is, however the loop
    ends. *)
Lemma addCourses_events (i : nat) (cs : list Course.t) (db : AppDatabase.t) :
  AppDatabase.events
    (dbOf (forEachFrom (fun _ course _ => EventManagerService.addCourse course)
             i cs tt db))
  = AppDatabase.events db.
Proof.
  revert i db. induction cs as [| c rest IH]; intros i db; [reflexivity |].
  cbn [forEachFrom]. unfold await at 1.
  unfold EventManagerService.addCourse, StorageService.addCourse, await.
  destruct (Dexie.add (Course.id c) c (AppDatabase.courses db)) as [co |];
    [| reflexivity].
  unfold resolve. specialize (IH (S i) (AppDatabase.withCourses co db)).
  unfold EventManagerService.addCourse, StorageService.addCourse, await,
    resolve in IH.
  rewrite IH. reflexivity.
Qed.

(** The events table after [save]: written in one [bulkPut] when every
    course was added, untouched otherwise. *)
Lemma save_events (cs : list Course.t) (evs : list CalendarEvent.t)
    (db : AppDatabase.t) :
  AppDatabase.events (dbOf (save cs evs db)) = AppDatabase.events db
  \/ AppDatabase.events (dbOf (save cs evs db))
     = Dexie.bulkPut CalendarEvent.id evs (AppDatabase.events db).
Proof.
  unfold save. destruct (0 <? length cs)%nat; [| now left].
  unfold await.
  pose proof (addCourses_events 0 cs db) as He.
  destruct (forEachFrom
              (fun _ course _ => EventManagerService.addCourse course)
              0 cs tt db) as [u db' | err db']; simpl in He.
  - right. unfold EventManagerService.addEvents, StorageService.addEvents.
    cbn [dbOf AppDatabase.events AppDatabase.withEvents]. now rewrite He.
  - left. exact He.
Qed.

Lemma processFiles_db (outer : Ambient) (inner : nat -> Ambient)
    (files : list File) (db : AppDatabase.t) :
  dbOf (processFiles outer inner files db)
  = match files with
    | [] => db
    | _ :: _ =>
        let g := gather outer 0 (parseFiles outer inner 0 files) in
        dbOf (save g.1.1 g.1.2 db)
    end.
Proof.
  unfold processFiles. destruct files as [| f rest]; [reflexivity |].
  cbn [length Nat.eqb]. cbv zeta.
  destruct (gather outer 0 (parseFiles outer inner 0 (f :: rest)))
    as [[cs es] rs].
  unfold tryCatch, await. cbn [fst snd].
  destruct (save cs es db); reflexivity.
Qed.

Lemma processFiles_events (outer : Ambient) (inner : nat -> Ambient)
    (files : list File) (db : AppDatabase.t) :
  let evs := (gather outer 0 (parseFiles outer inner 0 files)).1.2 in
  AppDatabase.events (dbOf (processFiles outer inner files db))
  = AppDatabase.events db
  \/ AppDatabase.events (dbOf (processFiles outer inner files db))
     = Dexie.bulkPut CalendarEvent.id evs (AppDatabase.events db).
Proof.
  cbv zeta. rewrite processFiles_db. destruct files as [| f rest];
    [now left |].
  cbv zeta. apply save_events.
Qed.

(** C5. A file import deletes no stored event: every id in the events
    table before the import is in it afterwards, whatever the files hold
    and however the import ends; a row is replaced only by an imported
    event with its id. *)
Theorem processFiles_never_deletes (outer : Ambient) (inner : nat -> Ambient)
    (selectedFiles : list File) (db : AppDatabase.t) :
  let db' := dbOf (processFiles outer inner selectedFiles db) in
  dom (AppDatabase.events db) ⊆ dom (AppDatabase.events db')
  /\ forall id e,
       AppDatabase.events db !! id = Some e ->
       AppDatabase.events db' !! id = Some e
       \/ exists ev,
            In ev (gather outer 0
                     (parseFiles outer inner 0 selectedFiles)).1.2
            /\ CalendarEvent.id ev = id
            /\ AppDatabase.events db' !! id = Some ev.
Proof.
  cbv zeta.
  destruct (processFiles_events outer inner selectedFiles db) as [-> | ->].
  - split; [reflexivity | auto].
  - split.
    + rewrite bulkPut_dom. apply union_subseteq_l.
    + intros id e He.
      destruct (bulkPut_lookup_cases CalendarEvent.id
                  (gather outer 0
                     (parseFiles outer inner 0 selectedFiles)).1.2
                  (AppDatabase.events db) id) as [-> | (ev & Hin & Hid & ->)].
      * now left.
      * right. exists ev. auto.
Qed.

End FileImport.

(** ** Importing one document twice *)

Section ImportTwice.
Import ImportComponent Reimport.

Lemma sameContent_refl (e : CalendarEvent.t) : sameContent e e.
Proof. unfold sameContent. tauto. Qed.

Lemma convert_sameContent (amb1 amb2 : Ambient)
    (courseId1 courseId2 courseName courseColor1 courseColor2 : string)
    (k : nat) (vevents : list ICAL.VEvent) :
  forallb identified vevents = true ->
  Forall2 sameContent
    (IcsParserService.convert amb1 courseId1 courseName courseColor1 k
       vevents).1
    (IcsParserService.convert amb2 courseId2 courseName courseColor2 k
       vevents).1.
Proof.
  revert k. induction vevents as [| v rest IH]; intros k Hid; simpl.
  - constructor.
  - simpl in Hid. apply andb_true_iff in Hid. destruct Hid as [Hv Hrest].
    specialize (IH (S k) Hrest).
    destruct (IcsParserService.convert amb1 courseId1 courseName courseColor1
                (S k) rest) as [evs1 errs1].
    destruct (IcsParserService.convert amb2 courseId2 courseName courseColor2
                (S k) rest) as [evs2 errs2].
    destruct v as [err | e]; simpl in *; [assumption |].
    constructor; [| assumption].
    unfold sameContent. cbn [IcsParserService.transformToCalendarEvent
      CalendarEvent.id CalendarEvent.title CalendarEvent.description
      CalendarEvent.startDate CalendarEvent.endDate CalendarEvent.eventType
      CalendarEvent.courseName CalendarEvent.location CalendarEvent.isAllDay
      CalendarEvent.recurrence CalendarEvent.rawIcsData].
    repeat split.
    unfold JS.or_else. unfold JS.or_undefined in Hv.
    destruct (ICAL.uid e) as [u |]; [| discriminate].
    destruct (String.eqb u ""); [discriminate | reflexivity].
Qed.

(** The row that a [bulkPut] writes under a key does not depend on what
    was there, and corresponds between two arrays with the same content. *)
Lemma written_or_kept {Row : Type} (keyOf : Row -> string) (k : string)
    (rows : list Row) (acc : option Row) :
  foldl (fun acc r => if decide (keyOf r = k) then Some r else acc) acc rows
  = match foldl (fun acc r => if decide (keyOf r = k) then Some r else acc)
                None rows with
    | Some r => Some r
    | None => acc
    end.
Proof.
  revert acc. induction rows as [| r rest IH]; intros acc; [reflexivity |].
  simpl. destruct (decide (keyOf r = k)).
  - rewrite (IH (Some r)).
    destruct (foldl _ None rest) eqn:E; rewrite ?E; reflexivity.
  - apply IH.
Qed.

Lemma written_sameContent (k : string) (l1 l2 : list CalendarEvent.t) :
  Forall2 sameContent l1 l2 ->
  forall acc1 acc2,
    option_Forall2 sameContent acc1 acc2 ->
    option_Forall2 sameContent
      (foldl (fun acc r => if decide (CalendarEvent.id r = k)
                           then Some r else acc) acc1 l1)
      (foldl (fun acc r => if decide (CalendarEvent.id r = k)
                           then Some r else acc) acc2 l2).
Proof.
  induction 1 as [| e1 e2 r1 r2 Hsame _ IH]; intros acc1 acc2 Hacc;
    [assumption |].
  simpl. apply IH. destruct Hsame as [Hid Hrest]. rewrite Hid.
  destruct (decide (CalendarEvent.id e2 = k)); [| assumption].
  constructor. unfold sameContent. auto.
Qed.

Lemma sameContent_ids (l1 l2 : list CalendarEvent.t) :
  Forall2 sameContent l1 l2 ->
  CalendarEvent.id <$> l1 = CalendarEvent.id <$> l2.
Proof.
  induction 1 as [| e1 e2 r1 r2 [Hid _] _ IH]; [reflexivity |].
  rewrite !fmap_cons. now rewrite Hid, IH.
Qed.

(** The events table after one file was imported. *)
Lemma import_one_events (outer : Ambient) (inner : nat -> Ambient)
    (file : File) (db : AppDatabase.t) :
  AppDatabase.events (dbOf (processFiles outer inner [file] db))
  = match parseFile outer (inner 0) 0 file with
    | ParseSucceeded _ courseId _ _ evs =>
        match AppDatabase.courses db !! courseId with
        | None =>
            Dexie.bulkPut CalendarEvent.id evs (AppDatabase.events db)
        | Some _ => AppDatabase.events db
        end
    | ParseFailed _ _ => AppDatabase.events db
    end.
Proof.
  rewrite processFiles_db. cbn [parseFiles gather].
  destruct (parseFile outer (inner 0) 0 file)
    as [f cid cn cc evs | f err]; [| reflexivity].
  cbn [fst snd]. unfold save. cbn [length Nat.ltb Nat.leb forEachFrom].
  unfold await, EventManagerService.addCourse, StorageService.addCourse,
    await, Dexie.add. cbn [Course.id].
  destruct (AppDatabase.courses db !! cid); [reflexivity |].
  unfold resolve, EventManagerService.addEvents, StorageService.addEvents.
  cbn [dbOf AppDatabase.events AppDatabase.withEvents AppDatabase.withCourses].
  now rewrite app_nil_r.
Qed.

(** Two imports of one file either both fail to parse, or both succeed
    with events of the same content, position by position. *)
Lemma parseFile_twice (outer1 outer2 inner1 inner2 : Ambient) (file : File) :
  allIdentified file = true ->
  match parseFile outer1 inner1 0 file, parseFile outer2 inner2 0 file with
  | ParseSucceeded _ _ _ _ evs1, ParseSucceeded _ _ _ _ evs2 =>
      Forall2 sameContent evs1 evs2
  | ParseFailed _ _, ParseFailed _ _ => True
  | _, _ => False
  end.
Proof.
  unfold allIdentified, parseFile.
  destruct (read file) as [err | [err | calname vevents]];
    [simpl; tauto | simpl; tauto |].
  intros Hid. unfold IcsParserService.parseIcsFile.
  pose proof (convert_sameContent inner1 inner2 (uniqueId outer1 0)
                (uniqueId outer2 0)
                (IcsParserService.extractCourseName
                   (ICAL.Component calname vevents) (name file))
                (randomColor outer1 0) (randomColor outer2 0) 0 vevents Hid)
    as Hsame.
  destruct (IcsParserService.convert inner1 _ _ _ 0 vevents) as [evs1 errs1].
  destruct (IcsParserService.convert inner2 _ _ _ 0 vevents) as [evs2 errs2].
  simpl in Hsame.
  cbn [IcsImportResult.success IcsImportResult.events IcsImportResult.errors].
  destruct Hsame as [| e1 e2 r1 r2 He Hr]; cbn [length Nat.ltb Nat.leb].
  - exact I.
  - constructor; assumption.
Qed.

End ImportTwice.

(** ** Scrape sync *)

Section ScrapeSync.
Import SyncService.

(** *** The map of existing events *)

Lemma existingEventMap_from (l : list CalendarEvent.t)
    (m : gmap string string) (key id : string) :
  foldl (fun m e => <[keyOfStored e := CalendarEvent.id e]> m) m l !! key
  = Some id ->
  m !! key = Some id
  \/ exists e, In e l /\ keyOfStored e = key /\ CalendarEvent.id e = id.
Proof.
  revert m. induction l as [| e rest IH]; intros m; simpl; [auto |].
  intros H. destruct (IH _ H) as [Hm | (e' & Hin & Hk & Hid)].
  - destruct (decide (keyOfStored e = key)) as [Heq | Hne].
    + rewrite Heq, lookup_insert_eq in Hm. injection Hm as <-.
      right. exists e. auto.
    + rewrite lookup_insert_ne in Hm by assumption. now left.
  - right. exists e'. auto.
Qed.

Lemma existingEventMap_registers (l : list CalendarEvent.t)
    (m : gmap string string) (key : string) :
  is_Some (m !! key) \/ (exists e, In e l /\ keyOfStored e = key) ->
  is_Some (foldl (fun m e => <[keyOfStored e := CalendarEvent.id e]> m) m l
           !! key).
Proof.
  revert m. induction l as [| e rest IH]; intros m; simpl.
  - intros [H | (e & [] & _)]. exact H.
  - intros [H | (e' & [<- | Hin] & Hk)]; apply IH.
    + left. destruct (decide (keyOfStored e = key)) as [<- | Hne].
      * rewrite lookup_insert_eq. eauto.
      * now rewrite lookup_insert_ne.
    + left. rewrite Hk, lookup_insert_eq. eauto.
    + right. eauto.
Qed.

(** An entry of the map names a stored event by its key and id. *)
Lemma existingEventMap_sound (t : gmap string CalendarEvent.t)
    (key id : string) :
  existingEventMapOf (Dexie.toArray t) !! key = Some id ->
  exists k e, t !! k = Some e /\ keyOfStored e = key
              /\ CalendarEvent.id e = id.
Proof.
  intros H. apply existingEventMap_from in H.
  destruct H as [H | (e & Hin & Hk & Hid)].
  - now rewrite lookup_empty in H.
  - apply list_elem_of_In, toArray_elem in Hin. destruct Hin as (k & Hk').
    exists k, e. auto.
Qed.

(** Every stored event has its key in the map. *)
Lemma existingEventMap_complete (t : gmap string CalendarEvent.t)
    (k : string) (e : CalendarEvent.t) :
  t !! k = Some e ->
  is_Some (existingEventMapOf (Dexie.toArray t) !! keyOfStored e).
Proof.
  intros H. apply existingEventMap_registers. right. exists e.
  split; [| reflexivity]. apply list_elem_of_In, toArray_elem. eauto.
Qed.

(** *** One turn of the loop over the events *)

Lemma or_undefined_Some (x : option string) (s : string) :
  JS.or_undefined x = Some s <-> x = Some s /\ s <> "".
Proof.
  unfold JS.or_undefined. destruct x as [u |].
  - destruct (String.eqb_spec u ""); split.
    + discriminate.
    + intros [[= ->] Hne]. contradiction.
    + intros [= ->]. auto.
    + intros [[= ->] _]. reflexivity.
  - split; [discriminate | intros [[=] _]].
Qed.

Lemma calendarEventOf_status (amb : Ambient) (i : nat)
    (existing : option string) (d : ScrapedEvent.t) :
  SyncLoop.derivedStatus (calendarEventOf amb i existing d).
Proof. exists (now amb i). reflexivity. Qed.

Lemma calendarEventOf_id_existing (amb : Ambient) (i : nat) (j : string)
    (d : ScrapedEvent.t) :
  j <> "" -> CalendarEvent.id (calendarEventOf amb i (Some j) d) = j.
Proof.
  intros Hj. simpl. destruct (String.eqb_spec j ""); [contradiction | easy].
Qed.

Lemma processEvent_cases (amb : Ambient) (m : gmap string string) (i : nat)
    (d : ScrapedEvent.t) (seen : gset string) (db : AppDatabase.t) :
  let t := AppDatabase.events db in
  match JS.or_undefined (m !! keyOfScraped d) with
  | Some j =>
      processEvent amb m i d seen db
      = Fulfilled ({[ j ]} ∪ seen)
          (AppDatabase.withEvents
             (alter (fun _ => calendarEventOf amb i (Some j) d) j t) db)
  | None =>
      match t !! uniqueId amb i with
      | Some _ =>
          processEvent amb m i d seen db = Rejected Dexie.ConstraintError db
      | None =>
          processEvent amb m i d seen db
          = Fulfilled ({[ uniqueId amb i ]} ∪ seen)
              (AppDatabase.withEvents
                 (<[uniqueId amb i := calendarEventOf amb i None d]> t) db)
      end
  end.
Proof.
  cbv zeta. unfold processEvent.
  destruct (JS.or_undefined (m !! keyOfScraped d)) as [j |] eqn:Hj.
  - reflexivity.
  - unfold await, addEvent, Dexie.add.
    change (CalendarEvent.id (calendarEventOf amb i None d))
      with (uniqueId amb i).
    destruct (AppDatabase.events db !! uniqueId amb i); reflexivity.
Qed.

(** *** Loops *)

Lemma forEachFrom_invariant {A St : Type} (body : nat -> A -> St -> Async St)
    (Inv : list A -> St -> AppDatabase.t -> Prop)
    (Broken : AppDatabase.t -> Prop) :
  (forall i x pre s db,
      Inv pre s db ->
      match body i x s db with
      | Fulfilled s' db' => Inv (pre ++ [x])%list s' db'
      | Rejected _ db' => Broken db'
      end) ->
  forall items i pre s db,
    Inv pre s db ->
    match forEachFrom body i items s db with
    | Fulfilled s' db' => Inv (pre ++ items)%list s' db'
    | Rejected _ db' => Broken db'
    end.
Proof.
  intros Hstep. induction items as [| x rest IH]; intros i pre s db Hinv.
  - simpl. unfold resolve. now rewrite app_nil_r.
  - cbn [forEachFrom]. unfold await. specialize (Hstep i x pre s db Hinv).
    destruct (body i x s db) as [s' db' | err db']; [| assumption].
    specialize (IH (S i) (pre ++ [x])%list s' db' Hstep).
    now rewrite <- app_assoc in IH.
Qed.

Lemma processCourses_events (amb : Ambient) (ids : list string) (i : nat)
    (cs : list ScrapedCourse.t) (db : AppDatabase.t) :
  AppDatabase.events (dbOf (forEachFrom (processCourse amb ids) i cs tt db))
  = AppDatabase.events db.
Proof.
  revert i db. induction cs as [| c rest IH]; intros i db; [reflexivity |].
  cbn [forEachFrom]. unfold await at 1. unfold processCourse at 1.
  destruct (negb (JS.arrayIncludes ids (ScrapedCourse.id c))).
  - unfold await, StorageService.addCourse, Dexie.add, resolve.
    cbn [Course.id].
    destruct (AppDatabase.courses db !! ScrapedCourse.id c); [reflexivity |].
    now rewrite IH.
  - now rewrite IH.
Qed.

Lemma processEvent_invariant (amb : Ambient) (m : gmap string string)
    (t0 : gmap string CalendarEvent.t) (i : nat) (d : ScrapedEvent.t)
    (pre : list ScrapedEvent.t) (seen : gset string) (db : AppDatabase.t) :
  SyncLoop.invariant m t0 pre seen db ->
  match processEvent amb m i d seen db with
  | Fulfilled seen' db' => SyncLoop.invariant m t0 (pre ++ [d])%list seen' db'
  | Rejected _ db' => SyncLoop.sound t0 db'
  end.
Proof.
  intros ((Hkeep & Hrows) & Hseen & Hold).
  pose proof (processEvent_cases amb m i d seen db) as Hcases.
  cbv zeta in Hcases.
  destruct (JS.or_undefined (m !! keyOfScraped d)) as [j |] eqn:Hj.
  - rewrite Hcases. repeat split.
    + intros k Hk. cbn [AppDatabase.events AppDatabase.withEvents].
      rewrite lookup_alter. destruct (decide (j = k)) as [-> | _]; [| auto].
      destruct (Hkeep k Hk) as [e ->]. simpl. eauto.
    + intros k e. cbn [AppDatabase.events AppDatabase.withEvents].
      rewrite lookup_alter. destruct (decide (j = k)) as [-> | _]; [| auto].
      destruct (AppDatabase.events db !! k); [| discriminate].
      intros [= <-]. right. apply calendarEventOf_status.
    + intros d' j' Hin Hj'. apply in_app_iff in Hin.
      destruct Hin as [Hin | [<- | []]].
      * apply elem_of_union_r. eauto.
      * apply elem_of_union_l, elem_of_singleton. congruence.
    + intros j' Hin Hsome. apply elem_of_union in Hin.
      destruct Hin as [Hin | Hin].
      * apply elem_of_singleton in Hin. subst j'. exists d.
        split; [apply in_app_iff; simpl; auto | assumption].
      * destruct (Hold j' Hin Hsome) as (d' & Hd' & Hj').
        exists d'. split; [apply in_app_iff; auto | assumption].
  - destruct (AppDatabase.events db !! uniqueId amb i) as [old |] eqn:Hnew;
      rewrite Hcases; [split; assumption |].
    repeat split.
    + intros k Hk. cbn [AppDatabase.events AppDatabase.withEvents].
      rewrite lookup_insert. destruct (decide (uniqueId amb i = k)); eauto.
    + intros k e. cbn [AppDatabase.events AppDatabase.withEvents].
      rewrite lookup_insert.
      destruct (decide (uniqueId amb i = k)) as [_ | _]; [| auto].
      intros [= <-]. right. apply calendarEventOf_status.
    + intros d' j' Hin Hj'. apply in_app_iff in Hin.
      destruct Hin as [Hin | [<- | []]].
      * apply elem_of_union_r. eauto.
      * congruence.
    + intros j' Hin Hsome. apply elem_of_union in Hin.
      destruct Hin as [Hin | Hin].
      * apply elem_of_singleton in Hin. subst j'.
        destruct (Hkeep _ Hsome) as [e He]. congruence.
      * destruct (Hold j' Hin Hsome) as (d' & Hd' & Hj').
        exists d'. split; [apply in_app_iff; auto | assumption].
Qed.

Lemma eventIdsToDelete_elem (m : gmap string string) (seen : gset string)
    (id : string) :
  id ∈ eventIdsToDeleteOf m seen
  <-> (exists key, m !! key = Some id) /\ id ∉ seen.
Proof.
  unfold eventIdsToDeleteOf. rewrite list_elem_of_In, filter_In.
  rewrite <- list_elem_of_In, list_elem_of_fmap, negb_true_iff.
  rewrite bool_decide_eq_false. split.
  - intros (([key v] & -> & Hin) & Hseen).
    apply elem_of_map_to_list in Hin. eauto.
  - intros ((key & Hkey) & Hseen). split; [| assumption].
    exists (key, id). split; [reflexivity |].
    now apply elem_of_map_to_list.
Qed.

(** How a sync ends: rejected with a sound table, or fulfilled after the
    loop ran over all events and the unseen registered ids were deleted. *)
Lemma processScrapedData_outcome (ambCourses ambEvents : Ambient)
    (courses : list ScrapedCourse.t) (events : list ScrapedEvent.t)
    (db : AppDatabase.t) :
  let t0 := AppDatabase.events db in
  let m := existingEventMapOf (Dexie.toArray t0) in
  match processScrapedData ambCourses ambEvents courses events db with
  | Rejected _ db' => SyncLoop.sound t0 db'
  | Fulfilled _ db' =>
      exists seen dbe,
        SyncLoop.invariant m t0 events seen dbe
        /\ forall k,
             AppDatabase.events db' !! k
             = if decide (k ∈ eventIdsToDeleteOf m seen) then None
               else AppDatabase.events dbe !! k
  end.
Proof.
  cbv zeta. unfold processScrapedData.
  unfold await at 1. unfold StorageService.getAllCourses at 1.
  unfold await at 1.
  pose proof (processCourses_events ambCourses
                (map Course.id (Dexie.toArray (AppDatabase.courses db)))
                0 courses db) as Hc.
  destruct (forEachFrom _ 0 courses tt db) as [u dbc | err dbc];
    simpl in Hc.
  2: { unfold SyncLoop.sound. rewrite Hc.
       split; [auto | intros k e H; now left]. }
  unfold await at 1. unfold StorageService.getAllEvents at 1.
  rewrite Hc. unfold await at 1.
  assert (Hinit : SyncLoop.invariant
                    (existingEventMapOf
                       (Dexie.toArray (AppDatabase.events db)))
                    (AppDatabase.events db) [] ∅ dbc).
  { unfold SyncLoop.invariant, SyncLoop.sound. rewrite Hc. repeat split.
    - auto.
    - intros k e H. now left.
    - intros d j [].
    - intros j Hj. now apply not_elem_of_empty in Hj. }
  pose proof (forEachFrom_invariant
                (processEvent ambEvents
                   (existingEventMapOf
                      (Dexie.toArray (AppDatabase.events db))))
                (SyncLoop.invariant
                   (existingEventMapOf
                      (Dexie.toArray (AppDatabase.events db)))
                   (AppDatabase.events db))
                (SyncLoop.sound (AppDatabase.events db))
                (fun i x pre s d H =>
                   processEvent_invariant ambEvents _ _ i x pre s d H)
                events 0 [] ∅ dbc Hinit) as Hloop.
  match goal with
  | |- context [forEachFrom ?body 0 events ?s dbc] =>
      destruct (forEachFrom body 0 events s dbc) as [seen dbe | err dbe]
  end; [| assumption].
  simpl in Hloop.
  destruct (0 <? length (eventIdsToDeleteOf _ seen))%nat eqn:Hlen;
    exists seen, dbe; (split; [assumption |]); intros k.
  - cbn [AppDatabase.events AppDatabase.withEvents].
    apply bulkDelete_lookup.
  - apply Nat.ltb_ge in Hlen.
    destruct (eventIdsToDeleteOf _ seen) as [| x l]; [| simpl in Hlen; lia].
    rewrite decide_False; [reflexivity | apply not_elem_of_nil].
Qed.

End ScrapeSync.

(** ** Keys of scraped and of stored events *)

Section Keys.
Import SyncService.

Lemma lastChar_cons (c : ascii) (s : string) :
  s <> "" -> Text.lastChar (String c s) = Text.lastChar s.
Proof. destruct s; [congruence | reflexivity]. Qed.

Lemma lastChar_append (a b : string) :
  b <> "" -> Text.lastChar (a +:+ b) = Text.lastChar b.
Proof.
  intros Hb. induction a as [| c a IH]; [reflexivity |].
  change (Text.lastChar (String c (a +:+ b)) = Text.lastChar b).
  rewrite lastChar_cons; [assumption |].
  destruct a; [assumption | discriminate].
Qed.

Lemma lastChar_at (s : string) (n : nat) (c : ascii) :
  String.length s = S n ->
  String.substring n 1 s = String c EmptyString ->
  Text.lastChar s = Some c.
Proof.
  revert n. induction s as [| a r IH]; intros n Hlen Hsub; [discriminate |].
  simpl in Hlen. injection Hlen as Hlen. destruct n as [| n].
  - destruct r; [| discriminate]. simpl in Hsub. simpl. congruence.
  - simpl in Hsub. rewrite lastChar_cons.
    + now apply (IH n).
    + destruct r; [discriminate | discriminate].
Qed.

(** A text that [new Date] reads in the [toISOString] format ends in
    [Z]. *)
Lemma parse_ends_in_Z (text : string) :
  JSDate.parse text <> InvalidDate ->
  Text.lastChar text = Some "Z"%char.
Proof.
  unfold JSDate.parse.
  destruct (JSDate.field text 0 4); [| congruence].
  destruct (JSDate.field text 5 2); [| congruence].
  destruct (JSDate.field text 8 2); [| congruence].
  destruct (JSDate.field text 11 2); [| congruence].
  destruct (JSDate.field text 14 2); [| congruence].
  destruct (JSDate.field text 17 2); [| congruence].
  destruct (String.length text =? 24)%nat eqn:H24.
  - destruct (String.eqb (JSDate.charAt text 19) ".");
      cbn [andb]; [destruct (String.eqb_spec (JSDate.charAt text 23) "Z")
                     as [HZ | _] |].
    + intros _. apply Nat.eqb_eq in H24. now apply (lastChar_at text 23).
    + apply Nat.eqb_eq in H24. rewrite H24. cbn [Nat.eqb andb]. congruence.
    + apply Nat.eqb_eq in H24. rewrite H24. cbn [Nat.eqb andb]. congruence.
  - cbn [andb].
    destruct (String.length text =? 20)%nat eqn:H20; cbn [andb];
      [| congruence].
    destruct (String.eqb_spec (JSDate.charAt text 19) "Z") as [HZ | _];
      [| congruence].
    intros _. apply Nat.eqb_eq in H20. now apply (lastChar_at text 19).
Qed.

Lemma append_nonempty (a b : string) : b <> "" -> a +:+ b <> "".
Proof. destruct a; [auto | discriminate]. Qed.

Lemma lastChar_key (courseId title last : string) :
  last <> "" ->
  Text.lastChar (courseId +:+ "-" +:+ title +:+ "-" +:+ last)
  = Text.lastChar last.
Proof.
  intros Hlast.
  rewrite (lastChar_append courseId)
    by (repeat apply append_nonempty; assumption).
  rewrite (lastChar_append "-")
    by (repeat apply append_nonempty; assumption).
  rewrite (lastChar_append title)
    by (repeat apply append_nonempty; assumption).
  now apply (lastChar_append "-").
Qed.

Lemma keyOfStored_ends_in_d (e : CalendarEvent.t) :
  Text.lastChar (keyOfStored e) = Some "d"%char.
Proof.
  unfold keyOfStored, generateEventKey. cbn [default].
  now rewrite lastChar_key.
Qed.

(** The key of a scraped event whose due date is in the [toISOString]
    format is the key of no stored event. *)
Lemma scraped_key_never_stored (d : ScrapedEvent.t) (e : CalendarEvent.t) :
  JSDate.parse (ScrapedEvent.dueDate d) <> InvalidDate ->
  keyOfScraped d <> keyOfStored e.
Proof.
  intros Hdate Heq. apply parse_ends_in_Z in Hdate.
  pose proof (keyOfStored_ends_in_d e) as Hd. rewrite <- Heq in Hd.
  unfold keyOfScraped, generateEventKey in Hd. cbn [default] in Hd.
  rewrite lastChar_key in Hd.
  - unfold id in Hd. congruence.
  - unfold id. intros E. rewrite E in Hdate. discriminate.
Qed.

(** So a scraped event with such a due date is never matched with a
    stored event, whatever the table holds: the sync builds its row under
    the generated id. *)
Lemma dated_event_never_matches (t : gmap string CalendarEvent.t)
    (amb : Ambient) (i : nat) (d : ScrapedEvent.t) :
  JSDate.parse (ScrapedEvent.dueDate d) <> InvalidDate ->
  existingEventMapOf (Dexie.toArray t) !! keyOfScraped d = None
  /\ CalendarEvent.id
       (calendarEventOf amb i
          (JS.or_undefined
             (existingEventMapOf (Dexie.toArray t) !! keyOfScraped d)) d)
     = uniqueId amb i.
Proof.
  intros Hdate.
  assert (Hnone : existingEventMapOf (Dexie.toArray t) !! keyOfScraped d
                  = None).
  { destruct (existingEventMapOf (Dexie.toArray t) !! keyOfScraped d)
      as [id |] eqn:Hm; [| reflexivity].
    apply existingEventMap_sound in Hm.
    destruct Hm as (k & e & _ & Hkey & _).
    symmetry in Hkey. now apply scraped_key_never_stored in Hkey. }
  split; [assumption |]. rewrite Hnone. reflexivity.
Qed.

End Keys.

(** ** Rows are stored under their own id *)

Section Keyed.
Import SyncService.

Lemma keyed_empty : SyncLoop.keyed AppDatabase.empty.
Proof. unfold SyncLoop.keyed. apply map_Forall_empty. Qed.

Lemma keyed_events (db db' : AppDatabase.t) :
  AppDatabase.events db' = AppDatabase.events db ->
  SyncLoop.keyed db -> SyncLoop.keyed db'.
Proof. unfold SyncLoop.keyed. now intros ->. Qed.

Lemma bulkPut_keyed (rows : list CalendarEvent.t)
    (t : gmap string CalendarEvent.t) :
  map_Forall (fun k e => CalendarEvent.id e = k) t ->
  map_Forall (fun k e => CalendarEvent.id e = k)
             (Dexie.bulkPut CalendarEvent.id rows t).
Proof.
  unfold Dexie.bulkPut. revert t.
  induction rows as [| r rest IH]; intros t Ht; [assumption |].
  simpl. apply IH. now apply map_Forall_insert_2.
Qed.

Lemma bulkDelete_keyed (keys : list string)
    (t : gmap string CalendarEvent.t) :
  map_Forall (fun k e => CalendarEvent.id e = k) t ->
  map_Forall (fun k e => CalendarEvent.id e = k) (Dexie.bulkDelete keys t).
Proof.
  unfold Dexie.bulkDelete. revert t.
  induction keys as [| k rest IH]; intros t Ht; [assumption |].
  simpl. apply IH. now apply map_Forall_delete.
Qed.

(** A file import keeps the table keyed. *)
Lemma processFiles_keyed (outer : Ambient) (inner : nat -> Ambient)
    (files : list ImportComponent.File) (db : AppDatabase.t) :
  SyncLoop.keyed db ->
  SyncLoop.keyed (dbOf (ImportComponent.processFiles outer inner files db)).
Proof.
  intros Hk. unfold SyncLoop.keyed in *.
  destruct (processFiles_events outer inner files db) as [-> | ->];
    [assumption | now apply bulkPut_keyed].
Qed.

(** Marking an event completed keeps the table keyed. *)
Lemma markEventCompleted_keyed (id : string) (db : AppDatabase.t) :
  SyncLoop.keyed db ->
  SyncLoop.keyed (dbOf (EventManagerService.markEventCompleted id db)).
Proof.
  unfold SyncLoop.keyed. intros Hk k e. simpl. unfold Dexie.update.
  rewrite lookup_alter. destruct (decide (id = k)) as [-> | _]; [| apply Hk].
  destruct (AppDatabase.events db !! k) as [e0 |] eqn:He; [| discriminate].
  intros [= <-]. exact (Hk k e0 He).
Qed.

Lemma processEvent_keyed (amb : Ambient) (m : gmap string string) (i : nat)
    (d : ScrapedEvent.t) (seen : gset string) (db : AppDatabase.t) :
  SyncLoop.keyed db ->
  SyncLoop.keyed (dbOf (processEvent amb m i d seen db)).
Proof.
  intros Hk. pose proof (processEvent_cases amb m i d seen db) as Hcases.
  cbv zeta in Hcases.
  destruct (JS.or_undefined (m !! keyOfScraped d)) as [j |] eqn:Hj.
  - rewrite Hcases. apply or_undefined_Some in Hj. destruct Hj as [_ Hj].
    unfold SyncLoop.keyed in *. intros k e.
    cbn [dbOf AppDatabase.events AppDatabase.withEvents].
    rewrite lookup_alter. destruct (decide (j = k)) as [-> | _]; [| apply Hk].
    destruct (AppDatabase.events db !! k); [| discriminate].
    intros [= <-]. now apply calendarEventOf_id_existing.
  - destruct (AppDatabase.events db !! uniqueId amb i);
      rewrite Hcases; [assumption |].
    unfold SyncLoop.keyed in *.
    cbn [dbOf AppDatabase.events AppDatabase.withEvents].
    now apply map_Forall_insert_2.
Qed.

(** The course loop, the event loop and the deletion, one after the
    other. *)
Lemma processScrapedData_steps (ambCourses ambEvents : Ambient)
    (courses : list ScrapedCourse.t) (events : list ScrapedEvent.t)
    (db : AppDatabase.t) :
  processScrapedData ambCourses ambEvents courses events db
  = match forEachFrom
            (processCourse ambCourses
               (map Course.id (Dexie.toArray (AppDatabase.courses db))))
            0 courses tt db with
    | Rejected err dbc => Rejected err dbc
    | Fulfilled _ dbc =>
        let m := existingEventMapOf (Dexie.toArray (AppDatabase.events dbc)) in
        match forEachFrom (processEvent ambEvents m) 0 events ∅ dbc with
        | Rejected err dbe => Rejected err dbe
        | Fulfilled seen dbe =>
            Fulfilled tt
              (if (0 <? length (eventIdsToDeleteOf m seen))%nat
               then AppDatabase.withEvents
                      (Dexie.bulkDelete (eventIdsToDeleteOf m seen)
                         (AppDatabase.events dbe)) dbe
               else dbe)
        end
    end.
Proof.
  unfold processScrapedData, await, StorageService.getAllCourses,
    StorageService.getAllEvents.
  destruct (forEachFrom _ 0 courses tt db) as [u dbc | err dbc];
    [| reflexivity].
  cbv zeta.
  match goal with
  | |- context [forEachFrom ?body 0 events ?s dbc] =>
      destruct (forEachFrom body 0 events s dbc) as [seen dbe | err dbe]
  end; [| reflexivity].
  destruct (0 <? length (eventIdsToDeleteOf _ seen))%nat; reflexivity.
Qed.

(** A scrape sync keeps the table keyed, however it ends. *)
Lemma processScrapedData_keyed (ambCourses ambEvents : Ambient)
    (courses : list ScrapedCourse.t) (events : list ScrapedEvent.t)
    (db : AppDatabase.t) :
  SyncLoop.keyed db ->
  SyncLoop.keyed
    (dbOf (processScrapedData ambCourses ambEvents courses events db)).
Proof.
  intros Hk. rewrite processScrapedData_steps.
  pose proof (processCourses_events ambCourses
                (map Course.id (Dexie.toArray (AppDatabase.courses db)))
                0 courses db) as Hc.
  destruct (forEachFrom _ 0 courses tt db) as [u dbc | err dbc];
    simpl in Hc; [| exact (keyed_events _ _ Hc Hk)].
  cbv zeta.
  pose proof (forEachFrom_invariant
                (processEvent ambEvents
                   (existingEventMapOf
                      (Dexie.toArray (AppDatabase.events dbc))))
                (fun _ _ d => SyncLoop.keyed d) SyncLoop.keyed) as Hloop.
  specialize (Hloop
    (fun i x pre s d H =>
       match processEvent ambEvents _ i x s d as r
             return SyncLoop.keyed (dbOf r) ->
                    match r with
                    | Fulfilled _ db' => SyncLoop.keyed db'
                    | Rejected _ db' => SyncLoop.keyed db'
                    end
       with
       | Fulfilled _ _ => fun K => K
       | Rejected _ _ => fun K => K
       end (processEvent_keyed ambEvents _ i x s d H))
    events 0 [] ∅ dbc (keyed_events _ _ Hc Hk)).
  match goal with
  | |- context [forEachFrom ?body 0 events ?s dbc] =>
      destruct (forEachFrom body 0 events s dbc) as [seen dbe | err dbe]
  end; [| assumption].
  cbn [dbOf]. destruct (0 <? length _)%nat; [| assumption].
  unfold SyncLoop.keyed in *. now apply bulkDelete_keyed.
Qed.

End Keyed.

(** ** The rows that a sync writes *)

Section SyncWrites.
Import SyncService.

Lemma forEachFrom_indexed {A St : Type} (body : nat -> A -> St -> Async St)
    (Broken : AppDatabase.t -> Prop) (items : list A) :
  forall (i0 : nat) (Inv : nat -> St -> AppDatabase.t -> Prop),
    (forall n x s db,
        items !! n = Some x ->
        Inv n s db ->
        match body (i0 + n) x s db with
        | Fulfilled s' db' => Inv (S n) s' db'
        | Rejected _ db' => Broken db'
        end) ->
    forall s db,
      Inv 0 s db ->
      match forEachFrom body i0 items s db with
      | Fulfilled s' db' => Inv (length items) s' db'
      | Rejected _ db' => Broken db'
      end.
Proof.
  induction items as [| x rest IH]; intros i0 Inv Hstep s db Hinv.
  - exact Hinv.
  - cbn [forEachFrom]. unfold await.
    pose proof (Hstep 0 x s db eq_refl Hinv) as H0.
    rewrite Nat.add_0_r in H0.
    destruct (body i0 x s db) as [s1 db1 | err db1]; [| exact H0].
    apply (IH (S i0) (fun n => Inv (S n))); [| exact H0].
    intros n y s' d Hy Hn.
    specialize (Hstep (S n) y s' d Hy Hn).
    now rewrite Nat.add_succ_r in Hstep.
Qed.

(** A row of the events table after a sync, however the sync ended, is the
    row that was stored before, or the row that the loop built for one of
    the scraped events. *)
Lemma sync_written_rows (ambCourses ambEvents : Ambient)
    (courses : list ScrapedCourse.t) (events : list ScrapedEvent.t)
    (db : AppDatabase.t) (k : string) (e' : CalendarEvent.t) :
  AppDatabase.events
    (dbOf (processScrapedData ambCourses ambEvents courses events db)) !! k
  = Some e' ->
  AppDatabase.events db !! k = Some e'
  \/ exists i d,
       events !! i = Some d
       /\ e' = calendarEventOf ambEvents i
                 (JS.or_undefined
                    (existingEventMapOf
                       (Dexie.toArray (AppDatabase.events db))
                     !! keyOfScraped d)) d.
Proof.
  rewrite processScrapedData_steps.
  pose proof (processCourses_events ambCourses
                (map Course.id (Dexie.toArray (AppDatabase.courses db)))
                0 courses db) as Hc.
  destruct (forEachFrom (processCourse _ _) 0 courses tt db)
    as [u dbc | errc dbc]; cbn [dbOf] in Hc.
  2: { cbn [dbOf]. rewrite Hc. now left. }
  cbv zeta. rewrite Hc.
  set (t0 := AppDatabase.events db).
  set (m := existingEventMapOf (Dexie.toArray t0)).
  set (written := fun (dbe : AppDatabase.t) =>
         forall k e',
           AppDatabase.events dbe !! k = Some e' ->
           t0 !! k = Some e'
           \/ exists i d,
                events !! i = Some d
                /\ e' = calendarEventOf ambEvents i
                          (JS.or_undefined (m !! keyOfScraped d)) d).
  pose proof (forEachFrom_indexed (processEvent ambEvents m) written events 0
                (fun _ (_ : gset string) dbe => written dbe)) as Hloop.
  cbv beta in Hloop.
  assert (Hstep : forall n x (s : gset string) dbe,
             events !! n = Some x ->
             written dbe ->
             match processEvent ambEvents m (0 + n) x s dbe with
             | Fulfilled _ dbe' => written dbe'
             | Rejected _ dbe' => written dbe'
             end).
  { intros n x s dbe Hx Hw. cbn [Nat.add].
    pose proof (processEvent_cases ambEvents m n x s dbe) as Hcases.
    cbv zeta in Hcases.
    destruct (JS.or_undefined (m !! keyOfScraped x)) as [j |] eqn:Hj.
    - rewrite Hcases. intros k0 e0.
      cbn [AppDatabase.events AppDatabase.withEvents].
      rewrite lookup_alter.
      destruct (decide (j = k0)) as [-> | _]; [| apply Hw].
      destruct (AppDatabase.events dbe !! k0); [| discriminate].
      intros [= <-]. right. exists n, x. rewrite Hj. auto.
    - destruct (AppDatabase.events dbe !! uniqueId ambEvents n);
        rewrite Hcases; [exact Hw |].
      intros k0 e0. cbn [AppDatabase.events AppDatabase.withEvents].
      rewrite lookup_insert.
      destruct (decide (uniqueId ambEvents n = k0)) as [_ | _];
        [| apply Hw].
      intros [= <-]. right. exists n, x. rewrite Hj. auto. }
  specialize (Hloop Hstep ∅ dbc).
  assert (Hinit : written dbc).
  { intros k0 e0 H. left. unfold t0. now rewrite <- Hc. }
  specialize (Hloop Hinit).
  destruct (forEachFrom (processEvent ambEvents m) 0 events ∅ dbc)
    as [seen dbe | erre dbe]; cbn [dbOf]; [| apply Hloop].
  destruct (0 <? length (eventIdsToDeleteOf m seen))%nat; [| apply Hloop].
  cbn [AppDatabase.events AppDatabase.withEvents].
  rewrite bulkDelete_lookup. destruct (decide _); [discriminate | apply Hloop].
Qed.

End SyncWrites.

(** ** The rows that a file import writes *)

Section ImportWrites.
Import ImportComponent.

Lemma parseFiles_at (outer : Ambient) (inner : nat -> Ambient) (j : nat)
    (files : list File) (p : Parsed) :
  In p (parseFiles outer inner j files) ->
  exists k file,
    files !! k = Some file
    /\ p = parseFile outer (inner (j + k)) (j + k) file.
Proof.
  revert j. induction files as [| f rest IH]; intros j; simpl; [tauto |].
  intros [<- | H].
  - exists 0, f. rewrite Nat.add_0_r. auto.
  - destruct (IH _ H) as (k & file & Hk & ->). exists (S k), file.
    rewrite Nat.add_succ_r. auto.
Qed.

(** An event that an import writes was converted from an entry of a
    selected file, at the clock reading of the turn that converted it, and
    carries the id and the colour generated for that file. *)
Lemma imported_event_at (outer : Ambient) (inner : nat -> Ambient)
    (files : list File) (ev : CalendarEvent.t) :
  In ev (gather outer 0 (parseFiles outer inner 0 files)).1.2 ->
  exists k file i entry,
    files !! k = Some file
    /\ ev = IcsParserService.transformToCalendarEvent
              (now (inner k) i) (uniqueId (inner k) i) entry
              (uniqueId outer k) (CalendarEvent.courseName ev)
              (randomColor outer k).
Proof.
  intros H. apply gather_events in H.
  destruct H as (file & cid & cn & cc & evs & Hp & Hev).
  apply parseFiles_at in Hp. destruct Hp as (k & f & Hk & Hp).
  symmetry in Hp. cbn [Nat.add] in Hp. apply parseFile_events in Hp.
  destruct Hp as (calname & vevents & _ & _ & -> & _ & -> & -> & _).
  apply convert_events_from in Hev. destruct Hev as (i & entry & _ & ->).
  exists k, f, i, entry. cbn [Nat.add]. split; [exact Hk | reflexivity].
Qed.

(** A row of the array is read back under its key after [bulkPut], as it
    is or as a later row of the array with that key. *)
Lemma bulkPut_written {Row : Type} (keyOf : Row -> string)
    (rows : list Row) (t : gmap string Row) (r0 : Row) :
  In r0 rows ->
  exists r, In r rows /\ keyOf r = keyOf r0
            /\ Dexie.bulkPut keyOf rows t !! keyOf r0 = Some r.
Proof.
  revert t. induction rows as [| a rest IH]; intros t; [intros [] |].
  intros [-> | Hin].
  - change (Dexie.bulkPut keyOf (r0 :: rest) t)
      with (Dexie.bulkPut keyOf rest (<[keyOf r0 := r0]> t)).
    destruct (bulkPut_lookup_cases keyOf rest (<[keyOf r0 := r0]> t)
                (keyOf r0)) as [Hsame | (r & Hr & Hk & Hput)].
    + exists r0. rewrite Hsame, lookup_insert_eq. simpl. auto.
    + exists r. simpl. auto.
  - change (Dexie.bulkPut keyOf (a :: rest) t)
      with (Dexie.bulkPut keyOf rest (<[keyOf a := a]> t)).
    destruct (IH (<[keyOf a := a]> t) Hin) as (r & Hr & Hk & Hput).
    exists r. simpl. auto.
Qed.

(** The courses table after one file was imported. *)
Lemma import_one_courses (outer : Ambient) (inner : nat -> Ambient)
    (file : File) (db : AppDatabase.t) :
  AppDatabase.courses (dbOf (processFiles outer inner [file] db))
  = match parseFile outer (inner 0) 0 file with
    | ParseSucceeded f courseId courseName courseColor evs =>
        match AppDatabase.courses db !! courseId with
        | None =>
            <[courseId :=
                {| Course.id := courseId;
                   Course.name := courseName;
                   Course.color := courseColor;
                   Course.isActive := true;
                   Course.importedDate := Instant (now outer 0);
                   Course.eventCount := length evs;
                   Course.icsFileName := name f |}]>
              (AppDatabase.courses db)
        | Some _ => AppDatabase.courses db
        end
    | ParseFailed _ _ => AppDatabase.courses db
    end.
Proof.
  rewrite processFiles_db. cbn [parseFiles gather].
  destruct (parseFile outer (inner 0) 0 file)
    as [f cid cn cc evs | f err]; [| reflexivity].
  cbn [fst snd]. unfold save. cbn [length Nat.ltb Nat.leb forEachFrom].
  unfold await, EventManagerService.addCourse, StorageService.addCourse,
    await, Dexie.add. cbn [Course.id].
  destruct (AppDatabase.courses db !! cid); reflexivity.
Qed.

End ImportWrites.

(** ** What a sync keeps and what it deletes *)

Section StaleRemoval.
Import SyncService.

Variables ambCourses ambEvents : Ambient.
Variable courses : list ScrapedCourse.t.
Variable events : list ScrapedEvent.t.
Variable db : AppDatabase.t.

Lemma registered_is_stored (key id : string) (e : CalendarEvent.t) :
  SyncLoop.keyed db ->
  AppDatabase.events db !! id = Some e ->
  existingEventMapOf (Dexie.toArray (AppDatabase.events db)) !! key
  = Some id ->
  key = keyOfStored e.
Proof.
  intros Hkeyed He Hreg. apply existingEventMap_sound in Hreg.
  destruct Hreg as (k & e' & Hk & Hkey & Hid).
  pose proof (Hkeyed k e' Hk) as Hk'. simpl in Hk'.
  assert (k = id) by congruence. subst k.
  assert (e' = e) by congruence. now subst e'.
Qed.

(** C3 (as amended). Stale-removal during a scrape sync is not scoped by
    course.  Whatever course a stored event belongs to, and whether or not
    that course was fetched: if a scraped event of the batch has the key
    that [generateEventKey] gives for the stored event, the event stays
    stored under its id; if no scraped event of the batch has that key, and
    the stored event is the one registered for its key, a sync that
    completes deletes it. *)
Theorem stale_removal_is_global (id : string) (e : CalendarEvent.t) :
  SyncLoop.keyed db ->
  AppDatabase.events db !! id = Some e ->
  id <> "" ->
  let result :=
    processScrapedData ambCourses ambEvents courses events db in
  ((exists d, In d events /\ keyOfScraped d = keyOfStored e) ->
   is_Some (AppDatabase.events (dbOf result) !! id))
  /\ ((forall d, In d events -> keyOfScraped d <> keyOfStored e) ->
      existingEventMapOf (Dexie.toArray (AppDatabase.events db))
        !! keyOfStored e = Some id ->
      (exists db', result = Fulfilled tt db') ->
      AppDatabase.events (dbOf result) !! id = None).
Proof.
  intros Hkeyed He Hid. cbv zeta.
  pose proof (processScrapedData_outcome ambCourses ambEvents courses events
                db) as Hout.
  cbv zeta in Hout.
  destruct (processScrapedData ambCourses ambEvents courses events db)
    as [u db' | err db']; cbn [dbOf].
  - destruct Hout as (seen & dbe & ((Hkeep & _) & Hseen & Hold) & Hlook).
    rewrite Hlook. split.
    + intros (d & Hd & Hkey).
      rewrite decide_False; [apply Hkeep; eauto |].
      rewrite eventIdsToDelete_elem. intros ((key & Hreg) & Hnot).
      apply Hnot, (Hseen d id Hd). apply or_undefined_Some.
      split; [| assumption].
      rewrite Hkey, <- (registered_is_stored key id e); assumption.
    + intros Hnone Hreg _. rewrite decide_True; [reflexivity |].
      rewrite eventIdsToDelete_elem. split; [eauto |].
      intros Hin. destruct (Hold id Hin) as (d & Hd & Hj); [eauto |].
      apply or_undefined_Some in Hj. destruct Hj as [Hj _].
      apply (Hnone d Hd). now apply (registered_is_stored _ id e).
  - destruct Hout as [Hkeep _]. split.
    + intros _. apply Hkeep. eauto.
    + intros _ _ (db'' & [=]).
Qed.

(** After a sync, every stored event is a row the table had before or
    carries a status derived from its end date. *)
Lemma sync_rows (k : string) (e : CalendarEvent.t) :
  AppDatabase.events
    (dbOf (processScrapedData ambCourses ambEvents courses events db)) !! k
  = Some e ->
  AppDatabase.events db !! k = Some e \/ SyncLoop.derivedStatus e.
Proof.
  pose proof (processScrapedData_outcome ambCourses ambEvents courses events
                db) as Hout.
  cbv zeta in Hout.
  destruct (processScrapedData ambCourses ambEvents courses events db)
    as [u db' | err db']; cbn [dbOf].
  - destruct Hout as (seen & dbe & ((_ & Hrows) & _) & Hlook).
    rewrite Hlook. destruct (decide _); [discriminate | apply Hrows].
  - destruct Hout as [_ Hrows]. apply Hrows.
Qed.

End StaleRemoval.

Section Reconciliation.

(** C3, the theorem at the essay stored by a file import when Math is
    synced: the essay is registered for its key, no scraped event has that
    key, and the sync deletes it. *)
Lemma stale_removal_is_global_witness :
  SyncLoop.keyed (afterFirstImport englishFile)
  /\ is_Some (AppDatabase.events (afterFirstImport englishFile) !! "uid-1")
  /\ AppDatabase.events importedAndSynced !! "uid-1" = None.
Proof.
  assert (Hkeyed : SyncLoop.keyed (afterFirstImport englishFile)).
  { unfold SyncLoop.keyed. refine (bool_decide_unpack _ _).
    vm_compute. exact I. }
  split; [exact Hkeyed |]. split; [vm_compute; eauto |].
  refine (proj2 (stale_removal_is_global firstSync firstSync
                   (SchoologyScraper.scrapeAllData [mathFetched]).1
                   (SchoologyScraper.scrapeAllData [mathFetched]).2
                   (afterFirstImport englishFile) "uid-1" _ Hkeyed eq_refl _)
                _ _ _).
  - discriminate.
  - intros d [<- | []]. vm_compute. discriminate.
  - vm_compute. reflexivity.
  - eexists. vm_compute. reflexivity.
Defined.

(** The first half of the theorem at a scraped event whose [dueDate] is
    the text [undefined] (no page of the site gives one): it has the key of
    the stored homework, which keeps its id. *)
Lemma matched_event_is_kept :
  SyncService.keyOfScraped undatedHomework = "101-HW 1-undefined"
  /\ (CalendarEvent.id <$>
        Dexie.toArray
          (AppDatabase.events
             (dbOf (SyncService.processScrapedData secondSync secondSync []
                      [undatedHomework] importedAndSynced))))
     = ["event-sync1-0"].
Proof. split; vm_compute; reflexivity. Qed.

(** C3, counterexample. The essay of the file-imported course is stored
    before Math is synced and gone afterwards, although its course is not
    in the batch; and the homework of Math is stored before a sync in
    which the page of Math cannot be fetched, and gone afterwards. *)
Lemma sync_deletes_other_courses :
  (CalendarEvent.courseId <$>
     AppDatabase.events (afterFirstImport englishFile) !! "uid-1")
  = Some "run1-0"
  /\ ScrapedCourse.id <$> (SchoologyScraper.scrapeAllData [mathFetched]).1
     = ["101"]
  /\ AppDatabase.events importedAndSynced !! "uid-1" = None
  /\ (CalendarEvent.courseId <$>
        AppDatabase.events importedAndSynced !! "event-sync1-0")
     = Some "101"
  /\ (SchoologyScraper.scrapeAllData [mathFailed]).2 = []
  /\ AppDatabase.events afterFailedFetch !! "event-sync1-0" = None.
Proof. vm_compute. auto 10. Qed.

(** C9, at the failing input. The essay file imported twice: the course
    made by the first import still says one event, and no stored event
    belongs to it.  (On the sync side, the course Biology says two events
    after its second sync and three are stored for it.) *)
Lemma stale_eventCount_after_reimport :
  (Course.eventCount <$>
     AppDatabase.courses (afterReimport englishFile) !! "run1-0") = Some 1
  /\ EventManagerService.getEventCountByCourse "run1-0"
       (afterReimport englishFile) = 0
  /\ (CalendarEvent.courseId <$>
        Dexie.toArray (AppDatabase.events (afterReimport englishFile)))
     = ["run2-0"]
  /\ (Course.eventCount <$>
        AppDatabase.courses quizzesSyncedAgain !! "202") = Some 2
  /\ EventManagerService.getEventCountByCourse "202" quizzesSyncedAgain = 3.
Proof. vm_compute. auto 10. Qed.

(** C2, at the failing input. Math is synced into an empty database and
    the same batch is synced again: the homework is stored under a new id
    and the id it had is gone, because the key of the stored row ends in
    [undefined] where the key of the scraped event ends in its due date.
    For Biology, whose two quizzes have one title, the second sync of the
    same batch leaves three events where the first left two. *)
Lemma resync_changes_ids :
  (CalendarEvent.id <$> Dexie.toArray (AppDatabase.events afterFirstSync))
  = ["event-sync1-0"]
  /\ (CalendarEvent.id <$>
        Dexie.toArray (AppDatabase.events afterSecondSync))
     = ["event-sync2-0"]
  /\ (SyncService.keyOfStored <$>
        Dexie.toArray (AppDatabase.events afterFirstSync))
     = ["101-HW 1-undefined"]
  /\ (SyncService.keyOfScraped <$>
        (SchoologyScraper.scrapeAllData [mathFetched]).2)
     = ["101-HW 1-2024-03-12T00:00:00.000Z"]
  /\ size (AppDatabase.events quizzesSynced) = 2
  /\ size (AppDatabase.events quizzesSyncedAgain) = 3.
Proof. vm_compute. auto 10. Qed.

End Reconciliation.

(** * Further properties of the code *)

(** ** StorageService: counting, cascade, backup *)

Section StorageProperties.

Lemma filter_length_Permutation {A : Type} (p : A -> bool) (l1 l2 : list A) :
  l1 ≡ₚ l2 -> length (List.filter p l1) = length (List.filter p l2).
Proof.
  induction 1 as [| x l l' _ IH | x y l | l l' l'' _ IH1 _ IH2]; simpl.
  - reflexivity.
  - destruct (p x); simpl; now rewrite IH.
  - destruct (p x), (p y); reflexivity.
  - now rewrite IH1.
Qed.

Lemma toArray_empty {Row : Type} : Dexie.toArray (∅ : gmap string Row) = [].
Proof.
  apply length_zero_iff_nil. now rewrite toArray_length, map_size_empty.
Qed.

Lemma toArray_insert {Row : Type} (t : gmap string Row) (k : string)
    (r : Row) :
  t !! k = None -> Dexie.toArray (<[k := r]> t) ≡ₚ r :: Dexie.toArray t.
Proof.
  intros Hk. unfold Dexie.toArray.
  rewrite !merge_sort_Permutation, (map_to_list_insert _ _ _ Hk).
  reflexivity.
Qed.

(** The rows a query matches and the rows its deletion leaves make up the
    table. *)
Lemma whereDelete_size {Row : Type} (p : Row -> bool) (t : gmap string Row) :
  length (Dexie.whereToArray p t) + size (Dexie.whereDelete p t) = size t.
Proof.
  unfold Dexie.whereToArray, Dexie.whereDelete.
  induction t as [| k r t Hk IH] using map_ind.
  - now rewrite toArray_empty, map_filter_empty, map_size_empty.
  - rewrite (filter_length_Permutation p _ _ (toArray_insert t k r Hk)).
    rewrite map_size_insert_None by assumption. simpl.
    destruct (p r) eqn:Hp.
    + rewrite map_filter_insert_not'.
      * simpl. lia.
      * simpl. congruence.
      * intros y Hy. congruence.
    + rewrite map_filter_insert_True by exact Hp.
      rewrite map_size_insert_None.
      * lia.
      * apply map_lookup_filter_None. now left.
Qed.

Lemma filter_none {A : Type} (p : A -> bool) (l : list A) :
  (forall x, In x l -> p x = false) -> List.filter p l = [].
Proof.
  induction l as [| x l IH]; intros Hno; [reflexivity |].
  simpl. rewrite (Hno x) by (now left). apply IH. intros y Hy.
  apply Hno. now right.
Qed.

Lemma whereToArray_none {Row : Type} (p : Row -> bool)
    (t : gmap string Row) :
  (forall k r, t !! k = Some r -> p r = false) ->
  Dexie.whereToArray p t = [].
Proof.
  intros Hno. apply filter_none. intros r Hr.
  apply list_elem_of_In, toArray_elem in Hr. destruct Hr as (k & Hk).
  eauto.
Qed.

Lemma bulkPut_toArray {Row : Type} (keyOf : Row -> string)
    (t : gmap string Row) :
  map_Forall (fun k r => keyOf r = k) t ->
  Dexie.bulkPut keyOf (Dexie.toArray t) ∅ = t.
Proof.
  intros Hkeyed. apply map_eq. intros k.
  destruct (bulkPut_lookup_cases keyOf (Dexie.toArray t) ∅ k)
    as [Hempty | (r & Hin & Hk & Hput)].
  - rewrite Hempty, lookup_empty. symmetry.
    destruct (t !! k) as [r |] eqn:Ht; [| reflexivity].
    assert (Hdom : k ∈ dom (Dexie.bulkPut keyOf (Dexie.toArray t) ∅)).
    { rewrite bulkPut_dom. apply elem_of_union_r, elem_of_list_to_set.
      apply list_elem_of_fmap. exists r. split.
      - symmetry. exact (Hkeyed k r Ht).
      - apply toArray_elem. eauto. }
    apply elem_of_dom in Hdom. rewrite Hempty, lookup_empty in Hdom.
    now destruct Hdom.
  - rewrite Hput. apply list_elem_of_In, toArray_elem in Hin.
    destruct Hin as (k' & Hk'). pose proof (Hkeyed k' r Hk') as Hid.
    simpl in Hid. congruence.
Qed.

(** X1. Deleting a course with [deleteEvents = true] cascades: the course
    is gone, every other course is as it was, the events that remain are
    exactly the stored events of other courses, and the number of events
    drops by the number of events the course had.  With
    [deleteEvents = false] the events table is left as it is. *)
Theorem deleteCourse_cascade (id : string) (db : AppDatabase.t) :
  let db' := dbOf (StorageService.deleteCourse id true db) in
  AppDatabase.courses db' !! id = None
  /\ (forall k, k <> id ->
        AppDatabase.courses db' !! k = AppDatabase.courses db !! k)
  /\ (forall k e,
        AppDatabase.events db' !! k = Some e
        <-> AppDatabase.events db !! k = Some e
            /\ CalendarEvent.courseId e <> id)
  /\ EventManagerService.getEventCountByCourse id db' = 0
  /\ EventManagerService.getEventCountByCourse id db
     + size (AppDatabase.events db') = size (AppDatabase.events db)
  /\ AppDatabase.events (dbOf (StorageService.deleteCourse id false db))
     = AppDatabase.events db.
Proof.
  cbv zeta.
  unfold StorageService.deleteCourse, StorageService.deleteEventsByCourse,
    await, resolve.
  cbn [dbOf AppDatabase.events AppDatabase.courses AppDatabase.withEvents
       AppDatabase.withCourses].
  assert (Hrows : forall k e,
             Dexie.whereDelete
               (fun e0 => String.eqb (CalendarEvent.courseId e0) id)
               (AppDatabase.events db) !! k = Some e
             <-> AppDatabase.events db !! k = Some e
                 /\ CalendarEvent.courseId e <> id).
  { intros k e. unfold Dexie.whereDelete.
    rewrite map_lookup_filter_Some. simpl. now rewrite String.eqb_neq. }
  split; [apply lookup_delete_eq |].
  split; [intros k Hk; now apply lookup_delete_ne |].
  split; [exact Hrows |].
  split.
  - unfold EventManagerService.getEventCountByCourse.
    cbn [AppDatabase.events].
    change (length (Dexie.whereToArray
                      (fun e => String.eqb (CalendarEvent.courseId e) id)
                      (Dexie.whereDelete
                         (fun e0 => String.eqb (CalendarEvent.courseId e0) id)
                         (AppDatabase.events db))) = 0).
    rewrite whereToArray_none; [reflexivity |].
    intros k e He. apply Hrows in He. now apply String.eqb_neq.
  - split; [| reflexivity].
    apply (whereDelete_size
             (fun e => String.eqb (CalendarEvent.courseId e) id)).
Qed.

(** X2. [importData] replaces the whole database: afterwards a row is
    stored only if it is one of the given rows, stored under its id, and
    every given row's id is stored; nothing that was stored before counts.
    The same holds of the courses. *)
Theorem importData_replaces (data : list CalendarEvent.t * list Course.t)
    (db : AppDatabase.t) :
  let db' := dbOf (StorageService.importData data db) in
  (forall k e,
      AppDatabase.events db' !! k = Some e ->
      In e data.1 /\ CalendarEvent.id e = k)
  /\ (forall e, In e data.1 ->
        is_Some (AppDatabase.events db' !! CalendarEvent.id e))
  /\ (forall k c,
        AppDatabase.courses db' !! k = Some c ->
        In c data.2 /\ Course.id c = k)
  /\ (forall c, In c data.2 ->
        is_Some (AppDatabase.courses db' !! Course.id c))
  /\ AppDatabase.keyed db'.
Proof.
  cbv zeta. cbn [dbOf StorageService.importData AppDatabase.events
                 AppDatabase.courses].
  assert (Hrows : forall (Row : Type) (keyOf : Row -> string)
                    (rows : list Row),
             (forall k r, Dexie.bulkPut keyOf rows ∅ !! k = Some r ->
                          In r rows /\ keyOf r = k)
             /\ (forall r, In r rows ->
                  is_Some (Dexie.bulkPut keyOf rows ∅ !! keyOf r))).
  { intros Row keyOf rows. split.
    - intros k r H.
      destruct (bulkPut_lookup_cases keyOf rows ∅ k)
        as [Hempty | (r' & Hin & Hk & Hput)].
      + rewrite Hempty, lookup_empty in H. discriminate.
      + assert (r' = r) by congruence. subst r'. auto.
    - intros r Hin. apply elem_of_dom. rewrite bulkPut_dom.
      apply elem_of_union_r, elem_of_list_to_set, list_elem_of_fmap.
      exists r. split; [reflexivity | now apply list_elem_of_In]. }
  destruct (Hrows _ CalendarEvent.id data.1) as [He1 He2].
  destruct (Hrows _ Course.id data.2) as [Hc1 Hc2].
  split; [exact He1 |]. split; [exact He2 |].
  split; [exact Hc1 |]. split; [exact Hc2 |].
  split.
  - intros k e H. exact (proj2 (He1 k e H)).
  - intros k c H. exact (proj2 (Hc1 k c H)).
Qed.

(** X3. A backup restores what it was taken from: [importData] of what
    [exportData] returns leaves a database (whose rows are stored under
    their ids) exactly as it was. *)
Theorem export_import_roundtrip (db : AppDatabase.t) :
  AppDatabase.keyed db ->
  dbOf ((data <- StorageService.exportData ;; StorageService.importData data)
          db) = db.
Proof.
  intros [Hev Hco]. destruct db as [evs cs]. simpl in *.
  unfold await, StorageService.exportData, StorageService.getAllEvents,
    StorageService.getAllCourses, await, resolve.
  cbn [dbOf StorageService.importData AppDatabase.events AppDatabase.courses
       fst snd].
  f_equal; now apply bulkPut_toArray.
Qed.

(** X3, at the database left by the two imports of the essay file. *)
Lemma export_import_roundtrip_witness :
  AppDatabase.keyed (afterSecondImport englishFile)
  /\ dbOf ((data <- StorageService.exportData ;;
            StorageService.importData data)
           (afterSecondImport englishFile))
     = afterSecondImport englishFile.
Proof.
  assert (Hkeyed : AppDatabase.keyed (afterSecondImport englishFile)).
  { split; refine (bool_decide_unpack _ _); vm_compute; exact I. }
  split; [exact Hkeyed |].
  exact (export_import_roundtrip (afterSecondImport englishFile) Hkeyed).
Defined.

(** X4. [toggleCourseActive] flips the [isActive] flag of the stored
    course and nothing else, does nothing when no course has the id, and
    applied twice leaves the database as it was. *)
Theorem toggleCourseActive_involution (id : string) (db : AppDatabase.t) :
  let db' := dbOf (StorageService.toggleCourseActive id db) in
  AppDatabase.events db' = AppDatabase.events db
  /\ AppDatabase.courses db' !! id
     = (fun c => Course.withIsActive (negb (Course.isActive c)) c)
         <$> AppDatabase.courses db !! id
  /\ (forall k, k <> id ->
        AppDatabase.courses db' !! k = AppDatabase.courses db !! k)
  /\ dbOf (StorageService.toggleCourseActive id db') = db.
Proof.
  cbv zeta.
  unfold StorageService.toggleCourseActive, StorageService.getCourse,
    await, Dexie.get.
  destruct db as [evs cs]. cbn [AppDatabase.courses AppDatabase.events].
  destruct (cs !! id) as [c |] eqn:Hc.
  - cbn [dbOf StorageService.updateCourse AppDatabase.withCourses
         AppDatabase.courses AppDatabase.events].
    unfold Dexie.update.
    split; [reflexivity |].
    split; [now rewrite lookup_alter_eq, Hc |].
    split; [intros k Hk; now apply lookup_alter_ne |].
    rewrite lookup_alter_eq, Hc.
    cbn [fmap option_fmap option_map dbOf StorageService.updateCourse
         AppDatabase.withCourses AppDatabase.courses AppDatabase.events].
    unfold Dexie.update, AppDatabase.withCourses.
    cbn [AppDatabase.events AppDatabase.courses].
    f_equal. apply map_eq. intros k.
    destruct (decide (k = id)) as [-> | Hk].
    + rewrite !lookup_alter_eq, Hc. simpl. f_equal. destruct c. simpl.
      now rewrite Bool.negb_involutive.
    + now rewrite !lookup_alter_ne by congruence.
  - cbn [dbOf resolve AppDatabase.courses AppDatabase.events].
    rewrite Hc. split; [reflexivity |]. split; [reflexivity |].
    split; reflexivity.
Qed.

(** X5. The three status queries divide the events table: each returns
    exactly the stored events of its status, and the sizes of the three
    answers add up to what [getEventCount()] returns. *)
Theorem getEventsByStatus_partition (db : AppDatabase.t) :
  exists up ov co : list CalendarEvent.t,
    StorageService.getEventsByStatus UPCOMING db = Fulfilled up db
    /\ StorageService.getEventsByStatus OVERDUE db = Fulfilled ov db
    /\ StorageService.getEventsByStatus COMPLETED db = Fulfilled co db
    /\ StorageService.getEventCount db
       = Fulfilled (length up + length ov + length co) db
    /\ (forall e, In e up
                  <-> (exists k, AppDatabase.events db !! k = Some e)
                      /\ CalendarEvent.status e = UPCOMING)
    /\ (forall e, In e ov
                  <-> (exists k, AppDatabase.events db !! k = Some e)
                      /\ CalendarEvent.status e = OVERDUE)
    /\ (forall e, In e co
                  <-> (exists k, AppDatabase.events db !! k = Some e)
                      /\ CalendarEvent.status e = COMPLETED).
Proof.
  assert (Hin : forall s e,
             In e (Dexie.whereToArray
                     (fun e => bool_decide (CalendarEvent.status e = s))
                     (AppDatabase.events db))
             <-> (exists k, AppDatabase.events db !! k = Some e)
                 /\ CalendarEvent.status e = s).
  { intros s e. unfold Dexie.whereToArray.
    rewrite filter_In, bool_decide_eq_true, <- list_elem_of_In, toArray_elem.
    reflexivity. }
  eexists _, _, _.
  split; [reflexivity |]. split; [reflexivity |]. split; [reflexivity |].
  split; [| split; [apply Hin | split; apply Hin]].
  unfold StorageService.getEventCount, Dexie.count. f_equal.
  rewrite <- toArray_length. unfold Dexie.whereToArray.
  induction (Dexie.toArray (AppDatabase.events db)) as [| e l IH];
    [reflexivity |].
  simpl. destruct (CalendarEvent.status e); simpl; lia.
Qed.

(** X6. [isEmpty()] answers [true] exactly when neither table holds a row,
    and it does so whenever it is asked after [clearAllData()]. *)
Theorem isEmpty_after_clearAllData (db : AppDatabase.t) :
  (exists b, StorageService.isEmpty db = Fulfilled b db
             /\ (b = true <-> db = AppDatabase.empty))
  /\ (_ <- StorageService.clearAllData ;; StorageService.isEmpty) db
     = Fulfilled true AppDatabase.empty.
Proof.
  split.
  - eexists. split; [reflexivity |].
    destruct db as [evs cs]. unfold Dexie.count, AppDatabase.empty.
    cbn [AppDatabase.events AppDatabase.courses].
    rewrite Bool.andb_true_iff, !Nat.eqb_eq, !map_size_empty_iff.
    split; [intros [-> ->]; reflexivity | intros H; now inversion H].
  - reflexivity.
Qed.

(** X27. Writing an event and reading it back.  [addEvent] is rejected
    when the id of the event is stored and then leaves the table as it is;
    otherwise the event is read back under its id by [getEvent], the other
    ids read as before and [getEventCount] has grown by one.  [addEvents]
    is never rejected: of the events of the array with a given id, the
    last is the one read back, stored before or not, and an id that no
    event of the array has reads as before.  After [deleteEvent] the id reads
    as absent. *)
Theorem events_round_trip (db : AppDatabase.t) :
  (forall event,
      match StorageService.addEvent event db with
      | Rejected err db' =>
          is_Some (AppDatabase.events db !! CalendarEvent.id event)
          /\ db' = db
      | Fulfilled key db' =>
          key = CalendarEvent.id event
          /\ AppDatabase.events db !! key = None
          /\ StorageService.getEvent key db' = Fulfilled (Some event) db'
          /\ (forall k, k <> key ->
                        StorageService.getEvent k db'
                        = Fulfilled (AppDatabase.events db !! k) db')
          /\ StorageService.getEventCount db'
             = Fulfilled (S (size (AppDatabase.events db))) db'
      end)
  /\ (forall evs,
        exists db',
          StorageService.addEvents evs db = Fulfilled tt db'
          /\ (forall earlier event later,
                evs = (earlier ++ event :: later)%list ->
                (forall e, In e later ->
                           CalendarEvent.id e <> CalendarEvent.id event) ->
                StorageService.getEvent (CalendarEvent.id event) db'
                = Fulfilled (Some event) db')
          /\ (forall k,
                (forall e, In e evs -> CalendarEvent.id e <> k) ->
                StorageService.getEvent k db'
                = Fulfilled (AppDatabase.events db !! k) db'))
  /\ (forall id,
        exists db',
          StorageService.deleteEvent id db = Fulfilled tt db'
          /\ StorageService.getEvent id db' = Fulfilled None db'
          /\ (forall k, k <> id ->
                        StorageService.getEvent k db'
                        = Fulfilled (AppDatabase.events db !! k) db')).
Proof.
  split; [| split].
  - intros event. unfold StorageService.addEvent, Dexie.add.
    destruct (AppDatabase.events db !! CalendarEvent.id event) as [old |]
      eqn:Hold; [split; [eauto | reflexivity] |].
    unfold StorageService.getEvent, StorageService.getEventCount, Dexie.get,
      Dexie.count.
    cbn [AppDatabase.events AppDatabase.withEvents].
    split; [reflexivity |]. split; [exact Hold |].
    split; [now rewrite lookup_insert_eq |].
    split; [intros k Hk; now rewrite lookup_insert_ne |].
    now rewrite map_size_insert_None.
  - intros evs. eexists. split; [reflexivity |].
    unfold StorageService.getEvent, Dexie.get.
    cbn [AppDatabase.events AppDatabase.withEvents]. split.
    + intros earlier event later -> Hlater. f_equal.
      unfold Dexie.bulkPut. rewrite foldl_app. cbn [foldl].
      fold (Dexie.bulkPut CalendarEvent.id earlier (AppDatabase.events db)).
      fold (Dexie.bulkPut CalendarEvent.id later
              (<[CalendarEvent.id event := event]>
                 (Dexie.bulkPut CalendarEvent.id earlier
                    (AppDatabase.events db)))).
      rewrite bulkPut_lookup_other by exact Hlater.
      apply lookup_insert_eq.
    + intros k Hk. f_equal. now apply bulkPut_lookup_other.
  - intros id. eexists. split; [reflexivity |].
    unfold StorageService.getEvent, Dexie.get.
    cbn [AppDatabase.events AppDatabase.withEvents].
    split; [now rewrite lookup_delete_eq |].
    intros k Hk. now rewrite lookup_delete_ne.
Qed.

End StorageProperties.

(** ** The report of a file import *)

Section ImportReport.
Import ImportComponent.

Lemma parseFile_file (outer inner : Ambient) (j : nat) (file : File) :
  fileOf (parseFile outer inner j file) = file.
Proof.
  unfold parseFile. destruct (read file) as [err | content]; [reflexivity |].
  destruct (IcsImportResult.success _); [| reflexivity].
  destruct (IcsImportResult.events _); reflexivity.
Qed.

Lemma parseFiles_files (outer : Ambient) (inner : nat -> Ambient) (j : nat)
    (files : list File) :
  map fileOf (parseFiles outer inner j files) = files.
Proof.
  revert j. induction files as [| f rest IH]; intros j; [reflexivity |].
  simpl. now rewrite parseFile_file, IH.
Qed.

Lemma parseFiles_succeeded (outer : Ambient) (inner : nat -> Ambient)
    (j : nat) (files : list File) :
  Forall (fun p => match p with
                   | ParseSucceeded _ _ _ _ evs => evs <> []
                   | ParseFailed _ _ => True
                   end) (parseFiles outer inner j files).
Proof.
  apply Forall_forall. intros p Hp.
  apply list_elem_of_In, parseFiles_in in Hp.
  destruct Hp as (k & file & _ & ->).
  destruct (parseFile outer (inner k) k file) as [f a b c evs | f e] eqn:Hp;
    [| exact I].
  apply parseFile_events in Hp.
  destruct Hp as (? & ? & _ & _ & _ & _ & _ & _ & Hne). exact Hne.
Qed.

Lemma totalEvents_from (rs : list ImportResult.t) (n : nat) :
  fold_left (fun sum r => sum + ImportResult.eventsCount r) rs n
  = n + totalEvents rs.
Proof.
  unfold totalEvents. revert n.
  induction rs as [| r rest IH]; intros n; simpl; [lia |].
  rewrite (IH (n + _)), (IH (ImportResult.eventsCount r)). lia.
Qed.

Lemma totalEvents_cons (r : ImportResult.t) (rs : list ImportResult.t) :
  totalEvents (r :: rs) = ImportResult.eventsCount r + totalEvents rs.
Proof. unfold totalEvents at 1. simpl. apply totalEvents_from. Qed.

(** What [gather] builds, against the parsed results. *)
Lemma gather_report (outer : Ambient) (j : nat) (parsed : list Parsed) :
  let '(allCourses, allEvents, importResults) := gather outer j parsed in
  map ImportResult.fileName importResults = map (fun p => name (fileOf p)) parsed
  /\ successCount importResults = length allCourses
  /\ totalEvents importResults = length allEvents
  /\ map Course.eventCount allCourses
     = map ImportResult.eventsCount
         (List.filter ImportResult.success importResults).
Proof.
  revert j. induction parsed as [| p rest IH]; intros j.
  - simpl. auto.
  - simpl. specialize (IH (S j)).
    destruct (gather outer (S j) rest) as [[cs es] rs].
    destruct IH as (Hn & Hs & Ht & Hc).
    destruct p as [file cid cn cc evs | file err].
    + rewrite totalEvents_cons. unfold successCount in *. simpl.
      rewrite length_app, Hn, Hs, Ht, Hc. auto.
    + rewrite totalEvents_cons. unfold successCount in *. simpl.
      rewrite Hn, Hs, Ht, Hc. auto.
Qed.

Lemma gather_entries (outer : Ambient) (j : nat) (parsed : list Parsed) :
  Forall (fun p => match p with
                   | ParseSucceeded _ _ _ _ evs => evs <> []
                   | ParseFailed _ _ => True
                   end) parsed ->
  Forall (fun r =>
            if ImportResult.success r
            then ImportResult.error r = None
                 /\ 0 < ImportResult.eventsCount r
            else ImportResult.error r <> None
                 /\ ImportResult.eventsCount r = 0
                 /\ ImportResult.courseName r = "")
         (gather outer j parsed).2.
Proof.
  revert j. induction parsed as [| p rest IH]; intros j Hall.
  - constructor.
  - simpl. inversion Hall as [| p' rest' Hp Hrest]; subst.
    specialize (IH (S j) Hrest).
    destruct (gather outer (S j) rest) as [[cs es] rs]. simpl in IH.
    destruct p as [file cid cn cc evs | file err]; simpl.
    + constructor; [| exact IH]. simpl. split; [reflexivity |].
      destruct evs; [contradiction | simpl; lia].
    + constructor; [| exact IH]. simpl. split; [discriminate | auto].
Qed.

(** How the loop that adds the courses ends. *)
Lemma addCourses_outcome (i : nat) (cs : list Course.t) (db : AppDatabase.t) :
  let fresh :=
    NoDup (map Course.id cs)
    /\ (forall c, In c cs -> AppDatabase.courses db !! Course.id c = None) in
  match forEachFrom (fun _ course _ => EventManagerService.addCourse course)
          i cs tt db with
  | Fulfilled _ db' =>
      fresh
      /\ AppDatabase.events db' = AppDatabase.events db
      /\ size (AppDatabase.courses db')
         = size (AppDatabase.courses db) + length cs
      /\ (forall k c, AppDatabase.courses db' !! k = Some c
                      <-> AppDatabase.courses db !! k = Some c
                          \/ (In c cs /\ Course.id c = k))
  | Rejected err db' =>
      ~ fresh
      /\ err = Dexie.ConstraintError
      /\ AppDatabase.events db' = AppDatabase.events db
      /\ AppDatabase.courses db ⊆ AppDatabase.courses db'
      /\ (forall k c, AppDatabase.courses db' !! k = Some c ->
                      AppDatabase.courses db !! k = Some c \/ In c cs)
  end.
Proof.
  cbv zeta. revert i db. induction cs as [| c rest IH]; intros i db.
  - simpl. split; [split; [constructor | tauto] |].
    split; [reflexivity |]. split; [lia |]. intros k c. tauto.
  - cbn [forEachFrom]. unfold await at 1.
    unfold EventManagerService.addCourse at 1, StorageService.addCourse,
      await, Dexie.add.
    destruct (AppDatabase.courses db !! Course.id c) as [old |] eqn:Hold.
    + split; [| split; [reflexivity | split; [reflexivity |]]].
      2: { split; [reflexivity | intros k c'; tauto]. }
      intros [_ Hfresh]. specialize (Hfresh c (or_introl eq_refl)).
      congruence.
    + unfold resolve.
      specialize (IH (S i)
                    (AppDatabase.withCourses
                       (<[Course.id c := c]> (AppDatabase.courses db)) db)).
      destruct (forEachFrom
                  (fun _ course _ => EventManagerService.addCourse course)
                  (S i) rest tt _) as [u db' | err db'].
      * destruct IH as ((Hnd & Hfresh) & Hev & Hsize & Hrows).
        cbn [AppDatabase.courses AppDatabase.events AppDatabase.withCourses]
          in Hfresh, Hev, Hsize, Hrows.
        assert (Hnotin : ~ In (Course.id c) (map Course.id rest)).
        { intros Hin. apply in_map_iff in Hin.
          destruct Hin as (c' & Hid & Hin). specialize (Hfresh c' Hin).
          rewrite Hid, lookup_insert_eq in Hfresh. discriminate. }
        split; [split |].
        -- simpl. constructor; [now rewrite list_elem_of_In | exact Hnd].
        -- intros c' [<- | Hin]; [exact Hold |].
           specialize (Hfresh c' Hin).
           destruct (decide (Course.id c = Course.id c')) as [Heq | Hne].
           ++ rewrite Heq, lookup_insert_eq in Hfresh. discriminate.
           ++ now rewrite lookup_insert_ne in Hfresh.
        -- split; [exact Hev |]. split.
           ++ rewrite Hsize, map_size_insert_None by exact Hold. simpl. lia.
           ++ intros k c'. rewrite Hrows. simpl.
              destruct (decide (Course.id c = k)) as [<- | Hne].
              ** rewrite lookup_insert_eq, Hold. split.
                 --- intros [H | H]; [| tauto]. injection H as <-. tauto.
                 --- intros [H | [[<- | H] Hid]]; try discriminate; try tauto.
              ** rewrite lookup_insert_ne by exact Hne.
                 split; [tauto |].
                 intros [H | [[<- | H] Hid]]; try tauto.
      * destruct IH as (Hnot & Herr & Hev & Hsub & Hrows).
        cbn [AppDatabase.courses AppDatabase.events AppDatabase.withCourses]
          in Hnot, Hev, Hsub, Hrows.
        split; [| split; [exact Herr | split; [exact Hev | split]]].
        3: { intros k c' H. destruct (Hrows k c' H) as [H' | H'].
             - destruct (decide (Course.id c = k)) as [<- | Hne].
               + rewrite lookup_insert_eq in H'. injection H' as <-.
                 right. now left.
               + rewrite lookup_insert_ne in H' by exact Hne. now left.
             - right. now right. }
        -- intros [Hnd Hfresh]. apply Hnot. inversion Hnd as [| x l Hx Hl].
           subst. split; [exact Hl |].
           intros c' Hin.
           destruct (decide (Course.id c = Course.id c')) as [Heq | Hne].
           ++ exfalso. apply Hx, list_elem_of_In. rewrite Heq.
              now apply in_map.
           ++ rewrite lookup_insert_ne by exact Hne. apply Hfresh. now right.
        -- etransitivity; [| exact Hsub]. now apply insert_subseteq.
Qed.

Lemma gather_no_course (outer : Ambient) (j : nat) (parsed : list Parsed) :
  (gather outer j parsed).1.1 = [] -> (gather outer j parsed).1.2 = [].
Proof.
  revert j. induction parsed as [| p rest IH]; intros j; [reflexivity |].
  simpl. specialize (IH (S j)).
  destruct (gather outer (S j) rest) as [[cs es] rs].
  destruct p; simpl; [discriminate | exact IH].
Qed.

Lemma gather_courses (outer : Ambient) (j : nat) (parsed : list Parsed)
    (c : Course.t) :
  In c (gather outer j parsed).1.1 ->
  exists file courseId courseName courseColor evs k,
    In (ParseSucceeded file courseId courseName courseColor evs) parsed
    /\ c = {| Course.id := courseId;
              Course.name := courseName;
              Course.color := courseColor;
              Course.isActive := true;
              Course.importedDate := Instant (now outer k);
              Course.eventCount := length evs;
              Course.icsFileName := name file |}.
Proof.
  revert j. induction parsed as [| p rest IH]; intros j; simpl; [tauto |].
  specialize (IH (S j)).
  destruct (gather outer (S j) rest) as [[cs es] rs]. simpl in IH.
  destruct p as [file cid cn cc evs | file err]; simpl.
  - intros [<- | H].
    + exists file, cid, cn, cc, evs, j. auto.
    + destruct (IH H) as (f & a & b & d & l & k & Hin & ->).
      exists f, a, b, d, l, k. auto.
  - intros H. destruct (IH H) as (f & a & b & d & l & k & Hin & ->).
    exists f, a, b, d, l, k. auto.
Qed.

Lemma bulkPut_size_le {Row : Type} (keyOf : Row -> string) (rows : list Row)
    (t : gmap string Row) :
  size (Dexie.bulkPut keyOf rows t) <= size t + length rows.
Proof.
  unfold Dexie.bulkPut. revert t.
  induction rows as [| r rest IH]; intros t; simpl; [lia |].
  specialize (IH (<[keyOf r := r]> t)).
  rewrite map_size_insert in IH.
  destruct (t !! keyOf r); unfold id in IH; lia.
Qed.

(** [processFiles] as one step: parse, gather, save, and the notice made
    from how saving ended. *)
Lemma processFiles_run (outer : Ambient) (inner : nat -> Ambient)
    (files : list File) (db : AppDatabase.t) :
  processFiles outer inner files db
  = let g := gather outer 0 (parseFiles outer inner 0 files) in
    match save g.1.1 g.1.2 db with
    | Fulfilled _ db' => Fulfilled (g.2, None) db'
    | Rejected err db' =>
        Fulfilled (g.2, Some ("Import failed: " +:+ JS.messageOf err)) db'
    end.
Proof.
  unfold processFiles. destruct files as [| f rest]; [reflexivity |].
  cbn [length Nat.eqb]. cbv zeta.
  destruct (gather outer 0 (parseFiles outer inner 0 (f :: rest)))
    as [[cs es] rs].
  unfold tryCatch, await, resolve. cbn [fst snd].
  destruct (save cs es db); reflexivity.
Qed.

(** How [save] ends, for courses and events gathered from parsed files. *)
Lemma save_outcome (cs : list Course.t) (evs : list CalendarEvent.t)
    (db : AppDatabase.t) :
  (cs = [] -> evs = []) ->
  let fresh :=
    NoDup (map Course.id cs)
    /\ (forall c, In c cs -> AppDatabase.courses db !! Course.id c = None) in
  match save cs evs db with
  | Fulfilled _ db' =>
      fresh
      /\ AppDatabase.events db'
         = Dexie.bulkPut CalendarEvent.id evs (AppDatabase.events db)
      /\ size (AppDatabase.courses db')
         = size (AppDatabase.courses db) + length cs
      /\ (forall k c, AppDatabase.courses db' !! k = Some c
                      <-> AppDatabase.courses db !! k = Some c
                          \/ (In c cs /\ Course.id c = k))
  | Rejected err db' =>
      ~ fresh
      /\ err = Dexie.ConstraintError
      /\ AppDatabase.events db' = AppDatabase.events db
      /\ AppDatabase.courses db ⊆ AppDatabase.courses db'
      /\ (forall k c, AppDatabase.courses db' !! k = Some c ->
                      AppDatabase.courses db !! k = Some c \/ In c cs)
  end.
Proof.
  intros Hnone. cbv zeta. unfold save.
  destruct cs as [| c rest].
  - rewrite (Hnone eq_refl). simpl.
    split; [split; [constructor | tauto] |].
    split; [reflexivity |]. split; [lia |]. intros k c. tauto.
  - cbn [length Nat.ltb Nat.leb]. unfold await.
    pose proof (addCourses_outcome 0 (c :: rest) db) as H. cbv zeta in H.
    destruct (forEachFrom
                (fun _ course _ => EventManagerService.addCourse course)
                0 (c :: rest) tt db) as [u db' | err db'].
    + destruct H as (Hfresh & Hev & Hsize & Hrows).
      unfold EventManagerService.addEvents, StorageService.addEvents.
      cbn [AppDatabase.events AppDatabase.courses AppDatabase.withEvents].
      rewrite Hev. auto.
    + exact H.
Qed.

(** How the loop that adds the courses stops when it is rejected: the
    courses before the first one whose id is taken have been added, that
    one and those after it have not. *)
Lemma addCourses_rejected (i : nat) (cs : list Course.t) (db db' : AppDatabase.t)
    (err : JS.Thrown) :
  forEachFrom (fun _ course _ => EventManagerService.addCourse course)
    i cs tt db = Rejected err db' ->
  exists added course rest,
    cs = (added ++ course :: rest)%list
    /\ NoDup (map Course.id added)
    /\ (forall c, In c added ->
                  AppDatabase.courses db !! Course.id c = None)
    /\ AppDatabase.courses db'
       = Dexie.bulkPut Course.id added (AppDatabase.courses db)
    /\ is_Some (AppDatabase.courses db' !! Course.id course).
Proof.
  revert i db. induction cs as [| c rest IH]; intros i db; [discriminate |].
  cbn [forEachFrom]. unfold await at 1.
  unfold EventManagerService.addCourse at 1, StorageService.addCourse,
    await, Dexie.add.
  destruct (AppDatabase.courses db !! Course.id c) as [old |] eqn:Hold.
  - intros [= <- <-]. exists [], c, rest.
    split; [reflexivity |]. split; [constructor |].
    split; [intros ? [] |]. split; [reflexivity |]. rewrite Hold. eauto.
  - unfold resolve. intros H. apply IH in H.
    destruct H as (added & course & rest' & -> & Hnd & Hfresh & Hco & Hsome).
    cbn [AppDatabase.courses AppDatabase.withCourses] in Hfresh, Hco.
    exists (c :: added), course, rest'.
    split; [reflexivity |]. split; [| split; [| split]].
    + simpl. constructor; [| exact Hnd].
      rewrite list_elem_of_In, in_map_iff. intros (a & Ha & Hin).
      specialize (Hfresh a Hin). rewrite Ha, lookup_insert_eq in Hfresh.
      discriminate.
    + intros a [<- | Hin]; [exact Hold |].
      specialize (Hfresh a Hin).
      destruct (decide (Course.id c = Course.id a)) as [Heq | Hne].
      * rewrite Heq, lookup_insert_eq in Hfresh. discriminate.
      * now rewrite lookup_insert_ne in Hfresh.
    + exact Hco.
    + exact Hsome.
Qed.

(** X7. [processFiles] always settles by fulfilling.  With no file
    selected it returns at once and changes nothing: the report of the
    run before stays as it is.  With a selection, whatever the files hold,
    the report is replaced by one entry for each selected file, in the
    order of selection and under the file's name; a successful entry counts
    at least one event and has no error, a failed one has an error, counts
    no event and names no course; [isProcessing] is false at the end, and
    the selection is emptied exactly when there is no failure notice. *)
Theorem processFiles_report (outer : Ambient) (inner : nat -> Ambient)
    (this : ImportView.t) (db : AppDatabase.t) :
  exists this' notice db',
    ImportView.processFiles outer inner this db
    = Fulfilled (this', notice) db'
    /\ (ImportView.selectedFiles this = [] ->
        this' = this /\ notice = None /\ db' = db)
    /\ (ImportView.selectedFiles this <> [] ->
        map ImportResult.fileName (ImportView.importResults this')
        = map name (ImportView.selectedFiles this)
        /\ Forall (fun r =>
                     if ImportResult.success r
                     then ImportResult.error r = None
                          /\ 0 < ImportResult.eventsCount r
                     else ImportResult.error r <> None
                          /\ ImportResult.eventsCount r = 0
                          /\ ImportResult.courseName r = "")
                  (ImportView.importResults this')
        /\ ImportView.isProcessing this' = false
        /\ ImportView.selectedFiles this'
           = match notice with
             | None => []
             | Some _ => ImportView.selectedFiles this
             end).
Proof.
  unfold ImportView.processFiles.
  destruct (ImportView.selectedFiles this) as [| f rest] eqn:Hsel.
  { eexists _, _, _. split; [reflexivity |].
    split; [auto | congruence]. }
  cbn [length Nat.eqb]. unfold await. rewrite processFiles_run. cbv zeta.
  pose proof (gather_report outer 0 (parseFiles outer inner 0 (f :: rest)))
    as Hg.
  pose proof (gather_entries outer 0 _
                (parseFiles_succeeded outer inner 0 (f :: rest))) as He.
  destruct (gather outer 0 (parseFiles outer inner 0 (f :: rest)))
    as [[cs es] rs].
  destruct Hg as (Hnames & _). cbn [fst snd] in *.
  assert (Hfiles : map ImportResult.fileName rs = map name (f :: rest)).
  { rewrite Hnames, <- (map_map fileOf name).
    now rewrite parseFiles_files. }
  destruct (save cs es db) as [u db' | err db'];
    (eexists _, _, _; split; [reflexivity |];
     split; [discriminate |]; intros _;
     cbn [fst snd ImportView.importResults ImportView.isProcessing
          ImportView.selectedFiles]; auto).
Qed.

(** X8. An import that ends without the failure notice has stored one new
    course for each successful entry of its report, none of which replaces
    a stored course, and has written the gathered events in one [bulkPut]:
    the number of courses grows by the number of successes, and the number
    of events grows by at most the total that the closing notice names. *)
Theorem processFiles_completed (outer : Ambient) (inner : nat -> Ambient)
    (selectedFiles : list File) (db db' : AppDatabase.t)
    (report : list ImportResult.t) :
  processFiles outer inner selectedFiles db = Fulfilled (report, None) db' ->
  let g := gather outer 0 (parseFiles outer inner 0 selectedFiles) in
  size (AppDatabase.courses db')
  = size (AppDatabase.courses db) + successCount report
  /\ AppDatabase.courses db ⊆ AppDatabase.courses db'
  /\ AppDatabase.events db'
     = Dexie.bulkPut CalendarEvent.id g.1.2 (AppDatabase.events db)
  /\ totalEvents report = length g.1.2
  /\ size (AppDatabase.events db')
     <= size (AppDatabase.events db) + totalEvents report.
Proof.
  rewrite processFiles_run. cbv zeta.
  pose proof (gather_report outer 0 (parseFiles outer inner 0 selectedFiles))
    as Hg.
  pose proof (gather_no_course outer 0
                (parseFiles outer inner 0 selectedFiles)) as Hnone.
  destruct (gather outer 0 (parseFiles outer inner 0 selectedFiles))
    as [[cs es] rs].
  destruct Hg as (_ & Hs & Ht & _). cbn [fst snd] in *.
  pose proof (save_outcome cs es db Hnone) as Hsave. cbv zeta in Hsave.
  destruct (save cs es db) as [u db1 | err db1]; [| discriminate].
  intros H. injection H as <- <-.
  destruct Hsave as ((_ & Hfresh) & Hev & Hsize & Hrows).
  split; [now rewrite Hs |].
  split.
  { apply map_subseteq_spec. intros k c Hc. apply Hrows. now left. }
  split; [exact Hev |]. split; [exact Ht |].
  rewrite Hev, Ht. apply bulkPut_size_le.
Qed.

(** X8, at the first import of the essay file. *)
Lemma processFiles_completed_witness :
  size (AppDatabase.courses (afterFirstImport englishFile))
  = size (AppDatabase.courses AppDatabase.empty)
    + successCount
        [ {| ImportResult.fileName := "english.ics";
             ImportResult.success := true;
             ImportResult.courseName := "English";
             ImportResult.eventsCount := 1;
             ImportResult.error := None |} ].
Proof.
  exact (proj1 (processFiles_completed firstRun (fun _ => firstRunEntries)
                  [englishFile] AppDatabase.empty
                  (afterFirstImport englishFile) _ eq_refl)).
Defined.

(** X9. An import ends with the failure notice exactly when a generated
    course id is taken, by a stored course or by an earlier file of the
    same selection.  Such an import writes no event at all, although its
    report may list successes.  Of the courses it gathered, those before
    the first one whose id is taken have been added and stay, that one and
    those after it are not added; the courses stored before the import are
    all kept. *)
Theorem processFiles_failed (outer : Ambient) (inner : nat -> Ambient)
    (selectedFiles : list File) (db : AppDatabase.t) :
  let g := gather outer 0 (parseFiles outer inner 0 selectedFiles) in
  let fresh :=
    NoDup (map Course.id g.1.1)
    /\ (forall c, In c g.1.1 ->
                  AppDatabase.courses db !! Course.id c = None) in
  exists report notice db',
    processFiles outer inner selectedFiles db
    = Fulfilled (report, notice) db'
    /\ (notice = None <-> fresh)
    /\ (notice <> None ->
        notice = Some ("Import failed: "
                       +:+ JS.messageOf Dexie.ConstraintError)
        /\ AppDatabase.events db' = AppDatabase.events db
        /\ AppDatabase.courses db ⊆ AppDatabase.courses db'
        /\ exists added course rest,
             g.1.1 = (added ++ course :: rest)%list
             /\ NoDup (map Course.id added)
             /\ (forall c, In c added ->
                           AppDatabase.courses db !! Course.id c = None)
             /\ AppDatabase.courses db'
                = Dexie.bulkPut Course.id added (AppDatabase.courses db)
             /\ is_Some (AppDatabase.courses db' !! Course.id course)).
Proof.
  cbv zeta. rewrite processFiles_run. cbv zeta.
  pose proof (gather_no_course outer 0
                (parseFiles outer inner 0 selectedFiles)) as Hnone.
  destruct (gather outer 0 (parseFiles outer inner 0 selectedFiles))
    as [[cs es] rs].
  cbn [fst snd] in *.
  pose proof (save_outcome cs es db Hnone) as Hsave. cbv zeta in Hsave.
  destruct (save cs es db) as [u db1 | err db1] eqn:Hrun.
  - destruct Hsave as (Hfresh & _).
    eexists _, _, _. split; [reflexivity |].
    split; [tauto | congruence].
  - destruct Hsave as (Hnot & -> & Hev & Hsub & _).
    eexists _, _, _. split; [reflexivity |].
    split; [split; [discriminate | tauto] |]. intros _.
    split; [reflexivity |]. split; [exact Hev |]. split; [exact Hsub |].
    unfold save in Hrun. destruct (0 <? length cs)%nat; [| discriminate].
    unfold await in Hrun.
    destruct (forEachFrom
                (fun _ course _ => EventManagerService.addCourse course)
                0 cs tt db) as [u' db2 | err2 db2] eqn:Hloop;
      [discriminate |].
    injection Hrun as _ <-.
    exact (addCourses_rejected 0 cs db db2 err2 Hloop).
Qed.

(** X10. An import changes no stored course and removes none; a course it
    adds is active and counts the events converted from its file, at least
    one. *)
Theorem processFiles_courses (outer : Ambient) (inner : nat -> Ambient)
    (selectedFiles : list File) (db : AppDatabase.t) :
  let db' := dbOf (processFiles outer inner selectedFiles db) in
  AppDatabase.courses db ⊆ AppDatabase.courses db'
  /\ forall k c,
       AppDatabase.courses db' !! k = Some c ->
       AppDatabase.courses db !! k = Some c
       \/ (Course.isActive c = true
           /\ 0 < Course.eventCount c
           /\ exists file, In file selectedFiles
                           /\ Course.icsFileName c = name file).
Proof.
  cbv zeta. rewrite processFiles_run. cbv zeta.
  pose proof (gather_no_course outer 0
                (parseFiles outer inner 0 selectedFiles)) as Hnone.
  pose proof (fun c => gather_courses outer 0
                (parseFiles outer inner 0 selectedFiles) c) as Hcs.
  destruct (gather outer 0 (parseFiles outer inner 0 selectedFiles))
    as [[cs es] rs].
  cbn [fst snd] in *.
  assert (Hnew : forall c, In c cs ->
             Course.isActive c = true
             /\ 0 < Course.eventCount c
             /\ exists file, In file selectedFiles
                             /\ Course.icsFileName c = name file).
  { intros c Hin.
    destruct (Hcs c Hin) as (f & a & b & d & l & k & Hp & ->). simpl.
    apply parseFiles_in in Hp. destruct Hp as (j & file & Hfile & Hp).
    symmetry in Hp. apply parseFile_events in Hp.
    destruct Hp as (? & ? & _ & -> & _ & _ & _ & _ & Hne).
    split; [reflexivity |].
    split; [destruct l; [contradiction | simpl; lia] |].
    exists file. auto. }
  pose proof (save_outcome cs es db Hnone) as Hsave. cbv zeta in Hsave.
  destruct (save cs es db) as [u db1 | err db1]; cbn [dbOf].
  - destruct Hsave as (_ & _ & _ & Hrows). split.
    + apply map_subseteq_spec. intros k c Hc. apply Hrows. now left.
    + intros k c Hc. apply Hrows in Hc. destruct Hc as [Hc | [Hin _]];
        [now left | right; now apply Hnew].
  - destruct Hsave as (_ & _ & _ & Hsub & Hrows). split; [exact Hsub |].
    intros k c Hc. destruct (Hrows k c Hc) as [H | H];
      [now left | right; now apply Hnew].
Qed.

Lemma convert_yielding (amb : Ambient) (courseId courseName courseColor : string)
    (k : nat) (vevents : list ICAL.VEvent) :
  length (IcsParserService.convert amb courseId courseName courseColor
            k vevents).1
  = length (List.filter Entries.yields vevents).
Proof.
  revert k. induction vevents as [| v rest IH]; intros k; [reflexivity |].
  cbn [IcsParserService.convert]. specialize (IH (S k)).
  destruct (IcsParserService.convert amb courseId courseName courseColor
              (S k) rest) as [evs errs].
  destruct v; simpl in *; lia.
Qed.

Lemma convert_first_error (amb : Ambient)
    (courseId courseName courseColor : string) (k : nat) (err : JS.Thrown)
    (rest : list ICAL.VEvent) :
  head (IcsParserService.convert amb courseId courseName courseColor k
          (ICAL.Raises err :: rest)).2
  = Some {| line := Some (k + 1);
            message := "Failed to parse event: " +:+ JS.messageOf err;
            severity := SeverityError |}.
Proof.
  cbn [IcsParserService.convert].
  destruct (IcsParserService.convert amb courseId courseName courseColor
              (S k) rest) as [evs errs].
  reflexivity.
Qed.

Lemma or_else_append (a b d : string) :
  a <> "" -> JS.or_else (Some (a +:+ b)) d = a +:+ b.
Proof.
  intros Ha. unfold JS.or_else.
  destruct (String.eqb_spec (a +:+ b) "") as [Heq | _]; [| reflexivity].
  destruct a; [contradiction | discriminate].
Qed.

(** X11. What one selected file comes to.  A file that cannot be read
    fails with the reader's message; a document that cannot be parsed
    fails with [Failed to parse ICS file: ] and the parser's message; a
    document without entries fails with [Failed to parse ICS file]; a
    document none of whose entries converts fails with the error of its
    first entry alone; and a document with at least one entry that
    converts succeeds with as many events as entries convert, the other
    entries being dropped without a word. *)
Theorem parseFile_outcome (outer inner : Ambient) (j : nat) (file : File) :
  match read file with
  | ReadRejects err =>
      parseFile outer inner j file = ParseFailed file (JS.messageOf err)
  | ReadResolves (ICAL.Malformed err) =>
      parseFile outer inner j file
      = ParseFailed file ("Failed to parse ICS file: " +:+ JS.messageOf err)
  | ReadResolves (ICAL.Component calname vevents) =>
      match List.filter Entries.yields vevents, vevents with
      | _ :: _, _ =>
          exists evs,
            parseFile outer inner j file
            = ParseSucceeded file (uniqueId outer j)
                (IcsParserService.extractCourseName
                   (ICAL.Component calname vevents) (name file))
                (randomColor outer j) evs
            /\ length evs = length (List.filter Entries.yields vevents)
      | [], ICAL.Raises err :: _ =>
          parseFile outer inner j file
          = ParseFailed file ("Failed to parse event: " +:+ JS.messageOf err)
      | [], _ =>
          parseFile outer inner j file
          = ParseFailed file "Failed to parse ICS file"
      end
  end.
Proof.
  unfold parseFile. destruct (read file) as [err | content]; [reflexivity |].
  destruct content as [err | calname vevents].
  - cbn [IcsParserService.parseIcsFile IcsImportResult.success
         IcsImportResult.errors head option_map message].
    now rewrite or_else_append.
  - unfold IcsParserService.parseIcsFile.
    pose proof (convert_yielding inner (uniqueId outer j)
                  (IcsParserService.extractCourseName
                     (ICAL.Component calname vevents) (name file))
                  (randomColor outer j) 0 vevents) as Hlen.
    pose proof (fun err rest =>
                  convert_first_error inner (uniqueId outer j)
                    (IcsParserService.extractCourseName
                       (ICAL.Component calname vevents) (name file))
                    (randomColor outer j) 0 err rest) as Hfirst.
    destruct (IcsParserService.convert inner (uniqueId outer j)
                (IcsParserService.extractCourseName
                   (ICAL.Component calname vevents) (name file))
                (randomColor outer j) 0 vevents) as [evs errs] eqn:Hc.
    cbn [fst snd] in Hlen.
    cbn [IcsImportResult.success IcsImportResult.events
         IcsImportResult.errors].
    destruct (List.filter Entries.yields vevents) as [| y ys] eqn:Hy.
    + destruct evs; [| discriminate]. cbn [length Nat.ltb Nat.leb].
      destruct vevents as [| [err | e] rest].
      * injection Hc as <-. reflexivity.
      * specialize (Hfirst err rest). rewrite Hc in Hfirst.
        cbn [snd] in Hfirst. rewrite Hfirst. cbn [option_map message].
        now rewrite or_else_append.
      * discriminate.
    + destruct evs as [| ev evs]; [discriminate |].
      exists (ev :: evs). split; [reflexivity | exact Hlen].
Qed.

End ImportReport.

(** ** Courses during a scrape sync *)

Section SyncCourses.
Import SyncService.

Lemma processCourse_cases (amb : Ambient) (ids : list string) (i : nat)
    (c : ScrapedCourse.t) (db : AppDatabase.t) :
  processCourse amb ids i c tt db
  = if JS.arrayIncludes ids (ScrapedCourse.id c)
    then Fulfilled tt
           (AppDatabase.withCourses
              (alter (Course.withEventCount (ScrapedCourse.eventCount c))
                     (ScrapedCourse.id c) (AppDatabase.courses db)) db)
    else match AppDatabase.courses db !! ScrapedCourse.id c with
         | Some _ => Rejected Dexie.ConstraintError db
         | None =>
             Fulfilled tt
               (AppDatabase.withCourses
                  (<[ScrapedCourse.id c :=
                       {| Course.id := ScrapedCourse.id c;
                          Course.name := ScrapedCourse.name c;
                          Course.color := paletteAt (i mod length colorPalette);
                          Course.isActive := true;
                          Course.importedDate := Instant (now amb i);
                          Course.eventCount := ScrapedCourse.eventCount c;
                          Course.icsFileName := "auto-sync" |}]>
                     (AppDatabase.courses db)) db)
         end.
Proof.
  unfold processCourse.
  destruct (JS.arrayIncludes ids (ScrapedCourse.id c)); [reflexivity |].
  cbn [negb]. unfold await, StorageService.addCourse, Dexie.add, resolve.
  cbn [Course.id].
  destruct (AppDatabase.courses db !! ScrapedCourse.id c); reflexivity.
Qed.

Lemma withEventCount_same (c : Course.t) :
  Course.withEventCount (Course.eventCount c) c = c.
Proof. now destruct c. Qed.

Lemma paletteAt_In (i : nat) :
  In (paletteAt (i mod length colorPalette)) colorPalette.
Proof.
  unfold paletteAt. apply nth_In. apply Nat.mod_upper_bound. discriminate.
Qed.

(** A row of the courses table after the course loop, however the loop
    ended: a row the table had, with no field but [eventCount] changed, or
    the row made for a scraped course whose id was not stored. *)
Lemma processCourses_rows (amb : Ambient) (ids : list string) (i : nat)
    (cs : list ScrapedCourse.t) (db : AppDatabase.t) (k : string)
    (c' : Course.t) :
  AppDatabase.courses (dbOf (forEachFrom (processCourse amb ids) i cs tt db))
    !! k = Some c' ->
  (exists c n,
      AppDatabase.courses db !! k = Some c
      /\ c' = Course.withEventCount n c
      /\ (n = Course.eventCount c
          \/ exists sc, In sc cs /\ ScrapedCourse.id sc = k
                        /\ JS.arrayIncludes ids k = true
                        /\ n = ScrapedCourse.eventCount sc))
  \/ (AppDatabase.courses db !! k = None
      /\ JS.arrayIncludes ids k = false
      /\ exists sc, In sc cs
                    /\ Course.id c' = ScrapedCourse.id sc
                    /\ ScrapedCourse.id sc = k
                    /\ Course.name c' = ScrapedCourse.name sc
                    /\ Course.eventCount c' = ScrapedCourse.eventCount sc
                    /\ Course.isActive c' = true
                    /\ Course.icsFileName c' = "auto-sync"
                    /\ In (Course.color c') colorPalette).
Proof.
  revert i db. induction cs as [| c rest IH]; intros i db.
  - simpl. intros H. left. exists c', (Course.eventCount c').
    rewrite withEventCount_same. auto.
  - cbn [forEachFrom]. unfold await at 1. rewrite processCourse_cases.
    destruct (JS.arrayIncludes ids (ScrapedCourse.id c)) eqn:Hinc.
    + intros H. apply IH in H.
      cbn [AppDatabase.courses AppDatabase.withCourses] in H.
      destruct H as [(c1 & n & Hc1 & -> & Hn) | (Hnone & Hids & sc & Hsc)].
      * left. destruct (decide (ScrapedCourse.id c = k)) as [Hk | Hne].
        -- rewrite <- Hk, lookup_alter_eq in Hc1.
           destruct (AppDatabase.courses db !! ScrapedCourse.id c)
             as [c0 |] eqn:Hc0; [| discriminate].
           injection Hc1 as <-. rewrite <- Hk. exists c0, n.
           split; [exact Hc0 |]. split; [now destruct c0 |].
           destruct Hn as [-> | (sc & Hin & Hid & Hinc' & ->)].
           ++ right. exists c. simpl. auto.
           ++ right. exists sc. rewrite Hk. simpl. auto.
        -- rewrite lookup_alter_ne in Hc1 by exact Hne.
           exists c1, n. split; [exact Hc1 |]. split; [reflexivity |].
           destruct Hn as [-> | (sc & Hin & Hrest)]; [now left |].
           right. exists sc. simpl. tauto.
      * right. split.
        -- destruct (decide (ScrapedCourse.id c = k)) as [Hk | Hne].
           ++ congruence.
           ++ now rewrite lookup_alter_ne in Hnone by exact Hne.
        -- split; [exact Hids |]. exists sc. simpl. tauto.
    + destruct (AppDatabase.courses db !! ScrapedCourse.id c) as [old |]
        eqn:Hold.
      * cbn [dbOf]. intros H. left. exists c', (Course.eventCount c').
        rewrite withEventCount_same. auto.
      * intros H. apply IH in H.
        cbn [AppDatabase.courses AppDatabase.withCourses] in H.
        destruct H as [(c1 & n & Hc1 & -> & Hn) | (Hnone & Hids & sc & Hsc)].
        -- destruct (decide (ScrapedCourse.id c = k)) as [Hk | Hne].
           ++ rewrite <- Hk, lookup_insert_eq in Hc1. injection Hc1 as <-.
              destruct Hn as [-> | (sc & _ & _ & Hinc' & _)];
                [| congruence].
              right. rewrite <- Hk. split; [exact Hold |].
              split; [exact Hinc |]. exists c. cbn.
              repeat split; auto. apply paletteAt_In.
           ++ rewrite lookup_insert_ne in Hc1 by exact Hne. left.
              exists c1, n. split; [exact Hc1 |]. split; [reflexivity |].
              destruct Hn as [-> | (sc & Hin & Hrest)]; [now left |].
              right. exists sc. simpl. tauto.
        -- right. split.
           ++ destruct (decide (ScrapedCourse.id c = k)) as [Hk | Hne].
              ** now rewrite <- Hk.
              ** now rewrite lookup_insert_ne in Hnone by exact Hne.
           ++ split; [exact Hids |]. exists sc. simpl. tauto.
Qed.

(** No course is removed by the course loop, and a stored row keeps its
    key. *)
Lemma processCourses_kept (amb : Ambient) (ids : list string) (i : nat)
    (cs : list ScrapedCourse.t) (db : AppDatabase.t) (k : string) :
  is_Some (AppDatabase.courses db !! k) ->
  is_Some (AppDatabase.courses
             (dbOf (forEachFrom (processCourse amb ids) i cs tt db)) !! k).
Proof.
  revert i db. induction cs as [| c rest IH]; intros i db Hk; [exact Hk |].
  cbn [forEachFrom]. unfold await at 1. rewrite processCourse_cases.
  destruct (JS.arrayIncludes ids (ScrapedCourse.id c)).
  - apply IH. cbn [AppDatabase.courses AppDatabase.withCourses].
    rewrite lookup_alter.
    destruct (decide (ScrapedCourse.id c = k)) as [-> | _]; [| exact Hk].
    apply fmap_is_Some. exact Hk.
  - destruct (AppDatabase.courses db !! ScrapedCourse.id c) eqn:Hold;
      [exact Hk |].
    apply IH. cbn [AppDatabase.courses AppDatabase.withCourses].
    rewrite lookup_insert. destruct (decide (ScrapedCourse.id c = k));
      [eauto | exact Hk].
Qed.

(** The event loop and the deletion leave the courses table alone. *)
Lemma processEvents_courses (amb : Ambient) (m : gmap string string)
    (i : nat) (events : list ScrapedEvent.t) (seen : gset string)
    (db : AppDatabase.t) :
  AppDatabase.courses (dbOf (forEachFrom (processEvent amb m) i events seen db))
  = AppDatabase.courses db.
Proof.
  revert i seen db. induction events as [| d rest IH]; intros i seen db;
    [reflexivity |].
  cbn [forEachFrom]. unfold await at 1.
  pose proof (processEvent_cases amb m i d seen db) as Hcases.
  cbv zeta in Hcases.
  destruct (JS.or_undefined (m !! keyOfScraped d)) as [j |].
  - rewrite Hcases, IH. reflexivity.
  - destruct (AppDatabase.events db !! uniqueId amb i); rewrite Hcases;
      [reflexivity |].
    rewrite IH. reflexivity.
Qed.

Lemma processScrapedData_courses (ambCourses ambEvents : Ambient)
    (courses : list ScrapedCourse.t) (events : list ScrapedEvent.t)
    (db : AppDatabase.t) :
  AppDatabase.courses
    (dbOf (processScrapedData ambCourses ambEvents courses events db))
  = AppDatabase.courses
      (dbOf (forEachFrom
               (processCourse ambCourses
                  (map Course.id (Dexie.toArray (AppDatabase.courses db))))
               0 courses tt db)).
Proof.
  rewrite processScrapedData_steps.
  destruct (forEachFrom (processCourse _ _) 0 courses tt db)
    as [u dbc | err dbc]; [| reflexivity].
  cbv zeta. cbn [dbOf].
  pose proof (processEvents_courses ambEvents
                (existingEventMapOf (Dexie.toArray (AppDatabase.events dbc)))
                0 events ∅ dbc) as He.
  match goal with
  | |- context [forEachFrom ?body 0 events ?s dbc] =>
      destruct (forEachFrom body 0 events s dbc) as [seen dbe | err dbe]
  end; cbn [dbOf] in *; [| exact He].
  destruct (0 <? length _)%nat; exact He.
Qed.

(** X12. A scrape sync removes no course and rewrites none: however it
    ends, a course stored before it is stored under the same key with the
    same id, name, colour, active flag, import date and file name, and
    only its [eventCount] may differ, being then the count of a scraped
    course with that id.  Any other course found afterwards is the row
    made for a scraped course: active, named as scraped, with the scraped
    count, a palette colour and the file name [auto-sync]. *)
Theorem sync_courses (ambCourses ambEvents : Ambient)
    (courses : list ScrapedCourse.t) (events : list ScrapedEvent.t)
    (db : AppDatabase.t) :
  let db' :=
    dbOf (processScrapedData ambCourses ambEvents courses events db) in
  (forall k c,
      AppDatabase.courses db !! k = Some c ->
      exists n,
        AppDatabase.courses db' !! k = Some (Course.withEventCount n c)
        /\ (n = Course.eventCount c
            \/ exists sc, In sc courses /\ ScrapedCourse.id sc = k
                          /\ n = ScrapedCourse.eventCount sc))
  /\ (forall k c',
        AppDatabase.courses db' !! k = Some c' ->
        AppDatabase.courses db !! k = None ->
        exists sc, In sc courses
                   /\ ScrapedCourse.id sc = k
                   /\ Course.id c' = k
                   /\ Course.name c' = ScrapedCourse.name sc
                   /\ Course.eventCount c' = ScrapedCourse.eventCount sc
                   /\ Course.isActive c' = true
                   /\ Course.icsFileName c' = "auto-sync"
                   /\ In (Course.color c') colorPalette).
Proof.
  cbv zeta. rewrite processScrapedData_courses. split.
  - intros k c Hc.
    destruct (processCourses_kept ambCourses
                (map Course.id (Dexie.toArray (AppDatabase.courses db)))
                0 courses db k) as [c' Hc']; [eauto |].
    pose proof Hc' as Hrow. apply processCourses_rows in Hrow.
    destruct Hrow as [(c0 & n & Hc0 & -> & Hn) | (Hnone & _)];
      [| congruence].
    assert (c0 = c) by congruence. subst c0.
    exists n. split; [exact Hc' |].
    destruct Hn as [-> | (sc & Hin & Hid & _ & ->)]; [now left |].
    right. exists sc. auto.
  - intros k c' Hc' Hnone. apply processCourses_rows in Hc'.
    destruct Hc' as [(c0 & n & Hc0 & _) | (_ & _ & sc & Hsc)];
      [congruence |].
    exists sc. destruct Hsc as (H1 & H2 & H3 & H4 & H5 & H6 & H7 & H8).
    repeat split; try assumption. congruence.
Qed.

Lemma forEachFrom_rejected {A St : Type} (body : nat -> A -> St -> Async St)
    (P : JS.Thrown -> Prop) :
  (forall i x s db err db', body i x s db = Rejected err db' -> P err) ->
  forall items i s db err db',
    forEachFrom body i items s db = Rejected err db' -> P err.
Proof.
  intros Hbody. induction items as [| x rest IH]; intros i s db err db';
    [discriminate |].
  cbn [forEachFrom]. unfold await.
  destruct (body i x s db) as [s1 db1 | err1 db1] eqn:Hb.
  - apply IH.
  - intros [= <- <-]. exact (Hbody _ _ _ _ _ _ Hb).
Qed.

(** The course loop is rejected when the scraped list names twice an id
    that was not stored, or names an id that was not read from the table
    although a row has it for its key. *)
Lemma processCourses_rejects (amb : Ambient) (ids : list string) (i : nat)
    (cs : list ScrapedCourse.t) (db : AppDatabase.t) :
  ~ NoDup (map ScrapedCourse.id
             (List.filter
                (fun c => negb (JS.arrayIncludes ids (ScrapedCourse.id c)))
                cs))
  \/ (exists c, In c cs
                /\ JS.arrayIncludes ids (ScrapedCourse.id c) = false
                /\ is_Some (AppDatabase.courses db !! ScrapedCourse.id c)) ->
  exists db',
    forEachFrom (processCourse amb ids) i cs tt db
    = Rejected Dexie.ConstraintError db'.
Proof.
  revert i db. induction cs as [| c rest IH]; intros i db.
  - intros [H | (c & [] & _)]. exfalso. apply H. constructor.
  - cbn [forEachFrom List.filter]. unfold await. rewrite processCourse_cases.
    destruct (JS.arrayIncludes ids (ScrapedCourse.id c)) eqn:Hinc;
      cbn [negb].
    + intros H. apply IH. destruct H as [H | (c0 & [<- | Hin] & Hnew & Hk)].
      * now left.
      * congruence.
      * right. exists c0. split; [exact Hin |]. split; [exact Hnew |].
        cbn [AppDatabase.courses AppDatabase.withCourses].
        rewrite lookup_alter.
        destruct (decide (ScrapedCourse.id c = ScrapedCourse.id c0))
          as [-> | _]; [| exact Hk].
        apply fmap_is_Some. exact Hk.
    + destruct (AppDatabase.courses db !! ScrapedCourse.id c) as [old |]
        eqn:Hold; [eauto |].
      intros H. apply IH.
      cbn [AppDatabase.courses AppDatabase.withCourses].
      destruct H as [H | (c0 & [<- | Hin] & Hnew & Hk)].
      * cbn [map] in H.
        destruct (decide
                    (ScrapedCourse.id c
                     ∈ map ScrapedCourse.id
                         (List.filter
                            (fun c => negb (JS.arrayIncludes ids
                                              (ScrapedCourse.id c)))
                            rest))) as [Hdup | Hfresh].
        -- right. apply list_elem_of_In, in_map_iff in Hdup.
           destruct Hdup as (c0 & Hid & Hin). apply filter_In in Hin.
           destruct Hin as [Hin Hnew]. apply negb_true_iff in Hnew.
           exists c0. split; [exact Hin |]. split; [exact Hnew |].
           rewrite Hid, lookup_insert_eq. eauto.
        -- left. intros Hnd. apply H. now constructor.
      * rewrite Hold in Hk. now destruct Hk.
      * right. exists c0. split; [exact Hin |]. split; [exact Hnew |].
        rewrite lookup_insert.
        destruct (decide (ScrapedCourse.id c = ScrapedCourse.id c0));
          [eauto | exact Hk].
Qed.

(** X13. A scraped list that names twice a course id not yet stored makes
    the sync fail: the promise is rejected with the constraint error of
    the second [add], and no event has been read, written or deleted. *)
Theorem sync_rejects_repeated_course (ambCourses ambEvents : Ambient)
    (courses : list ScrapedCourse.t) (events : list ScrapedEvent.t)
    (db : AppDatabase.t) :
  ~ NoDup (map ScrapedCourse.id
             (List.filter
                (fun c =>
                   negb (JS.arrayIncludes
                           (map Course.id
                              (Dexie.toArray (AppDatabase.courses db)))
                           (ScrapedCourse.id c)))
                courses)) ->
  exists db',
    processScrapedData ambCourses ambEvents courses events db
    = Rejected Dexie.ConstraintError db'
    /\ AppDatabase.events db' = AppDatabase.events db.
Proof.
  intros Hdup. rewrite processScrapedData_steps.
  pose proof (processCourses_events ambCourses
                (map Course.id (Dexie.toArray (AppDatabase.courses db)))
                0 courses db) as Hev.
  destruct (processCourses_rejects ambCourses
              (map Course.id (Dexie.toArray (AppDatabase.courses db)))
              0 courses db (or_introl Hdup)) as (db' & Hrej).
  rewrite Hrej in Hev |- *. eauto.
Qed.

(** X13, at the list that names Math twice. *)
Lemma sync_rejects_repeated_course_witness :
  exists db',
    mathListedTwice = Rejected Dexie.ConstraintError db'
    /\ AppDatabase.events db' = AppDatabase.events AppDatabase.empty.
Proof.
  apply (sync_rejects_repeated_course firstSync firstSync
           (SchoologyScraper.scrapeAllData [mathFetched; mathFetched]).1
           (SchoologyScraper.scrapeAllData [mathFetched; mathFetched]).2
           AppDatabase.empty).
  vm_compute. intros H. inversion H as [| x l Hx Hl]; subst.
  apply Hx. constructor.
Defined.

(** X14. A sync fails only on a key that is taken: whenever the promise
    of [processScrapedData] is rejected, the reason is the constraint
    error of an [add], and every event and every course stored before the
    sync is still stored. *)
Theorem sync_rejection (ambCourses ambEvents : Ambient)
    (courses : list ScrapedCourse.t) (events : list ScrapedEvent.t)
    (db db' : AppDatabase.t) (err : JS.Thrown) :
  processScrapedData ambCourses ambEvents courses events db
  = Rejected err db' ->
  err = Dexie.ConstraintError
  /\ (forall k, is_Some (AppDatabase.events db !! k) ->
                is_Some (AppDatabase.events db' !! k))
  /\ (forall k, is_Some (AppDatabase.courses db !! k) ->
                is_Some (AppDatabase.courses db' !! k)).
Proof.
  intros Hrej.
  pose proof (processScrapedData_outcome ambCourses ambEvents courses events
                db) as Hout.
  pose proof (processScrapedData_courses ambCourses ambEvents courses events
                db) as Hco.
  cbv zeta in Hout. rewrite Hrej in Hout, Hco. cbn [dbOf] in Hco.
  split; [| split; [exact (proj1 Hout) |]].
  - rewrite processScrapedData_steps in Hrej.
    destruct (forEachFrom (processCourse _ _) 0 courses tt db)
      as [u dbc | errc dbc] eqn:Hc.
    + cbv zeta in Hrej.
      match type of Hrej with
      | context [forEachFrom ?body 0 events ?s dbc] =>
          destruct (forEachFrom body 0 events s dbc)
            as [seen dbe | erre dbe] eqn:He
      end; [discriminate |].
      injection Hrej as <- <-.
      refine (forEachFrom_rejected _ (fun e => e = Dexie.ConstraintError)
                _ _ _ _ _ _ _ He).
      intros i x s d e d' Hb.
      pose proof (processEvent_cases ambEvents
                    (existingEventMapOf
                       (Dexie.toArray (AppDatabase.events dbc))) i x s d)
        as Hcases.
      cbv zeta in Hcases.
      destruct (JS.or_undefined _); [congruence |].
      destruct (AppDatabase.events d !! uniqueId ambEvents i); congruence.
    + injection Hrej as <- <-.
      refine (forEachFrom_rejected _ (fun e => e = Dexie.ConstraintError)
                _ _ _ _ _ _ _ Hc).
      intros i x [] d e d' Hb. rewrite processCourse_cases in Hb.
      destruct (JS.arrayIncludes _ _); [discriminate |].
      destruct (AppDatabase.courses d !! ScrapedCourse.id x); congruence.
  - intros k Hk. rewrite Hco. now apply processCourses_kept.
Qed.

(** X14, at the same rejected sync. *)
Lemma sync_rejection_witness :
  mathListedTwice = Rejected Dexie.ConstraintError (dbOf mathListedTwice)
  /\ forall k, is_Some (AppDatabase.courses AppDatabase.empty !! k) ->
               is_Some (AppDatabase.courses (dbOf mathListedTwice) !! k).
Proof.
  assert (H : mathListedTwice
              = Rejected Dexie.ConstraintError (dbOf mathListedTwice))
    by (vm_compute; reflexivity).
  split; [exact H |].
  exact (proj2 (proj2 (sync_rejection firstSync firstSync
                  (SchoologyScraper.scrapeAllData [mathFetched; mathFetched]).1
                  (SchoologyScraper.scrapeAllData [mathFetched; mathFetched]).2
                  AppDatabase.empty (dbOf mathListedTwice)
                  Dexie.ConstraintError H))).
Defined.

End SyncCourses.

(** ** Events added by a scrape sync *)

Section SyncAdds.
Import SyncService.

(** An id that the map of existing events registers is the key of a
    stored row, in a table whose rows are stored under their ids. *)
Lemma registered_id_stored (t : gmap string CalendarEvent.t)
    (key j : string) :
  map_Forall (fun k e => CalendarEvent.id e = k) t ->
  existingEventMapOf (Dexie.toArray t) !! key = Some j ->
  is_Some (t !! j).
Proof.
  intros Hkeyed H. apply existingEventMap_sound in H.
  destruct H as (k & e & Hk & _ & Hid).
  pose proof (Hkeyed k e Hk) as Hk'. simpl in Hk'.
  rewrite <- Hid, Hk'. eauto.
Qed.

(** X15. A sync that completes stores each scraped event that matched no
    stored event as a new row under the id generated at its position, an
    id that was not in use before the sync.  The row has the scraped
    title, description, type, course id and course name, a colour of the
    palette, [isAllDay] set, an empty location, no recurrence, and as
    [rawIcsData] the JSON text of the scraped event, in which quotes,
    backslashes and control characters are escaped; where the due date is
    written in the [toISOString] format the row is the whole of
    [calendarEventOf], dates and status included.  Every scraped event
    with such a due date matches no stored event, whatever is stored. *)
Theorem sync_stores_unmatched (ambCourses ambEvents : Ambient)
    (courses : list ScrapedCourse.t) (events : list ScrapedEvent.t)
    (db db' : AppDatabase.t) :
  SyncLoop.keyed db ->
  processScrapedData ambCourses ambEvents courses events db
  = Fulfilled tt db' ->
  (forall i d,
      events !! i = Some d ->
      JS.or_undefined
        (existingEventMapOf (Dexie.toArray (AppDatabase.events db))
           !! keyOfScraped d) = None ->
      AppDatabase.events db !! uniqueId ambEvents i = None
      /\ exists e,
           AppDatabase.events db' !! uniqueId ambEvents i = Some e
           /\ CalendarEvent.id e = uniqueId ambEvents i
           /\ CalendarEvent.title e = ScrapedEvent.title d
           /\ CalendarEvent.description e = ScrapedEvent.description d
           /\ CalendarEvent.eventType e = ScrapedEvent.type d
           /\ CalendarEvent.courseId e = ScrapedEvent.courseId d
           /\ CalendarEvent.courseName e = ScrapedEvent.courseName d
           /\ In (CalendarEvent.courseColor e) colorPalette
           /\ CalendarEvent.isAllDay e = true
           /\ CalendarEvent.location e = Some ""
           /\ CalendarEvent.recurrence e = None
           /\ CalendarEvent.rawIcsData e
              = Some ("{" +:+ property "title" (ScrapedEvent.title d)
                      +:+ "," +:+ property "description"
                                    (ScrapedEvent.description d)
                      +:+ "," +:+ property "dueDate" (ScrapedEvent.dueDate d)
                      +:+ "," +:+ property "courseId"
                                    (ScrapedEvent.courseId d)
                      +:+ "," +:+ property "courseName"
                                    (ScrapedEvent.courseName d)
                      +:+ "," +:+ property "type"
                                    (typeName (ScrapedEvent.type d))
                      +:+ "}")
           /\ (forall ms,
                 JSDate.parse (ScrapedEvent.dueDate d) = Instant ms ->
                 CalendarEvent.startDate e = Instant ms
                 /\ CalendarEvent.endDate e = Instant ms
                 /\ CalendarEvent.status e
                    = (if (ms <? now ambEvents i)%Z then OVERDUE
                       else UPCOMING)))
  /\ (forall i d,
        events !! i = Some d ->
        JSDate.parse (ScrapedEvent.dueDate d) <> InvalidDate ->
        JS.or_undefined
          (existingEventMapOf (Dexie.toArray (AppDatabase.events db))
             !! keyOfScraped d) = None
        /\ AppDatabase.events db' !! uniqueId ambEvents i
           = Some (calendarEventOf ambEvents i None d)).
Proof.
  intros Hkeyed Hrun.
  set (t0 := AppDatabase.events db) in *.
  set (m := existingEventMapOf (Dexie.toArray t0)) in *.
  assert (Hmain : forall i d,
             events !! i = Some d ->
             JS.or_undefined (m !! keyOfScraped d) = None ->
             t0 !! uniqueId ambEvents i = None
             /\ AppDatabase.events db' !! uniqueId ambEvents i
                = Some (calendarEventOf ambEvents i None d)).
  { rewrite processScrapedData_steps in Hrun.
    pose proof (processCourses_events ambCourses
                  (map Course.id (Dexie.toArray (AppDatabase.courses db)))
                  0 courses db) as Hc.
    destruct (forEachFrom (processCourse _ _) 0 courses tt db)
      as [u dbc | errc dbc]; [| discriminate].
    cbn [dbOf] in Hc. cbv zeta in Hrun. rewrite Hc in Hrun.
    fold t0 in Hrun, Hc. fold m in Hrun.
    pose proof (forEachFrom_indexed (processEvent ambEvents m)
                  (fun _ => True) events 0
                  (fun n (_ : gset string) dbe =>
                     (forall k, is_Some (t0 !! k) ->
                                is_Some (AppDatabase.events dbe !! k))
                     /\ forall i d,
                          i < n ->
                          events !! i = Some d ->
                          JS.or_undefined (m !! keyOfScraped d) = None ->
                          t0 !! uniqueId ambEvents i = None
                          /\ AppDatabase.events dbe !! uniqueId ambEvents i
                             = Some (calendarEventOf ambEvents i None d)))
      as Hloop.
    cbv beta in Hloop.
    assert (Hstep : forall n x (s : gset string) dbe,
               events !! n = Some x ->
               (forall k, is_Some (t0 !! k) ->
                          is_Some (AppDatabase.events dbe !! k))
               /\ (forall i d,
                     i < n ->
                     events !! i = Some d ->
                     JS.or_undefined (m !! keyOfScraped d) = None ->
                     t0 !! uniqueId ambEvents i = None
                     /\ AppDatabase.events dbe !! uniqueId ambEvents i
                        = Some (calendarEventOf ambEvents i None d)) ->
               match processEvent ambEvents m (0 + n) x s dbe with
               | Fulfilled _ dbe' =>
                   (forall k, is_Some (t0 !! k) ->
                              is_Some (AppDatabase.events dbe' !! k))
                   /\ (forall i d,
                         i < S n ->
                         events !! i = Some d ->
                         JS.or_undefined (m !! keyOfScraped d) = None ->
                         t0 !! uniqueId ambEvents i = None
                         /\ AppDatabase.events dbe' !! uniqueId ambEvents i
                            = Some (calendarEventOf ambEvents i None d))
               | Rejected _ _ => True
               end).
    { intros n x s dbe Hx [Hkeep Hnew]. cbn [Nat.add].
      pose proof (processEvent_cases ambEvents m n x s dbe) as Hcases.
      cbv zeta in Hcases.
      destruct (JS.or_undefined (m !! keyOfScraped x)) as [j |] eqn:Hj.
      - rewrite Hcases.
        cbn [AppDatabase.events AppDatabase.withEvents].
        assert (Hjs : is_Some (t0 !! j)).
        { apply or_undefined_Some in Hj. destruct Hj as [Hj _].
          exact (registered_id_stored t0 _ j Hkeyed Hj). }
        split.
        + intros k Hk. rewrite lookup_alter.
          destruct (decide (j = k)) as [-> | _]; [| now apply Hkeep].
          apply fmap_is_Some. now apply Hkeep.
        + intros i d Hi Hd Hun.
          assert (Hlt : i < n).
          { destruct (decide (i = n)) as [-> | Hne]; [| lia].
            rewrite Hx in Hd. injection Hd as <-. congruence. }
          destruct (Hnew i d Hlt Hd Hun) as [Hfree Hrow].
          split; [exact Hfree |].
          rewrite lookup_alter_ne; [exact Hrow |].
          intros ->. rewrite Hfree in Hjs. now destruct Hjs.
      - destruct (AppDatabase.events dbe !! uniqueId ambEvents n) as [old |]
          eqn:Hold; rewrite Hcases; [exact I |].
        cbn [AppDatabase.events AppDatabase.withEvents].
        split.
        + intros k Hk. rewrite lookup_insert.
          destruct (decide (uniqueId ambEvents n = k)); [eauto |].
          now apply Hkeep.
        + intros i d Hi Hd Hun.
          destruct (decide (i = n)) as [-> | Hne].
          * rewrite Hx in Hd. injection Hd as <-.
            rewrite lookup_insert_eq. split; [| reflexivity].
            destruct (t0 !! uniqueId ambEvents n) eqn:Ht; [| reflexivity].
            destruct (Hkeep (uniqueId ambEvents n)) as [e He]; [eauto |].
            congruence.
          * destruct (Hnew i d ltac:(lia) Hd Hun) as [Hfree Hrow].
            split; [exact Hfree |].
            rewrite lookup_insert_ne; [exact Hrow |].
            intros Heq. rewrite Heq in Hold. congruence. }
    specialize (Hloop Hstep ∅ dbc).
    destruct (forEachFrom (processEvent ambEvents m) 0 events ∅ dbc)
      as [seen dbe | erre dbe]; [| discriminate].
    destruct Hloop as [_ Hnew].
    { split; [intros k Hk; now rewrite Hc | intros i d Hi; lia]. }
    injection Hrun as <-. intros i d Hd Hun.
    destruct (Hnew i d) as [Hfree Hrow];
      [apply lookup_lt_Some in Hd; exact Hd | exact Hd | exact Hun |].
    split; [exact Hfree |].
    destruct (0 <? length (eventIdsToDeleteOf m seen))%nat; [| exact Hrow].
    cbn [AppDatabase.events AppDatabase.withEvents].
    rewrite bulkDelete_lookup, decide_False; [exact Hrow |].
    rewrite eventIdsToDelete_elem. intros ((key & Hreg) & _).
    pose proof (registered_id_stored t0 _ _ Hkeyed Hreg) as Hs.
    rewrite Hfree in Hs. now destruct Hs. }
  split.
  - intros i d Hd Hnone. destruct (Hmain i d Hd Hnone) as [Hfree Hrow].
    split; [exact Hfree |].
    exists (calendarEventOf ambEvents i None d).
    split; [exact Hrow |].
    repeat match goal with |- _ /\ _ => split end; try reflexivity.
    + cbn. unfold JS.or_else.
      destruct (ScrapedEvent.description d); reflexivity.
    + apply paletteAt_In.
    + intros ms Hms.
      cbn [calendarEventOf CalendarEvent.startDate CalendarEvent.endDate
           CalendarEvent.status].
      rewrite Hms. repeat split.
  - intros i d Hd Hdate.
    destruct (dated_event_never_matches t0 ambEvents i d Hdate) as [Hnone _].
    fold m in Hnone.
    assert (Hu : JS.or_undefined (m !! keyOfScraped d) = None)
      by now rewrite Hnone.
    split; [exact Hu |]. apply Hmain; assumption.
Qed.

(** X15, at the first sync of Math: the homework is stored under the id
    generated for position 0. *)
Lemma sync_stores_unmatched_witness :
  JS.or_undefined
    (existingEventMapOf (Dexie.toArray (AppDatabase.events AppDatabase.empty))
       !! "101-HW 1-2024-03-12T00:00:00.000Z") = None
  /\ AppDatabase.events afterFirstSync !! "event-sync1-0"
     = Some (calendarEventOf firstSync 0 None
               {| ScrapedEvent.title := "HW 1";
                  ScrapedEvent.description := "";
                  ScrapedEvent.dueDate := "2024-03-12T00:00:00.000Z";
                  ScrapedEvent.courseId := "101";
                  ScrapedEvent.courseName := "Math";
                  ScrapedEvent.type := ASSIGNMENT |}).
Proof.
  refine (proj2 (sync_stores_unmatched firstSync firstSync
                   (SchoologyScraper.scrapeAllData [mathFetched]).1
                   (SchoologyScraper.scrapeAllData [mathFetched]).2
                   AppDatabase.empty afterFirstSync keyed_empty _)
                0 _ eq_refl _).
  - vm_compute. reflexivity.
  - vm_compute. discriminate.
Defined.

End SyncAdds.

(** ** What the scraper hands to the sync *)

Section ScraperData.
Import SchoologyScraper.

Lemma getCourseCalendar_length (courseId courseName : string) (f : Fetch) :
  length (getCourseCalendar courseId courseName f)
  = match f with
    | FetchThrows _ => 0
    | FetchFinds items => length items
    end.
Proof. destruct f; [reflexivity | apply length_map]. Qed.

(** X16. [scrapeAllData] lists every enrolled course once, in order, with
    its id and name and with the number of events found on its page, which
    is 0 when the page could not be fetched; the counts add up to the
    number of events returned, and every event returned carries the id and
    the name of an enrolled course whose page was fetched. *)
Theorem scrapeAllData_counts (enrolled : list Enrolled) :
  let courseData := (scrapeAllData enrolled).1 in
  let allEvents := (scrapeAllData enrolled).2 in
  Forall2 (fun course data =>
             ScrapedCourse.id data = id course
             /\ ScrapedCourse.name data = name course
             /\ ScrapedCourse.eventCount data
                = match fetch course with
                  | FetchThrows _ => 0
                  | FetchFinds items => length items
                  end)
          enrolled courseData
  /\ list_sum (map ScrapedCourse.eventCount courseData) = length allEvents
  /\ forall event,
       In event allEvents ->
       exists course items item,
         In course enrolled
         /\ fetch course = FetchFinds items
         /\ In item items
         /\ ScrapedEvent.courseId event = id course
         /\ ScrapedEvent.courseName event = name course
         /\ ScrapedEvent.title event = title item
         /\ ScrapedEvent.dueDate event = dueDate item.
Proof.
  cbv zeta. induction enrolled as [| course rest IH].
  - simpl. split; [constructor | split; [reflexivity | tauto]].
  - cbn [scrapeAllData].
    destruct (scrapeAllData rest) as [courseData allEvents].
    cbn [fst snd] in *. destruct IH as (Hall & Hsum & Hev).
    split; [| split].
    + constructor; [| exact Hall]. cbn.
      rewrite getCourseCalendar_length. auto.
    + cbn [map list_sum fold_right ScrapedCourse.eventCount].
      change (fold_right Nat.add 0 (map ScrapedCourse.eventCount courseData))
        with (list_sum (map ScrapedCourse.eventCount courseData)).
      rewrite length_app, Hsum. reflexivity.
    + intros event Hin. apply in_app_iff in Hin. destruct Hin as [Hin | Hin].
      * destruct (fetch course) as [err | items] eqn:Hf; [destruct Hin |].
        cbn [getCourseCalendar] in Hin. apply in_map_iff in Hin.
        destruct Hin as (item & <- & Hitem).
        exists course, items, item. cbn. auto 10.
      * destruct (Hev event Hin) as (c & items & item & Hc & Hrest).
        exists c, items, item. split; [now right | exact Hrest].
Qed.

End ScraperData.

(** ** Events and their courses *)

Section ImportIntegrity.
Import ImportComponent.

Lemma gather_event_course (outer : Ambient) (j : nat) (parsed : list Parsed)
    (ev : CalendarEvent.t) :
  (forall file courseId courseName courseColor evs e,
      In (ParseSucceeded file courseId courseName courseColor evs) parsed ->
      In e evs ->
      CalendarEvent.courseId e = courseId
      /\ CalendarEvent.courseName e = courseName
      /\ CalendarEvent.courseColor e = courseColor) ->
  In ev (gather outer j parsed).1.2 ->
  exists course,
    In course (gather outer j parsed).1.1
    /\ Course.id course = CalendarEvent.courseId ev
    /\ Course.name course = CalendarEvent.courseName ev
    /\ Course.color course = CalendarEvent.courseColor ev.
Proof.
  revert j. induction parsed as [| p rest IH]; intros j Hp; simpl; [tauto |].
  specialize (IH (S j)).
  destruct (gather outer (S j) rest) as [[cs es] rs]. cbn [fst snd] in *.
  assert (Hrest : forall file courseId courseName courseColor evs e,
             In (ParseSucceeded file courseId courseName courseColor evs)
                rest ->
             In e evs ->
             CalendarEvent.courseId e = courseId
             /\ CalendarEvent.courseName e = courseName
             /\ CalendarEvent.courseColor e = courseColor).
  { intros f a b c l e Hin. apply (Hp f a b c l e). now right. }
  destruct p as [file cid cn cc evs | file err]; cbn [fst snd].
  - rewrite in_app_iff. intros [H | H].
    + destruct (Hp file cid cn cc evs ev (or_introl eq_refl) H)
        as (H1 & H2 & H3).
      eexists. split; [left; reflexivity |]. cbn. auto.
    + destruct (IH Hrest H) as (course & Hin & Hc).
      exists course. split; [now right | exact Hc].
  - intros H. exact (IH Hrest H).
Qed.

(** X17. Every event that an import writes belongs to a course of the
    same import: when the import ends without the failure notice, a course
    is stored under the event's [courseId], and it has the name and the
    colour that the event carries. *)
Theorem imported_event_has_course (outer : Ambient)
    (inner : nat -> Ambient) (selectedFiles : list File)
    (db db' : AppDatabase.t) (report : list ImportResult.t) :
  processFiles outer inner selectedFiles db = Fulfilled (report, None) db' ->
  forall ev,
    In ev (gather outer 0 (parseFiles outer inner 0 selectedFiles)).1.2 ->
    exists course,
      AppDatabase.courses db' !! CalendarEvent.courseId ev = Some course
      /\ Course.id course = CalendarEvent.courseId ev
      /\ Course.name course = CalendarEvent.courseName ev
      /\ Course.color course = CalendarEvent.courseColor ev.
Proof.
  rewrite processFiles_run. cbv zeta. intros Hrun ev Hev.
  apply gather_event_course in Hev.
  2: { intros f a b c l e Hp He. apply parseFiles_in in Hp.
       destruct Hp as (k & file & _ & Hp). symmetry in Hp.
       apply parseFile_events in Hp.
       destruct Hp as (? & ? & _ & _ & _ & _ & _ & -> & _).
       apply convert_events_from in He. destruct He as (i & entry & _ & ->).
       cbn. auto. }
  pose proof (gather_no_course outer 0
                (parseFiles outer inner 0 selectedFiles)) as Hnone.
  destruct (gather outer 0 (parseFiles outer inner 0 selectedFiles))
    as [[cs es] rs].
  cbn [fst snd] in *.
  pose proof (save_outcome cs es db Hnone) as Hsave. cbv zeta in Hsave.
  destruct (save cs es db) as [u db1 | err db1]; [| discriminate].
  injection Hrun as _ <-.
  destruct Hsave as (_ & _ & _ & Hrows).
  destruct Hev as (course & Hin & Hid & Hname & Hcolor).
  exists course. split; [| auto].
  apply Hrows. right. auto.
Qed.

(** X17, at the essay of the first import. *)
Lemma imported_event_has_course_witness :
  exists course,
    AppDatabase.courses (afterFirstImport englishFile) !! "run1-0"
    = Some course
    /\ Course.id course = "run1-0"
    /\ Course.name course = "English"
    /\ Course.color course = "#FF6B6B".
Proof.
  refine (imported_event_has_course firstRun (fun _ => firstRunEntries)
            [englishFile] AppDatabase.empty (afterFirstImport englishFile)
            _ eq_refl
            (IcsParserService.transformToCalendarEvent
               1709942400000 "event-run1-0" essayEntry "run1-0" "English"
               "#FF6B6B") _).
  vm_compute. auto.
Defined.

End ImportIntegrity.

(** ** Selected files and course names *)

Section SelectedFiles.
Import FileUploadService.

(** X18. [validateIcsFile] accepts a file exactly when the lower-cased
    text from the last dot of its name is [.ics] or [.ical], its size is
    between 1 byte and 5 MiB, and its MIME type is empty, [text/calendar]
    or [application/ics]; an error is reported exactly for the files it
    refuses, the extension being checked first.  [handleFiles] appends to
    the selection the files it accepts, in their order, and no other. *)
Theorem validateIcsFile_accepts (file : FileInfo) :
  (valid (validateIcsFile file) = true
   <-> In (getFileExtension (name file)) [".ics"; ".ical"]
       /\ (0 < size file <= 5242880)%N
       /\ In (type file) ["text/calendar"; "application/ics"; ""])
  /\ (valid (validateIcsFile file) = true
      <-> error (validateIcsFile file) = None)
  /\ (isIcsFile (name file) = false ->
      error (validateIcsFile file)
      = Some ("Invalid file type. Only .ics or .ical files are allowed. Got: "
              +:+ getFileExtension (name file)))
  /\ forall (F : Type) (info : F -> FileInfo) (files selectedFiles : list F),
       Selection.handleFiles info files selectedFiles
       = (selectedFiles
          ++ List.filter (fun f => valid (validateIcsFile (info f))) files)%list.
Proof.
  unfold validateIcsFile, isIcsFile.
  pose proof (arrayIncludes_In ALLOWED_EXTENSIONS
                (getFileExtension (name file))) as Hext.
  pose proof (arrayIncludes_In ALLOWED_MIME_TYPES (type file)) as Hmime.
  change ALLOWED_EXTENSIONS with [".ics"; ".ical"] in Hext |- *.
  change ALLOWED_MIME_TYPES with ["text/calendar"; "application/ics"; ""]
    in Hmime |- *.
  split; [| split; [| split]].
  - destruct (JS.arrayIncludes [".ics"; ".ical"] _); cbn [negb].
    2: { cbn [valid]. split; [discriminate |].
         intros (H & _). apply Hext in H. discriminate. }
    destruct (N.ltb_spec MAX_FILE_SIZE (size file)) as [Hbig | Hmax].
    { cbn [valid]. split; [discriminate |]. unfold MAX_FILE_SIZE in Hbig.
      intros (_ & H & _). lia. }
    destruct (N.eqb_spec (size file) 0) as [Hzero | Hpos].
    { cbn [valid]. split; [discriminate |]. intros (_ & H & _). lia. }
    unfold MAX_FILE_SIZE in Hmax.
    destruct (String.eqb_spec (type file) "") as [Hty | Hty]; cbn [negb andb].
    { cbn [valid]. split; [| reflexivity]. intros _.
      split; [now apply Hext |]. split; [lia |]. rewrite Hty. simpl. auto. }
    destruct (JS.arrayIncludes _ (type file)); cbn [negb valid].
    + split; [| reflexivity]. intros _.
      split; [now apply Hext |]. split; [lia |]. now apply Hmime.
    + split; [discriminate |]. intros (_ & _ & H). apply Hmime in H.
      discriminate.
  - destruct (JS.arrayIncludes [".ics"; ".ical"] _); cbn [negb];
      [| cbn; split; discriminate].
    destruct (MAX_FILE_SIZE <? size file)%N; [cbn; split; discriminate |].
    destruct (size file =? 0)%N; [cbn; split; discriminate |].
    destruct (negb (String.eqb (type file) "")
              && negb (JS.arrayIncludes _ (type file)));
      cbn; split; congruence.
  - intros ->. reflexivity.
  - intros F info files selectedFiles. unfold Selection.handleFiles.
    change (fun file0 : F =>
              valid
                (let ext := getFileExtension (name (info file0)) in
                 if negb (JS.arrayIncludes [".ics"; ".ical"] ext)
                 then _ else _))
      with (fun f : F => valid (validateIcsFile (info f))).
    destruct (List.filter _ files) as [| f rest]; cbn [length Nat.ltb Nat.leb].
    + now rewrite app_nil_r.
    + reflexivity.
Qed.

Lemma substring_all (s : string) : String.substring 0 (String.length s) s = s.
Proof. induction s as [| c r IH]; [reflexivity | simpl; now rewrite IH]. Qed.

Lemma lastChar_suffix (s : string) (k : nat) :
  String.substring k (String.length s - k) s <> "" ->
  Text.lastChar (String.substring k (String.length s - k) s)
  = Text.lastChar s.
Proof.
  revert k. induction s as [| c r IH]; intros k.
  - destruct k; simpl; congruence.
  - destruct k as [| k].
    + intros _. change (String.length (String c r) - 0)
        with (String.length (String c r)).
      now rewrite substring_all.
    + change (String.substring (S k) (String.length (String c r) - S k)
                (String c r))
        with (String.substring k (String.length r - k) r).
      intros Hne. rewrite (IH k Hne). symmetry. apply lastChar_cons.
      intros ->. destruct k; simpl in Hne; congruence.
Qed.

Lemma lastChar_toLowerCase (s : string) :
  Text.lastChar (JS.toLowerCase s) = option_map JS.lower (Text.lastChar s).
Proof.
  induction s as [| c r IH]; [reflexivity |].
  destruct r as [| c' r']; [reflexivity |].
  change (Text.lastChar (JS.toLowerCase (String c' r'))
          = option_map JS.lower (Text.lastChar (String c' r'))).
  exact IH.
Qed.

Lemma length_toLowerCase (s : string) :
  String.length (JS.toLowerCase s) = String.length s.
Proof. induction s as [| c r IH]; [reflexivity | simpl; now rewrite IH]. Qed.

Lemma endsWith_lastChar (s suffix : string) :
  suffix <> "" ->
  IcsParserService.endsWith s suffix = true ->
  Text.lastChar s = Text.lastChar suffix.
Proof.
  intros Hne. unfold IcsParserService.endsWith.
  intros H. apply andb_true_iff in H. destruct H as [Hlen Heq].
  apply Nat.leb_le in Hlen. apply String.eqb_eq in Heq.
  pose proof (lastChar_suffix s (String.length s - String.length suffix))
    as H.
  replace (String.length s - (String.length s - String.length suffix))
    with (String.length suffix) in H by lia.
  rewrite Heq in H. symmetry. now apply H.
Qed.

(** X19. A file whose extension is [.ical] passes the extension check of
    the validation, but its name never yields a course name: unless the
    document has a calendar name, the course is called [Unnamed Course],
    because the pattern that reads the file name asks for [.ics]. *)
Theorem ical_file_is_unnamed (fileName : string) (calname : option string)
    (vevents : list ICAL.VEvent) :
  getFileExtension fileName = ".ical" ->
  JS.or_undefined calname = None ->
  isIcsFile fileName = true
  /\ IcsParserService.extractCourseName (ICAL.Component calname vevents)
                                        fileName
     = "Unnamed Course".
Proof.
  intros Hext Hcal. split; [unfold isIcsFile; now rewrite Hext |].
  unfold IcsParserService.extractCourseName. rewrite Hcal.
  assert (Hlast : Text.lastChar (JS.toLowerCase fileName) = Some "l"%char).
  { unfold getFileExtension in Hext.
    destruct (lastIndexOfDot 0 fileName) as [lastDot |]; [| discriminate].
    rewrite lastChar_toLowerCase, <- (lastChar_suffix fileName lastDot).
    - now rewrite <- lastChar_toLowerCase, Hext.
    - intros E. rewrite E in Hext. discriminate. }
  unfold IcsParserService.matchFileName.
  destruct (JS.includes fileName _ || JS.includes fileName _);
    [reflexivity |].
  destruct (IcsParserService.endsWith (JS.toLowerCase fileName)
              "-calendar.ics") eqn:H1.
  { apply endsWith_lastChar in H1; [| discriminate].
    rewrite Hlast in H1. discriminate. }
  destruct (IcsParserService.endsWith (JS.toLowerCase fileName) ".ics")
    eqn:H2.
  { apply endsWith_lastChar in H2; [| discriminate].
    rewrite Hlast in H2. discriminate. }
  reflexivity.
Qed.

(** X19, at the file name [math-101.ical]. *)
Lemma ical_file_is_unnamed_witness :
  isIcsFile "math-101.ical" = true
  /\ IcsParserService.extractCourseName (ICAL.Component None [])
                                        "math-101.ical"
     = "Unnamed Course".
Proof.
  exact (ical_file_is_unnamed "math-101.ical" None [] eq_refl eq_refl).
Defined.

Lemma capitalized_nonempty (s : string) :
  s <> "" ->
  IcsParserService.capitalizeWords false
    (IcsParserService.separatorsToSpaces s) <> "".
Proof. destruct s; [congruence | discriminate]. Qed.

Lemma substring_nonempty (s : string) (m : nat) :
  s <> "" -> 0 < m -> String.substring 0 m s <> "".
Proof. destruct s, m; simpl; (congruence || lia || discriminate). Qed.

Lemma substring_prefix (s : string) (m : nat) :
  exists rest, s = String.substring 0 m s +:+ rest.
Proof.
  revert m. induction s as [| c r IH]; intros m.
  - exists "". now destruct m.
  - destruct m as [| m]; [exists (String c r); reflexivity |].
    destruct (IH m) as (rest & Hrest). exists rest.
    change (String c r
            = String c (String.substring 0 m r +:+ rest)).
    now rewrite <- Hrest.
Qed.

(** X20. For a file name of ASCII characters, [extractCourseName] never
    gives the empty name.  It is [Unnamed Course] for a document that
    cannot be parsed; the calendar name when the document has a non-empty
    one; otherwise the stem matched in the file name with its separators
    turned into spaces and its words capitalised, the stem being a
    beginning of the file name of at least one character and the name
    having as many characters as the stem; and [Unnamed Course] when the
    file name has no stem. *)
Theorem extractCourseName_nonempty (icsContent : ICAL.Document)
    (fileName : string) :
  JS.isAscii fileName = true ->
  IcsParserService.extractCourseName icsContent fileName <> ""
  /\ match icsContent with
     | ICAL.Malformed _ =>
         IcsParserService.extractCourseName icsContent fileName
         = "Unnamed Course"
     | ICAL.Component calname _ =>
         match JS.or_undefined calname with
         | Some calName =>
             IcsParserService.extractCourseName icsContent fileName = calName
         | None =>
             match IcsParserService.matchFileName fileName with
             | Some stem =>
                 stem <> ""
                 /\ (exists rest, fileName = stem +:+ rest)
                 /\ IcsParserService.extractCourseName icsContent fileName
                    = IcsParserService.capitalizeWords false
                        (IcsParserService.separatorsToSpaces stem)
                 /\ String.length
                      (IcsParserService.extractCourseName icsContent fileName)
                    = String.length stem
             | None =>
                 IcsParserService.extractCourseName icsContent fileName
                 = "Unnamed Course"
             end
         end
     end.
Proof.
  intros _.
  assert (Hstem : forall stem,
             IcsParserService.matchFileName fileName = Some stem ->
             stem <> "" /\ exists rest, fileName = stem +:+ rest).
  { unfold IcsParserService.matchFileName. intros stem.
    destruct (JS.includes fileName _ || JS.includes fileName _);
      [discriminate |].
    destruct (IcsParserService.endsWith _ "-calendar.ics"
              && (13 <? String.length fileName)%nat) eqn:H1.
    { apply andb_true_iff in H1. destruct H1 as [_ H1].
      apply Nat.ltb_lt in H1. intros [= <-]. split.
      - apply substring_nonempty; [| lia].
        intros ->. simpl in H1. lia.
      - apply substring_prefix. }
    destruct (IcsParserService.endsWith _ ".ics"
              && (4 <? String.length fileName)%nat) eqn:H2; [| discriminate].
    apply andb_true_iff in H2. destruct H2 as [_ H2].
    apply Nat.ltb_lt in H2. intros [= <-]. split.
    - apply substring_nonempty; [| lia].
      intros ->. simpl in H2. lia.
    - apply substring_prefix. }
  assert (Hlen : forall b s,
             String.length
               (IcsParserService.capitalizeWords b
                  (IcsParserService.separatorsToSpaces s))
             = String.length s).
  { intros b s. revert b. induction s as [| c r IH]; intros b;
      [reflexivity |].
    cbn [IcsParserService.separatorsToSpaces
         IcsParserService.capitalizeWords String.length].
    now rewrite IH. }
  unfold IcsParserService.extractCourseName.
  destruct icsContent as [err | calname vevents];
    [split; [discriminate | reflexivity] |].
  destruct (JS.or_undefined calname) as [calName |] eqn:Hcal.
  - split; [| reflexivity]. apply or_undefined_Some in Hcal. tauto.
  - destruct (IcsParserService.matchFileName fileName) as [stem |] eqn:Hm;
      [| split; [discriminate | reflexivity]].
    destruct (Hstem stem eq_refl) as [Hne Hpre].
    split; [now apply capitalized_nonempty |].
    split; [exact Hne |]. split; [exact Hpre |].
    split; [reflexivity | apply Hlen].
Qed.

(** X20, at the file name [math-101-Calendar.ics] of a document without a
    calendar name. *)
Lemma extractCourseName_nonempty_witness :
  JS.isAscii "math-101-Calendar.ics" = true
  /\ IcsParserService.extractCourseName (ICAL.Component None [])
                                        "math-101-Calendar.ics" <> "".
Proof.
  split; [reflexivity |].
  exact (proj1 (extractCourseName_nonempty (ICAL.Component None [])
                  "math-101-Calendar.ics" eq_refl)).
Defined.

End SelectedFiles.

(** ** The subjects of the event manager *)

Section ManagerSubjects.
Import Subjects.

(** X21. The subjects follow the tables.  [loadData] and [importData]
    bring them in line with the database whatever they held; every other
    writing method, started with subjects that hold what the tables hold,
    ends with subjects that hold what the tables hold; and a method that is
    rejected has written neither a table nor a subject. *)
Theorem subjects_follow_tables :
  let keeps (method : Method unit) :=
    forall s db,
      inSync s db ->
      match method s db with
      | Fulfilled (_, s') db' => inSync s' db'
      | Rejected _ db' => db' = db
      end in
  (forall s db,
      exists s', loadData s db = Fulfilled (tt, s') db
                 /\ inSync s' db
                 /\ loading s' = false
                 /\ activeCourseIds s' = map Course.id (courses s'))
  /\ (forall data s db,
        exists s' db', importData data s db = Fulfilled (tt, s') db'
                       /\ inSync s' db')
  /\ (forall event, keeps (addEvent event))
  /\ (forall evs, keeps (addEvents evs))
  /\ (forall id changes, keeps (updateEvent id changes))
  /\ (forall id, keeps (deleteEvent id))
  /\ (forall id, keeps (markEventCompleted id))
  /\ (forall course, keeps (addCourse course))
  /\ (forall id changes, keeps (updateCourse id changes))
  /\ (forall id, keeps (deleteCourse id))
  /\ keeps clearAllData.
Proof.
  cbv zeta. unfold inSync.
  split; [| split].
  - intros s db. eexists. split; [reflexivity |]. cbn. auto.
  - intros data s db. eexists _, _. split; [reflexivity |]. cbn. auto.
  - repeat match goal with |- _ /\ _ => split end;
      intros; repeat match goal with H : _ /\ _ |- _ => destruct H end.
    + unfold addEvent, StorageService.addEvent, await, Dexie.add.
      destruct (AppDatabase.events db !! CalendarEvent.id event);
        [reflexivity |].
      cbn. auto.
    + cbn. auto.
    + cbn. auto.
    + cbn. auto.
    + cbn. auto.
    + unfold addCourse, StorageService.addCourse, await, Dexie.add.
      destruct (AppDatabase.courses db !! Course.id course);
        [reflexivity |].
      cbn. auto.
    + cbn. auto.
    + cbn. auto.
    + cbn. rewrite !toArray_empty. auto.
Qed.

Lemma filteredEvents_In (s : t) (e : CalendarEvent.t) :
  In e (filteredEvents s)
  <-> In e (events s)
      /\ (activeCourseIds s = []
          \/ In (CalendarEvent.courseId e) (activeCourseIds s)).
Proof.
  unfold filteredEvents. destruct (activeCourseIds s) as [| c rest] eqn:Ha.
  - simpl. tauto.
  - cbn [length Nat.eqb]. rewrite filter_In, arrayIncludes_In.
    split; [intros [H1 H2]; auto | intros [H1 [H2 | H2]]; [discriminate | auto]].
Qed.

Lemma filter_all {A : Type} (p : A -> bool) (l : list A) :
  (forall x, In x l -> p x = true) -> List.filter p l = l.
Proof.
  induction l as [| x rest IH]; intros H; [reflexivity |].
  simpl. rewrite (H x (or_introl eq_refl)), IH; [reflexivity |].
  intros y Hy. apply H. now right.
Qed.

(** X22. What the views show.  An event is shown when its course is in
    the list of active ids, and every event is shown when that list is
    empty.  So [hideAllCourses] hides nothing: after it all events are
    shown, as they are after [showAllCourses] when every event belongs to
    a listed course; and switching off the only active course shows the
    events of every course. *)
Theorem filteredEvents_shows (s : t) :
  (forall e,
      In e (filteredEvents s)
      <-> In e (events s)
          /\ (activeCourseIds s = []
              \/ In (CalendarEvent.courseId e) (activeCourseIds s)))
  /\ filteredEvents (hideAllCourses s) = events s
  /\ ((forall e, In e (events s) ->
                 exists c, In c (courses s)
                           /\ Course.id c = CalendarEvent.courseId e) ->
      filteredEvents (showAllCourses s) = events s)
  /\ (forall courseId,
        activeCourseIds s = [courseId] ->
        filteredEvents (toggleCourseFilter courseId s) = events s).
Proof.
  split; [apply filteredEvents_In |]. split; [reflexivity |]. split.
  - intros Hall. unfold filteredEvents, showAllCourses.
    cbn [activeCourseIds events nextActiveCourseIds].
    destruct (length (map Course.id (courses s)) =? 0)%nat; [reflexivity |].
    apply filter_all. intros e He. apply arrayIncludes_In, in_map_iff.
    destruct (Hall e He) as (c & Hc & Hid). eauto.
  - intros courseId Ha. unfold filteredEvents, toggleCourseFilter.
    cbn [activeCourseIds events nextActiveCourseIds].
    rewrite Ha. unfold EventManagerService.toggleCourseFilter.
    cbn [JS.arrayIncludes existsb]. rewrite String.eqb_refl.
    cbn [orb List.filter]. rewrite String.eqb_refl. reflexivity.
Qed.

(** X23. Deleting a course through the manager removes the course and its
    events from the tables and from the subjects, and takes its id out of
    the active list, the other ids staying in their order.  When the
    course was the only active one, the list is then empty and the events
    of all remaining courses are shown. *)
Theorem deleteCourse_subjects (id : string) (s : t) (db : AppDatabase.t) :
  inSync s db ->
  exists s' db',
    deleteCourse id s db = Fulfilled (tt, s') db'
    /\ db' = dbOf (StorageService.deleteCourse id true db)
    /\ inSync s' db'
    /\ activeCourseIds s'
       = List.filter (fun cid => negb (String.eqb cid id))
                     (activeCourseIds s)
    /\ (forall e, In e (events s') -> CalendarEvent.courseId e <> id)
    /\ getEventCountByCourse id s' = 0
    /\ (activeCourseIds s = [id] -> filteredEvents s' = events s').
Proof.
  intros [Hev Hco]. eexists _, _. split; [reflexivity |].
  split; [reflexivity |].
  assert (Hrows : forall e,
             In e (Dexie.toArray
                     (Dexie.whereDelete
                        (fun e0 => String.eqb (CalendarEvent.courseId e0) id)
                        (AppDatabase.events db))) ->
             CalendarEvent.courseId e <> id).
  { intros e He. apply list_elem_of_In, toArray_elem in He.
    destruct He as (k & Hk). unfold Dexie.whereDelete in Hk.
    apply map_lookup_filter_Some in Hk. destruct Hk as [_ Hk].
    simpl in Hk. now apply String.eqb_neq. }
  split; [split; reflexivity |].
  split; [reflexivity |].
  split; [exact Hrows |].
  split.
  - unfold getEventCountByCourse.
    cbn [events nextActiveCourseIds nextEvents nextCourses snd].
    cbn [dbOf StorageService.deleteCourse].
    rewrite filter_none; [reflexivity |].
    intros e He. apply String.eqb_neq. now apply Hrows.
  - intros Ha. unfold filteredEvents.
    cbn [activeCourseIds nextActiveCourseIds nextEvents nextCourses snd].
    rewrite Ha. cbn [List.filter]. rewrite String.eqb_refl. reflexivity.
Qed.

(** X23, at the course of the first import, the only active one. *)
Lemma deleteCourse_subjects_witness :
  exists s' db',
    deleteCourse "run1-0"
      {| events := Dexie.toArray
                     (AppDatabase.events (afterFirstImport englishFile));
         courses := Dexie.toArray
                      (AppDatabase.courses (afterFirstImport englishFile));
         activeCourseIds := ["run1-0"];
         loading := false |}
      (afterFirstImport englishFile)
    = Fulfilled (tt, s') db'
    /\ events s' = []
    /\ activeCourseIds s' = [].
Proof.
  destruct (deleteCourse_subjects "run1-0"
              {| events := Dexie.toArray
                             (AppDatabase.events
                                (afterFirstImport englishFile));
                 courses := Dexie.toArray
                              (AppDatabase.courses
                                 (afterFirstImport englishFile));
                 activeCourseIds := ["run1-0"];
                 loading := false |}
              (afterFirstImport englishFile) (conj eq_refl eq_refl))
    as (s' & db' & Hrun & _).
  exists s', db'. split; [exact Hrun |].
  vm_compute in Hrun. injection Hrun as <- _. split; reflexivity.
Defined.

(** X24. Adding a course through the manager is refused when its id is
    stored, and then changes nothing; otherwise the course is stored and
    its id is appended to the active list.  Appended to an empty list,
    which shows every event, it leaves only the events of the new course
    on show. *)
Theorem addCourse_subjects (course : Course.t) (s : t)
    (db : AppDatabase.t) :
  match addCourse course s db with
  | Rejected err db' =>
      is_Some (AppDatabase.courses db !! Course.id course)
      /\ err = Dexie.ConstraintError /\ db' = db
  | Fulfilled (_, s') db' =>
      AppDatabase.courses db !! Course.id course = None
      /\ AppDatabase.courses db'
         = <[Course.id course := course]> (AppDatabase.courses db)
      /\ AppDatabase.events db' = AppDatabase.events db
      /\ courses s' = Dexie.toArray (AppDatabase.courses db')
      /\ events s' = events s
      /\ activeCourseIds s'
         = (activeCourseIds s ++ [Course.id course])%list
      /\ (activeCourseIds s = [] ->
          filteredEvents s'
          = List.filter
              (fun e => String.eqb (CalendarEvent.courseId e)
                                   (Course.id course))
              (events s))
  end.
Proof.
  unfold addCourse, StorageService.addCourse, await, Dexie.add.
  destruct (AppDatabase.courses db !! Course.id course) as [old |] eqn:Hold.
  - split; [eauto | auto].
  - cbn. repeat split. intros Ha. unfold filteredEvents. cbn. rewrite Ha.
    cbn. apply filter_ext. intros e. now rewrite orb_false_r.
Qed.

Lemma lower_idempotent (c : ascii) : JS.lower (JS.lower c) = JS.lower c.
Proof. destruct c as [[] [] [] [] [] [] [] []]; reflexivity. Qed.

Lemma toLowerCase_idempotent (s : string) :
  JS.toLowerCase (JS.toLowerCase s) = JS.toLowerCase s.
Proof.
  induction s as [| c r IH]; [reflexivity |].
  simpl. now rewrite lower_idempotent, IH.
Qed.

Lemma isWhiteSpace_lower (c : ascii) :
  isWhiteSpace (JS.lower c) = isWhiteSpace c.
Proof. destruct c as [[] [] [] [] [] [] [] []]; reflexivity. Qed.

Lemma isBlank_toLowerCase (s : string) :
  isBlank (JS.toLowerCase s) = isBlank s.
Proof.
  induction s as [| c r IH]; [reflexivity |].
  simpl. now rewrite isWhiteSpace_lower, IH.
Qed.

(** X25. For a keyword and event texts of ASCII characters, searching
    narrows what is shown and ignores the case of the keyword.  A keyword
    that is empty or all white space gives the shown events as they are;
    any other keyword gives, in order, the shown events whose lower-cased
    title, description or course name contains the lower-cased keyword;
    and the keyword in lower case gives the same result as the keyword
    itself. *)
Theorem searchEvents_narrows (keyword : string) (s : t) :
  JS.isAscii keyword = true ->
  Forall (fun e => JS.isAscii (CalendarEvent.title e) = true
                   /\ JS.isAscii (CalendarEvent.description e) = true
                   /\ JS.isAscii (CalendarEvent.courseName e) = true)
         (events s) ->
  (isBlank keyword = true -> searchEvents keyword s = filteredEvents s)
  /\ (isBlank keyword = false ->
      forall e,
        In e (searchEvents keyword s)
        <-> In e (filteredEvents s)
            /\ (JS.includes (JS.toLowerCase (CalendarEvent.title e))
                            (JS.toLowerCase keyword) = true
                \/ JS.includes (JS.toLowerCase (CalendarEvent.description e))
                               (JS.toLowerCase keyword) = true
                \/ JS.includes (JS.toLowerCase (CalendarEvent.courseName e))
                               (JS.toLowerCase keyword) = true))
  /\ (forall e, In e (searchEvents keyword s) -> In e (filteredEvents s))
  /\ searchEvents (JS.toLowerCase keyword) s = searchEvents keyword s.
Proof.
  intros _ _.
  unfold searchEvents. rewrite isBlank_toLowerCase, toLowerCase_idempotent.
  split; [intros ->; reflexivity |].
  split.
  - intros ->. intros e. rewrite filter_In, !orb_true_iff. tauto.
  - split; [| reflexivity].
    destruct (isBlank keyword); [auto |].
    intros e He. apply filter_In in He. tauto.
Qed.

(** X25, at the completed essay, the only event and shown, searched for
    [ESS]. *)
Lemma searchEvents_narrows_witness :
  searchEvents "ess"
    {| events := [completedEvent]; courses := [];
       activeCourseIds := []; loading := false |}
  = searchEvents "ESS"
      {| events := [completedEvent]; courses := [];
         activeCourseIds := []; loading := false |}.
Proof.
  refine (proj2 (proj2 (proj2
            (searchEvents_narrows "ESS"
               {| events := [completedEvent]; courses := [];
                  activeCourseIds := []; loading := false |}
               eq_refl _)))).
  repeat constructor.
Defined.

End ManagerSubjects.

(** ** syncNow *)

Section SyncNow.
Import SyncService.

(** X26. [syncNow] never rejects.  While a sync is in progress it answers
    [Sync already in progress] and touches neither the database nor its
    own fields.  Otherwise it ends with [isSyncing] false; it reports
    success exactly when the scraper succeeded and [processScrapedData]
    was fulfilled, and only then is [lastSyncTime] set, to the time of
    completion; without usable credentials, or when the scraper failed,
    the database is left as it was and the error says why. *)
Theorem syncNow_outcome (clock : Z) (credentials : option Credentials)
    (scraped : ScrapeResult) (ambCourses ambEvents : Ambient)
    (this : Fields) (db : AppDatabase.t) :
  let usable :=
    exists c, credentials = Some c
              /\ is_Some (JS.or_undefined (email c))
              /\ is_Some (JS.or_undefined (password c)) in
  exists r this' db',
    syncNow clock credentials scraped ambCourses ambEvents this db
    = Fulfilled (r, this') db'
    /\ (isSyncing this = true ->
        success r = false
        /\ message r = Some "Sync already in progress"
        /\ this' = this /\ db' = db)
    /\ (isSyncing this = false ->
        isSyncing this' = false
        /\ (success r = true
            <-> usable
                /\ exists courses events,
                     scraped = ScrapeSucceeded courses events
                     /\ processScrapedData ambCourses ambEvents courses
                          events db = Fulfilled tt db'
                     /\ coursesCount r = Some (length courses)
                     /\ eventsCount r = Some (length events))
        /\ lastSyncTime this'
           = (if success r then Some (Instant clock)
              else lastSyncTime this)
        /\ (~ usable ->
            db' = db
            /\ error r = Some "No credentials found. Please log in first.")
        /\ (forall err,
              usable -> scraped = ScrapeFailed err ->
              db' = db
              /\ error r = Some (JS.or_else err "Failed to scrape Schoology"))).
Proof.
  cbv zeta. unfold syncNow.
  destruct (isSyncing this) eqn:Hbusy.
  { eexists _, _, _. split; [reflexivity |].
    split; [auto | discriminate]. }
  assert (Hno : forall (P : Prop),
             ~ P ->
             exists r this' db',
               Fulfilled
                 ({| success := false; message := None;
                     error := Some "No credentials found. Please log in first.";
                     coursesCount := None; eventsCount := None |},
                  {| isSyncing := false; lastSyncTime := lastSyncTime this |})
                 db
               = Fulfilled (r, this') db'
               /\ (false = true -> success r = false
                    /\ message r = Some "Sync already in progress"
                    /\ this' = this /\ db' = db)
               /\ (false = false ->
                   isSyncing this' = false
                   /\ (success r = true
                       <-> P
                           /\ exists courses events,
                                scraped = ScrapeSucceeded courses events
                                /\ processScrapedData ambCourses ambEvents
                                     courses events db = Fulfilled tt db'
                                /\ coursesCount r = Some (length courses)
                                /\ eventsCount r = Some (length events))
                   /\ lastSyncTime this'
                      = (if success r then Some (Instant clock)
                         else lastSyncTime this)
                   /\ (~ P ->
                       db' = db
                       /\ error r
                          = Some "No credentials found. Please log in first.")
                   /\ (forall err,
                         P -> scraped = ScrapeFailed err ->
                         db' = db
                         /\ error r
                            = Some (JS.or_else err
                                      "Failed to scrape Schoology")))).
  { intros P HP. eexists _, _, _. split; [reflexivity |].
    split; [discriminate |]. intros _. cbn.
    split; [reflexivity |]. split; [split; [discriminate | tauto] |].
    split; [reflexivity |]. split; [auto | tauto]. }
  destruct credentials as [c |].
  2: { apply Hno. intros (c & [=] & _). }
  destruct (JS.or_undefined (email c)) as [e |] eqn:He.
  2: { unfold tryCatch, await, throw, resolve. cbn [fst snd lastSyncTime].
       apply Hno. intros (c' & [= <-] & Hsome & _).
       rewrite He in Hsome. now destruct Hsome. }
  destruct (JS.or_undefined (password c)) as [p |] eqn:Hp.
  2: { unfold tryCatch, await, throw, resolve. cbn [fst snd lastSyncTime].
       apply Hno. intros (c' & [= <-] & _ & Hsome).
       rewrite Hp in Hsome. now destruct Hsome. }
  assert (Husable : exists c0, Some c = Some c0
                               /\ is_Some (JS.or_undefined (email c0))
                               /\ is_Some (JS.or_undefined (password c0))).
  { exists c. rewrite He, Hp. eauto. }
  destruct scraped as [err | courses events].
  - eexists _, _, _. split; [reflexivity |].
    split; [discriminate |]. intros _. cbn.
    split; [reflexivity |].
    split; [split; [discriminate | intros (_ & ? & ? & [=] & _)] |].
    split; [reflexivity |].
    split; [tauto |]. intros err' _ [= <-]. auto.
  - unfold tryCatch, await, resolve.
    destruct (processScrapedData ambCourses ambEvents courses events db)
      as [[] db1 | err1 db1] eqn:Hrun.
    + eexists _, _, _. split; [reflexivity |].
      split; [discriminate |]. intros _. cbn -[processScrapedData].
      split; [reflexivity |].
      split; [split; [intros _; split; [exact Husable | eauto 10]
                     | reflexivity] |].
      split; [reflexivity |].
      split; [tauto | discriminate].
    + eexists _, _, _. split; [reflexivity |].
      split; [discriminate |]. intros _. cbn -[processScrapedData].
      split; [reflexivity |].
      split.
      { split; [discriminate |].
        intros (_ & cs & es & Heq & Hful & _).
        injection Heq as Hcs Hes. rewrite <- Hcs, <- Hes, Hrun in Hful.
        discriminate Hful. }
      split; [reflexivity |].
      split; [tauto | discriminate].
Qed.

End SyncNow.

(** * Status, re-import and event types *)

(** ** The status of a row that a reconciliation writes *)

Section WrittenStatus.
Import IcsParserService.

(** A row found after a file import is the row stored before, or a row
    converted at a clock reading of this import, with the status its end
    date gives at that reading. *)
Lemma import_row_status (outer : Ambient) (inner : nat -> Ambient)
    (selectedFiles : list ImportComponent.File) (db : AppDatabase.t)
    (id : string) (e' : CalendarEvent.t) :
  AppDatabase.events
    (dbOf (ImportComponent.processFiles outer inner selectedFiles db)) !! id
  = Some e' ->
  AppDatabase.events db !! id = Some e'
  \/ ((exists k file i,
          selectedFiles !! k = Some file
          /\ CalendarEvent.status e'
             = determineEventStatus (CalendarEvent.endDate e')
                                    (Instant (now (inner k) i)))
      /\ CalendarEvent.status e' <> COMPLETED).
Proof.
  intros H.
  destruct (processFiles_events outer inner selectedFiles db) as [Heq | Heq];
    rewrite Heq in H; [now left |].
  destruct (bulkPut_lookup_cases CalendarEvent.id
              (ImportComponent.gather outer 0
                 (ImportComponent.parseFiles outer inner 0 selectedFiles)).1.2
              (AppDatabase.events db) id) as [Hold | (ev & Hin & _ & Hnew)].
  - left. congruence.
  - right. assert (ev = e') by congruence. subst ev.
    apply imported_event_at in Hin.
    destruct Hin as (k & file & i & entry & Hk & Heq').
    assert (Hstatus : CalendarEvent.status e'
                      = determineEventStatus (CalendarEvent.endDate e')
                                             (Instant (now (inner k) i))).
    { rewrite Heq'. reflexivity. }
    split; [eauto |]. rewrite Hstatus.
    destruct (determineEventStatus_range (CalendarEvent.endDate e')
                (Instant (now (inner k) i))) as [-> | ->]; discriminate.
Qed.

(** A row found after a scrape sync is the row stored before, or a row
    built for a scraped event at the clock reading of its turn, with the
    status its end date gives at that reading. *)
Lemma sync_row_status (ambCourses ambEvents : Ambient)
    (courses : list ScrapedCourse.t) (events : list ScrapedEvent.t)
    (db : AppDatabase.t) (id : string) (e' : CalendarEvent.t) :
  AppDatabase.events
    (dbOf (SyncService.processScrapedData ambCourses ambEvents courses
             events db)) !! id = Some e' ->
  AppDatabase.events db !! id = Some e'
  \/ ((exists i d,
          events !! i = Some d
          /\ CalendarEvent.status e'
             = determineEventStatus (CalendarEvent.endDate e')
                                    (Instant (now ambEvents i)))
      /\ CalendarEvent.status e' <> COMPLETED).
Proof.
  intros H. apply sync_written_rows in H.
  destruct H as [H | (i & d & Hd & ->)]; [now left |].
  right.
  assert (Hstatus : CalendarEvent.status
                      (SyncService.calendarEventOf ambEvents i
                         (JS.or_undefined
                            (SyncService.existingEventMapOf
                               (Dexie.toArray (AppDatabase.events db))
                             !! SyncService.keyOfScraped d)) d)
                    = determineEventStatus
                        (CalendarEvent.endDate
                           (SyncService.calendarEventOf ambEvents i
                              (JS.or_undefined
                                 (SyncService.existingEventMapOf
                                    (Dexie.toArray (AppDatabase.events db))
                                  !! SyncService.keyOfScraped d)) d))
                        (Instant (now ambEvents i))) by reflexivity.
  split; [eauto |]. rewrite Hstatus.
  match goal with
  | |- determineEventStatus ?a ?b <> _ =>
      destruct (determineEventStatus_range a b) as [-> | ->]; discriminate
  end.
Qed.

(** C1 (as amended). A reconciliation does not keep a completed status
    on an event it writes.  After a file import, and after a scrape sync,
    every stored event is either the very row that was stored before, or a
    row written by the reconciliation, whose status is the one its end date
    gives at the time the reconciliation read from the clock when it built
    the row: overdue or upcoming, never completed.  A stored event whose id
    no imported event carries is left as it is by a file import. *)
Theorem reconciliation_status :
  (forall outer inner selectedFiles db id e',
      AppDatabase.events
        (dbOf (ImportComponent.processFiles outer inner selectedFiles db))
        !! id = Some e' ->
      AppDatabase.events db !! id = Some e'
      \/ ((exists k file i,
              selectedFiles !! k = Some file
              /\ CalendarEvent.status e'
                 = determineEventStatus (CalendarEvent.endDate e')
                                        (Instant (now (inner k) i)))
          /\ CalendarEvent.status e' <> COMPLETED))
  /\ (forall ambCourses ambEvents courses events db id e',
         AppDatabase.events
           (dbOf (SyncService.processScrapedData ambCourses ambEvents
                    courses events db)) !! id = Some e' ->
         AppDatabase.events db !! id = Some e'
         \/ ((exists i d,
                 events !! i = Some d
                 /\ CalendarEvent.status e'
                    = determineEventStatus (CalendarEvent.endDate e')
                                           (Instant (now ambEvents i)))
             /\ CalendarEvent.status e' <> COMPLETED))
  /\ (forall outer inner selectedFiles db id e,
         AppDatabase.events db !! id = Some e ->
         (forall ev,
             In ev (ImportComponent.gather outer 0
                      (ImportComponent.parseFiles outer inner 0
                         selectedFiles)).1.2 ->
             CalendarEvent.id ev <> id) ->
         AppDatabase.events
           (dbOf (ImportComponent.processFiles outer inner selectedFiles db))
           !! id = Some e).
Proof.
  split; [| split].
  - intros outer inner files db id e'. apply import_row_status.
  - intros ambCourses ambEvents courses events db id e'.
    apply sync_row_status.
  - intros outer inner files db id e He Hno.
    destruct (processFiles_events outer inner files db) as [-> | ->];
      [assumption |].
    rewrite bulkPut_lookup_other; assumption.
Qed.

(** C1, counterexample. The essay is imported, the user marks it
    completed, and the same file is imported again: the stored status
    goes from completed to overdue. *)
Lemma completed_overwritten_by_reimport :
  (CalendarEvent.status <$>
     AppDatabase.events (afterMark englishFile) !! "uid-1") = Some COMPLETED
  /\ (CalendarEvent.status <$>
        AppDatabase.events (afterSecondImport englishFile) !! "uid-1")
     = Some OVERDUE.
Proof. vm_compute. auto. Qed.

(** C7 (as amended). [determineEventStatus] is a function of the end
    date and the current time alone: overdue exactly when the end date is
    strictly before now, upcoming otherwise, and never completed.  Neither
    a file import nor a scrape sync makes an event completed: an event
    that is completed after one of them was stored before it, as the same
    row.  [markEventCompleted] sets the stored status to completed
    whatever the dates.  With now = 2024-03-10T00:00:00Z, an end date of
    2024-03-09T23:59:59Z is overdue and one of 2024-03-10T00:00:01Z is
    upcoming. *)
Theorem determineEventStatus_spec :
  (forall endDate now : Z,
      (determineEventStatus (Instant endDate) (Instant now) = OVERDUE
       <-> (endDate < now)%Z)
      /\ (determineEventStatus (Instant endDate) (Instant now) = UPCOMING
          <-> (now <= endDate)%Z))
  /\ (forall endDate now : Date,
         determineEventStatus endDate now <> COMPLETED)
  /\ (forall outer inner selectedFiles db id e',
         AppDatabase.events
           (dbOf (ImportComponent.processFiles outer inner selectedFiles db))
           !! id = Some e' ->
         CalendarEvent.status e' = COMPLETED ->
         AppDatabase.events db !! id = Some e')
  /\ (forall ambCourses ambEvents courses events db id e',
         AppDatabase.events
           (dbOf (SyncService.processScrapedData ambCourses ambEvents
                    courses events db)) !! id = Some e' ->
         CalendarEvent.status e' = COMPLETED ->
         AppDatabase.events db !! id = Some e')
  /\ (forall db id e,
         AppDatabase.events db !! id = Some e ->
         AppDatabase.events
           (dbOf (EventManagerService.markEventCompleted id db)) !! id
         = Some (CalendarEvent.withStatus COMPLETED e))
  /\ determineEventStatus (JSDate.parse "2024-03-09T23:59:59Z")
                          (JSDate.parse "2024-03-10T00:00:00Z") = OVERDUE
  /\ determineEventStatus (JSDate.parse "2024-03-10T00:00:01Z")
                          (JSDate.parse "2024-03-10T00:00:00Z") = UPCOMING.
Proof.
  split; [| split; [| split; [| split; [| split; [| split]]]]].
  - intros endDate clock. split.
    + apply determineEventStatus_overdue.
    + apply determineEventStatus_upcoming.
  - intros endDate clock.
    destruct (determineEventStatus_range endDate clock) as [-> | ->];
      discriminate.
  - intros outer inner files db id e' H Hdone.
    apply import_row_status in H. destruct H as [H | [_ H]];
      [exact H | contradiction].
  - intros ambCourses ambEvents courses events db id e' H Hdone.
    apply sync_row_status in H. destruct H as [H | [_ H]];
      [exact H | contradiction].
  - intros db id e H. now apply markEventCompleted_sets.
  - reflexivity.
  - reflexivity.
Qed.

(** C7, counterexample. The classification of an event that is marked
    completed is overdue, not completed: the code's classifier does not
    look at the mark. *)
Lemma determineEventStatus_ignores_completed :
  CalendarEvent.status completedEvent = COMPLETED
  /\ determineEventStatus (CalendarEvent.endDate completedEvent)
                          (JSDate.parse "2024-03-10T00:00:00Z") = OVERDUE.
Proof. split; reflexivity. Qed.

End WrittenStatus.

(** ** Importing one document twice *)

Section SecondImport.
Import ImportComponent Reimport.

(** What the import of one file leaves for an event of the file, when the
    course id generated for the file is not taken. *)
Lemma import_one_rewrites (outer : Ambient) (inner : nat -> Ambient)
    (file : File) (db : AppDatabase.t) (ev : CalendarEvent.t) :
  AppDatabase.courses db !! uniqueId outer 0 = None ->
  In ev (gather outer 0 (parseFiles outer inner 0 [file])).1.2 ->
  exists e2 course i,
    AppDatabase.events (dbOf (processFiles outer inner [file] db))
      !! CalendarEvent.id ev = Some e2
    /\ AppDatabase.courses (dbOf (processFiles outer inner [file] db))
         !! uniqueId outer 0 = Some course
    /\ Course.id course = uniqueId outer 0
    /\ Course.color course = randomColor outer 0
    /\ CalendarEvent.courseId e2 = uniqueId outer 0
    /\ CalendarEvent.courseColor e2 = randomColor outer 0
    /\ CalendarEvent.status e2
       = IcsParserService.determineEventStatus (CalendarEvent.endDate e2)
           (Instant (now (inner 0) i))
    /\ CalendarEvent.status e2 <> COMPLETED.
Proof.
  intros Hnew. rewrite import_one_events, import_one_courses.
  cbn [parseFiles gather].
  destruct (parseFile outer (inner 0) 0 file)
    as [f cid cn cc evs | f err] eqn:Hp; cbn [fst snd]; [| intros []].
  rewrite app_nil_r. intros Hin.
  apply parseFile_events in Hp.
  destruct Hp as (calname & vevents & _ & _ & Hcid & _ & Hcc & Hevs & _).
  subst cid cc. rewrite Hnew.
  destruct (bulkPut_written CalendarEvent.id evs (AppDatabase.events db) ev
              Hin) as (e2 & He2 & _ & Hput).
  rewrite Hevs in He2. apply convert_events_from in He2.
  destruct He2 as (i & entry & _ & He2).
  eexists e2, _, i. split; [exact Hput |].
  split; [apply lookup_insert_eq |].
  cbn [Course.id Course.color].
  split; [reflexivity |]. split; [reflexivity |].
  rewrite He2.
  cbn [IcsParserService.transformToCalendarEvent CalendarEvent.courseId
       CalendarEvent.courseColor CalendarEvent.status CalendarEvent.endDate
       Nat.add].
  split; [reflexivity |]. split; [reflexivity |]. split; [reflexivity |].
  match goal with
  | |- IcsParserService.determineEventStatus ?a ?b <> _ =>
      destruct (determineEventStatus_range a b) as [-> | ->]; discriminate
  end.
Qed.

(** C4 (as amended). Importing the same document a second time creates
    no duplicate when every entry carries a non-empty UID: the number of
    stored events is the same after the second import as after the first,
    and every stored event has the id, title, description, start and end
    dates, type, course name, location, all-day flag, recurrence and raw
    data it had after the first import.  (The first import is one whose
    generated course id is new, so that it is stored.)  Whatever was done
    between the two imports, a second import that creates its course
    leaves every event of the document with the id and the colour of that
    new course and with the status its end date gives at the time of the
    second import, overdue or upcoming: a completed status is not kept. *)
Theorem reimport_same_document (outer1 outer2 : Ambient)
    (inner1 inner2 : nat -> Ambient) (file : File) (db0 : AppDatabase.t) :
  allIdentified file = true ->
  AppDatabase.courses db0 !! uniqueId outer1 0 = None ->
  let db1 := dbOf (processFiles outer1 inner1 [file] db0) in
  let db2 := dbOf (processFiles outer2 inner2 [file] db1) in
  size (AppDatabase.events db2) = size (AppDatabase.events db1)
  /\ (forall id e2,
        AppDatabase.events db2 !! id = Some e2 ->
        exists e1, AppDatabase.events db1 !! id = Some e1
                   /\ sameContent e1 e2)
  /\ (forall db,
        AppDatabase.courses db !! uniqueId outer2 0 = None ->
        forall ev,
          In ev (gather outer2 0 (parseFiles outer2 inner2 0 [file])).1.2 ->
          exists e2 course i,
            AppDatabase.events (dbOf (processFiles outer2 inner2 [file] db))
              !! CalendarEvent.id ev = Some e2
            /\ AppDatabase.courses
                 (dbOf (processFiles outer2 inner2 [file] db))
                 !! uniqueId outer2 0 = Some course
            /\ Course.id course = uniqueId outer2 0
            /\ Course.color course = randomColor outer2 0
            /\ CalendarEvent.courseId e2 = uniqueId outer2 0
            /\ CalendarEvent.courseColor e2 = randomColor outer2 0
            /\ CalendarEvent.status e2
               = IcsParserService.determineEventStatus
                   (CalendarEvent.endDate e2) (Instant (now (inner2 0) i))
            /\ CalendarEvent.status e2 <> COMPLETED).
Proof.
  intros Hid Hnew. cbv zeta.
  split; [| split].
  3: { intros db Hdb ev Hev.
       exact (import_one_rewrites outer2 inner2 file db ev Hdb Hev). }
  all: rewrite (import_one_events outer2 inner2 file).
  all: pose proof (import_one_events outer1 inner1 file db0) as H1.
  all: pose proof (parseFile_twice outer1 outer2 (inner1 0) (inner2 0) file
                     Hid) as Htwice.
  all: pose proof (fun f c n l evs =>
                     parseFile_events outer1 (inner1 0) 0 file f c n l evs)
         as Hc1.
  all: destruct (parseFile outer1 (inner1 0) 0 file)
         as [f1 cid1 cn1 cc1 evs1 | f1 err1];
       destruct (parseFile outer2 (inner2 0) 0 file)
         as [f2 cid2 cn2 cc2 evs2 | f2 err2]; try contradiction.
  all: try (destruct (Hc1 _ _ _ _ _ eq_refl) as (_ & _ & _ & _ & -> & _);
            rewrite Hnew in H1).
  all: set (db1 := dbOf (processFiles outer1 inner1 [file] db0)) in *.
  all: try destruct (AppDatabase.courses db1 !! cid2).
  all: try reflexivity.
  all: try (intros id e2 H; exists e2;
            split; [assumption | apply sameContent_refl]).
  - rewrite <- !size_dom. f_equal. rewrite bulkPut_dom.
    rewrite <- (sameContent_ids _ _ Htwice). rewrite H1, bulkPut_dom.
    apply set_eq. intros x. rewrite !elem_of_union. tauto.
  - intros id e2. rewrite bulkPut_lookup, written_or_kept.
    pose proof (written_sameContent id evs1 evs2 Htwice None None
                  ltac:(constructor)) as Hw.
    destruct (foldl _ None evs2) as [w2 |] eqn:E2.
    + intros [= ->]. inversion Hw as [w1 w2' Hsame Hw1 |]; subst.
      exists w1. split; [| assumption].
      rewrite H1, bulkPut_lookup, written_or_kept. now rewrite <- Hw1.
    + intros H. exists e2. split; [assumption | apply sameContent_refl].
Qed.

(** C4, the theorem at the essay file imported into an empty database,
    and imported again after the essay was marked completed. *)
Lemma reimport_same_document_witness :
  Reimport.allIdentified englishFile = true
  /\ size (AppDatabase.events
             (dbOf (processFiles secondRun (fun _ => secondRunEntries)
                      [englishFile] (afterFirstImport englishFile))))
     = size (AppDatabase.events (afterFirstImport englishFile))
  /\ exists e2 course i,
       AppDatabase.events (afterSecondImport englishFile) !! "uid-1"
       = Some e2
       /\ AppDatabase.courses (afterSecondImport englishFile) !! "run2-0"
          = Some course
       /\ Course.id course = "run2-0"
       /\ Course.color course = "#FF6B6B"
       /\ CalendarEvent.courseId e2 = "run2-0"
       /\ CalendarEvent.courseColor e2 = "#FF6B6B"
       /\ CalendarEvent.status e2
          = IcsParserService.determineEventStatus (CalendarEvent.endDate e2)
              (Instant (now secondRunEntries i))
       /\ CalendarEvent.status e2 <> COMPLETED.
Proof.
  split; [reflexivity |].
  split.
  - exact (proj1 (reimport_same_document firstRun secondRun
                    (fun _ => firstRunEntries) (fun _ => secondRunEntries)
                    englishFile AppDatabase.empty eq_refl eq_refl)).
  - exact (proj2 (proj2 (reimport_same_document firstRun secondRun
                           (fun _ => firstRunEntries)
                           (fun _ => secondRunEntries)
                           englishFile AppDatabase.empty eq_refl eq_refl))
             (afterMark englishFile) eq_refl
             (IcsParserService.transformToCalendarEvent
                1710028800000 "event-run2-0" essayEntry "run2-0" "English"
                "#FF6B6B")
             (or_introl eq_refl)).
Defined.

(** C4, counterexample. The essay is imported, marked completed, and the
    same file is imported again: the stored event now belongs to the course
    made by the second import and is overdue, no longer completed.  For the
    file whose entry has no UID, the second import stores a second
    event. *)
Lemma reimport_changes_fields :
  (CalendarEvent.courseId <$>
     AppDatabase.events (afterMark englishFile) !! "uid-1",
   CalendarEvent.status <$>
     AppDatabase.events (afterMark englishFile) !! "uid-1")
  = (Some "run1-0", Some COMPLETED)
  /\ (CalendarEvent.courseId <$>
        AppDatabase.events (afterSecondImport englishFile) !! "uid-1",
      CalendarEvent.status <$>
        AppDatabase.events (afterSecondImport englishFile) !! "uid-1")
     = (Some "run2-0", Some OVERDUE)
  /\ size (AppDatabase.events (afterFirstImport anonymousFile)) = 1
  /\ size (AppDatabase.events (afterSecondImport anonymousFile)) = 2.
Proof. vm_compute. auto. Qed.

End SecondImport.

(** ** Event types *)

Section EventTypes.
Import IcsParserService.




End EventTypes.
